(** * tc-finder: extraction of training crops from GOES rasters

    A shallow embedding of [training-images.py]: the crop routine
    [crop_image], the nearest-pixel search, the occupancy array [free], the
    positive and negative sampling loops, the per-date driver with its
    catch-all handler, the file names of the crops and the selection of the
    rows of a date by index label; of [goes.py]: [day_of_year],
    [read_aws_creds], [get_s3_keys] and [download_data]; and of
    [ibtracs.py]: [download_data].

    NumPy arrays are lists of rows together with their declared shape,
    Python integers are [Z], IEEE doubles are [spec_float] at precision 53,
    Python strings are lists of characters, dictionaries and the files of a
    directory are finite maps, and the effects of the script (files written,
    log lines, random draws, exceptions) are threaded through a small
    state-and-exception monad. *)

From Stdlib Require Import Ascii String DecimalString DecimalN.
From Stdlib Require Import ZArith List Bool Lia.
From Stdlib Require Import Floats.SpecFloat.
From stdpp Require Import base option list strings gmap.

Local Open Scope Z_scope.

(** ** Python slices *)

Module PySlice.

(** [PySlice_AdjustIndices] for a positive step: a negative bound is taken
    from the end of the axis, then the bound is clamped to [0, len]. *)
Definition adjust_index (len i : Z) : Z :=
  if i <? 0 then Z.max (i + len) 0 else Z.min i len.

(** A slice [start:stop] as the pair of its written bounds. *)
Definition slice : Type := Z * Z.

Definition indices (len : Z) (s : slice) : Z * Z :=
  (adjust_index len (fst s), adjust_index len (snd s)).

Definition slice_length (len : Z) (s : slice) : Z :=
  let '(lo, hi) := indices len s in
  if lo <? hi then hi - lo else 0.

(** The positions an axis of length [len] keeps under the slice. *)
Definition selects (len : Z) (s : slice) (i : Z) : bool :=
  let '(lo, hi) := indices len s in
  (lo <=? i) && (i <? hi).

(** The elements of [l] at the resolved positions. *)
Definition getslice {A} (len : Z) (s : slice) (l : list A) : list A :=
  let '(lo, hi) := indices len s in
  take (Z.to_nat (hi - lo)) (drop (Z.to_nat lo) l).

(** [l[start:stop] = v]: the elements at the resolved positions are
    rewritten, counting positions from [i]. *)
Fixpoint update_from {A} (lo hi i : Z) (f : A -> A) (l : list A) : list A :=
  match l with
  | [] => []
  | x :: l' =>
      (if (lo <=? i) && (i <? hi) then f x else x)
        :: update_from lo hi (i + 1) f l'
  end.

Definition setslice {A} (len : Z) (s : slice) (f : A -> A) (l : list A) : list A :=
  let '(lo, hi) := indices len s in
  update_from lo hi 0 f l.

End PySlice.

(** ** Two-dimensional arrays *)

Record ndarray (A : Type) : Type := mk_ndarray {
  shape : Z * Z;
  cells : list (list A)
}.
Arguments mk_ndarray {A} _ _.
Arguments shape {A} _.
Arguments cells {A} _.

(** The rows agree with the declared shape. *)
Definition well_shaped {A} (a : ndarray A) : Prop :=
  0 <= fst (shape a) /\ 0 <= snd (shape a) /\
  Z.of_nat (length (cells a)) = fst (shape a) /\
  Forall (fun row => Z.of_nat (length row) = snd (shape a)) (cells a).

(** [a[ys, xs]] with two slices (basic indexing). *)
Definition getitem {A} (a : ndarray A) (ys xs : PySlice.slice) : ndarray A :=
  {| shape := (PySlice.slice_length (fst (shape a)) ys,
               PySlice.slice_length (snd (shape a)) xs);
     cells := map (PySlice.getslice (snd (shape a)) xs)
                  (PySlice.getslice (fst (shape a)) ys (cells a)) |}.

(** [a[ys, xs] = v]. *)
Definition setitem {A} (a : ndarray A) (ys xs : PySlice.slice) (v : A) : ndarray A :=
  {| shape := shape a;
     cells := PySlice.setslice (fst (shape a)) ys
                (PySlice.setslice (snd (shape a)) xs (fun _ => v)) (cells a) |}.

(** [np.ones((n0, n1))]; the cells of the occupancy array are the doubles
    1.0 and 0.0, written here as the integers 1 and 0. *)
Definition ones (n0 n1 : Z) : ndarray Z :=
  {| shape := (n0, n1);
     cells := replicate (Z.to_nat n0) (replicate (Z.to_nat n1) 1) |}.

(** [(a == 1).all()]. *)
Definition all_eq_1 (a : ndarray Z) : bool :=
  forallb (forallb (Z.eqb 1)) (cells a).

(** [0 in a.shape]. *)
Definition zero_in_shape {A} (a : ndarray A) : bool :=
  (fst (shape a) =? 0) || (snd (shape a) =? 0).

(** The cell at row [r], column [c], when the array has one. *)
Definition cell {A} (a : ndarray A) (r c : nat) : option A :=
  cells a !! r ≫= (.!! c).

(** The window [yInd-buffer:yInd+buffer, xInd-buffer:xInd+buffer] the script
    writes at every crop, test and mark. *)
Definition ywin (yInd buffer : Z) : PySlice.slice := (yInd - buffer, yInd + buffer).
Definition xwin (xInd buffer : Z) : PySlice.slice := (xInd - buffer, xInd + buffer).

(** The cells of an array of shape [sh] that the window selects. *)
Definition footprint (sh : Z * Z) (xInd yInd buffer : Z) (r c : Z) : bool :=
  PySlice.selects (fst sh) (ywin yInd buffer) r &&
  PySlice.selects (snd sh) (xwin xInd buffer) c.

(** ** IEEE doubles and the nearest-pixel search *)

Module Float64.

Definition float : Type := spec_float.
Definition prec : Z := 53.
Definition emax : Z := 1024.

Definition fsub : float -> float -> float := SFsub prec emax.
Definition fmul : float -> float -> float := SFmul prec emax.
Definition fabs : float -> float := SFabs.
Definition fle : float -> float -> bool := SFleb.
Definition flt : float -> float -> bool := SFltb.
Definition pinf : float := S754_infinity false.

Definition is_nan (v : float) : bool :=
  match v with S754_nan => true | _ => false end.

(** Integers that a double holds exactly, for the examples. *)
Definition of_Z (z : Z) : float := binary_normalize prec emax z 0 false.

End Float64.

Import Float64.

(** The exceptions of the model: [ValueError] is what NumPy raises (an
    all-NaN or empty array to [nanargmin], an empty range to [randint]);
    [DownloadError] stands for whatever [goes.download_data] raises. *)
Inductive exn : Type :=
| ValueError
| DownloadError.

(** What a Python call comes to: a value, an exception, or (for the model
    only) a loop that used up the steps it was given. *)
Inductive outcome (A : Type) : Type :=
| Returned (a : A)
| Raised (e : exn)
| OutOfFuel.
Arguments Returned {A} a.
Arguments Raised {A} e.
Arguments OutOfFuel {A}.

Module Numpy.

(** [np.argmin] over doubles keeps the first index whose value is not
    [>=] the running minimum, and stops at a NaN. *)
Fixpoint argmin_loop (mp : float) (min_ind i : nat) (a : list float) : nat :=
  match a with
  | [] => min_ind
  | v :: a' =>
      if negb (fle mp v)
      then (if is_nan v then i else argmin_loop v i (S i) a')
      else argmin_loop mp min_ind (S i) a'
  end.

Definition argmin (a : list float) : outcome Z :=
  match a with
  | [] => Raised ValueError
  | v :: a' => Returned (Z.of_nat (if is_nan v then O else argmin_loop v 0 1 a'))
  end.

(** [np.nanargmin]: NaN entries are replaced by +inf, an all-NaN (or empty)
    array raises, and the rest is [np.argmin]. *)
Definition replace_nan (a : list float) : list float * list bool :=
  (map (fun v => if is_nan v then pinf else v) a, map is_nan a).

Definition nanargmin (a : list float) : outcome Z :=
  let '(a', mask) := replace_nan a in
  if forallb id mask then Raised ValueError else argmin a'.

(** [abs(axis - t)], elementwise. *)
Definition abs_diff (axis : list float) (t : float) : list float :=
  map (fun v => fabs (fsub v t)) axis.

End Numpy.

(** ** The data the script works on *)

Inductive sweep : Type := SweepX | SweepY.

(** The dataset [ds] that [goes.download_data] returns: the radiance array
    [ds.Rad], the scanning-angle axes [ds.variables['x']], [ds.variables['y']]
    and the attributes of [ds.goes_imager_projection]. *)
Record dataset : Type := mk_dataset {
  Rad : ndarray float;
  var_x : list float;
  var_y : list float;
  perspective_point_height : float;
  longitude_of_projection_origin : float;
  sweep_angle_axis : sweep;
  semi_major_axis : float;
  semi_minor_axis : float
}.

(** A row of the IBTrACS frame [df], already restricted to tropical storms. *)
Record track_row : Type := mk_track_row {
  ISO_TIME : Z;
  LAT : float;
  LON : float
}.

Inductive kind : Type := Positive | Negative.

(** [figPath]: the directory (by kind) and the [figPart] naming key: the
    date (which the script prints to the hour), the center and the buffer. *)
Record fig_path : Type := mk_fig_path {
  fig_kind : kind;
  fig_date : Z;
  fig_xInd : Z;
  fig_yInd : Z;
  fig_buffer : Z
}.

(** One crop written to disk (the netCDF file and the PNG of the same data). *)
Record sample : Type := mk_sample {
  s_path : fig_path;
  s_data : ndarray float
}.

Inductive log_record : Type :=
| InfoReading
| InfoDate (date : Z)
| DebugDownloading
| DebugProjecting
| DebugSaving
| ErrorSaving
| InfoTotalTime.

(** ** Effects *)

(** The files written so far, the log, and how many random integers have
    been drawn. *)
Record world : Type := mk_world {
  saved : list sample;
  logged : list log_record;
  draws : nat
}.

Definition M (A : Type) : Type := world -> world * outcome A.

Definition ret {A} (a : A) : M A := fun w => (w, Returned a).

Definition raise {A} (e : exn) : M A := fun w => (w, Raised e).

Definition bind {A B} (c : M A) (k : A -> M B) : M B :=
  fun w =>
    match c w with
    | (w', Returned a) => k a w'
    | (w', Raised e) => (w', Raised e)
    | (w', OutOfFuel) => (w', OutOfFuel)
    end.

Definition lift {A} (o : outcome A) : M A := fun w => (w, o).

Notation "'let*' x ':=' c 'in' k" := (bind c (fun x => k))
  (at level 10, x name, c at level 100, k at level 200, only parsing).
Notation "c ;;; k" := (bind c (fun _ => k))
  (at level 100, k at level 200, right associativity, only parsing).

(** [try: body except: handler]; a bare [except] catches every exception,
    and what the body did before raising stays done. *)
Definition try_except (body handler : M unit) : M unit :=
  fun w =>
    match body w with
    | (w', Raised _) => handler w'
    | r => r
    end.

Definition log (r : log_record) : M unit :=
  fun w => ({| saved := saved w; logged := logged w ++ [r]; draws := draws w |},
            Returned tt).

Definition save (s : sample) : M unit :=
  fun w => ({| saved := saved w ++ [s]; logged := logged w; draws := draws w |},
            Returned tt).

(** [df['ISO_TIME'].unique()]: the distinct values, in order of first
    appearance. *)
Fixpoint unique_from (seen : list Z) (l : list Z) : list Z :=
  match l with
  | [] => []
  | d :: l' =>
      if existsb (Z.eqb d) seen then unique_from seen l'
      else d :: unique_from (d :: seen) l'
  end.

Definition unique (l : list Z) : list Z := unique_from [] l.

Definition myDPI : Z := 166.

(** [int(myDPI*1.5)], that is 249. *)
Definition script_buffer : Z := myDPI * 15 / 10.

(** The state of the negative-sampling loop. *)
Record loop_state : Type := mk_loop_state {
  free : ndarray Z;
  negativeCount : Z;
  attemptCount : Z
}.

(** ** The script *)

(** [crop_image(ds, xInd, yInd, buffer, myDPI, figPath)]: subset the data and,
    unless a dimension of the subset is 0, write it out.  [dpi] only sizes
    the figure. *)
Definition crop_image (ds : dataset) (xInd yInd buffer dpi : Z)
    (figPath : fig_path) : M unit :=
  let data := getitem (Rad ds) (ywin yInd buffer) (xwin xInd buffer) in
  if negb (zero_in_shape data)
  then save {| s_path := figPath; s_data := data |}
  else ret tt.

(** Lines 129-130: the index of the axis value closest to the track
    position, on the x axis and then on the y axis. *)
Definition nearest_pixel (x y : list float) (trackX trackY : float)
    : outcome (Z * Z) :=
  match Numpy.nanargmin (Numpy.abs_diff x trackX) with
  | Returned xInd =>
      match Numpy.nanargmin (Numpy.abs_diff y trackY) with
      | Returned yInd => Returned (xInd, yInd)
      | Raised e => Raised e
      | OutOfFuel => OutOfFuel
      end
  | Raised e => Raised e
  | OutOfFuel => OutOfFuel
  end.

(** Lines 98-99: the scanning angles times the satellite height. *)
Definition scaled_axis (axis : list float) (satHeight : float) : list float :=
  map (fun v => fmul v satHeight) axis.

(** Lines 102-103: [nx, ny = ds.Rad.shape] and [free = np.ones((ny,nx))]. *)
Definition occupancy (ds : dataset) : Z * Z * ndarray Z :=
  let '(nx, ny) := shape (Rad ds) in
  (nx, ny, ones ny nx).

Section Script.

(** The half-width of a crop, in pixels. *)
Variable buffer : Z.

(** [pyproj.Proj(proj='geos', h=..., lon_0=..., sweep=...)], applied to a
    longitude and a latitude. *)
Variable Proj : float -> float -> sweep -> float -> float -> float * float.

(** [goes.download_data] for a date; [None] when it raises. *)
Variable download_data : Z -> option dataset.

(** The integers behind [np.random]. *)
Variable rng : nat -> Z.

(** The IBTrACS frame. *)
Variable df : list track_row.

(** [np.random.randint(low, high, size=1)[0]]: a value of [low, high), or
    [ValueError] when the range is empty. *)
Definition randint (low high : Z) : M Z :=
  fun w =>
    if low <? high
    then ({| saved := saved w; logged := logged w; draws := S (draws w) |},
          Returned (low + rng (draws w) mod (high - low)))
    else (w, Raised ValueError).

(** Lines 116-140: one crop per track point of the date, each marked in
    [free]. *)
Fixpoint positive_loop (ds : dataset) (dt : Z) (x y : list float)
    (p : float -> float -> float * float) (rows : list track_row)
    (free0 : ndarray Z) : M (ndarray Z) :=
  match rows with
  | [] => ret free0
  | row :: rows' =>
      let trackLat := LAT row in
      let trackLon := LON row in
      let '(trackX, trackY) := p trackLon trackLat in
      let* ind := lift (nearest_pixel x y trackX trackY) in
      let '(xInd, yInd) := ind in
      crop_image ds xInd yInd buffer myDPI
        (mk_fig_path Positive dt xInd yInd buffer) ;;;
      positive_loop ds dt x y p rows'
        (setitem free0 (ywin yInd buffer) (xwin xInd buffer) 0)
  end.

(** Lines 149-166: one draw, tested against [free] and taken when the whole
    window is free. *)
Definition negative_draw (ds : dataset) (dt nx ny : Z) (st : loop_state)
    : M loop_state :=
  let* xInd := randint buffer (nx - buffer) in
  let* yInd := randint buffer (ny - buffer) in
  if all_eq_1 (getitem (free st) (ywin yInd buffer) (xwin xInd buffer))
  then
    crop_image ds xInd yInd buffer myDPI
      (mk_fig_path Negative dt xInd yInd buffer) ;;;
    ret {| free := setitem (free st) (ywin yInd buffer) (xwin xInd buffer) 0;
           negativeCount := negativeCount st + 1;
           attemptCount := attemptCount st |}
  else ret st.

(** Lines 146-171: the [while] loop, unfolded at most [fuel] times. *)
Fixpoint negative_loop (fuel : nat) (ds : dataset) (dt nx ny : Z)
    (target maxAttemptCount : Z) (st : loop_state) : M loop_state :=
  match fuel with
  | O => lift OutOfFuel
  | S fuel' =>
      if negativeCount st <? target then
        let* st1 := negative_draw ds dt nx ny st in
        let st2 := {| free := free st1;
                      negativeCount := negativeCount st1;
                      attemptCount := attemptCount st1 + 1 |} in
        if attemptCount st2 >? maxAttemptCount then ret st2
        else negative_loop fuel' ds dt nx ny target maxAttemptCount st2
      else ret st
  end.

(** Lines 143-171. *)
Definition negative_phase (fuel : nat) (ds : dataset) (dt nx ny : Z)
    (target : Z) (free0 : ndarray Z) : M loop_state :=
  let maxAttemptCount := 5 * target in
  negative_loop fuel ds dt nx ny target maxAttemptCount
    {| free := free0; negativeCount := 0; attemptCount := 0 |}.

(** Lines 92-171: the samples of one raster. *)
Definition sample_raster (fuel : nat) (ds : dataset) (date : Z)
    : M loop_state :=
  let satHeight := perspective_point_height ds in
  let satLon := longitude_of_projection_origin ds in
  let satSweep := sweep_angle_axis ds in
  let x := scaled_axis (var_x ds) satHeight in
  let y := scaled_axis (var_y ds) satHeight in
  let '(nx, ny, free0) := occupancy ds in
  let p := Proj satHeight satLon satSweep in
  let dfSubset := filter (fun row => ISO_TIME row =? date) df in
  log DebugSaving ;;;
  let* free1 := positive_loop ds date x y p dfSubset free0 in
  negative_phase fuel ds date nx ny (Z.of_nat (length dfSubset)) free1.

(** Lines 86-174: the body of the [try]. *)
Definition process_date (fuel : nat) (date : Z) : M unit :=
  let* ds := match download_data date with
             | Some ds => ret ds
             | None => raise DownloadError
             end in
  log DebugProjecting ;;;
  sample_raster fuel ds date ;;;
  ret tt.

(** Lines 72-177: every distinct date, each under its own [try]. *)
Fixpoint date_loop (fuel : nat) (dates : list Z) : M unit :=
  match dates with
  | [] => ret tt
  | date :: dates' =>
      log (InfoDate date) ;;;
      log DebugDownloading ;;;
      try_except (process_date fuel date) (log ErrorSaving) ;;;
      date_loop fuel dates'
  end.

Definition main (fuel : nat) : M unit :=
  log InfoReading ;;;
  date_loop fuel (unique (map ISO_TIME df)) ;;;
  log InfoTotalTime.

End Script.

Definition initial_world : world :=
  {| saved := []; logged := []; draws := O |}.

(** ** Reference definitions and example inputs *)

(** The window as the specification words it: rows [row-buffer, row+buffer)
    and columns [col-buffer, col+buffer), clipped to [0, ny) x [0, nx). *)
Definition clipped_window (sh : Z * Z) (xInd yInd buffer r c : Z) : bool :=
  (Z.max 0 (yInd - buffer) <=? r) && (r <? Z.min (fst sh) (yInd + buffer)) &&
  (Z.max 0 (xInd - buffer) <=? c) && (c <? Z.min (snd sh) (xInd + buffer)).

(** A cell of the occupancy array that has been marked. *)
Definition marked (a : ndarray Z) (r c : Z) : bool :=
  (0 <=? r) && (0 <=? c) &&
  match cell a (Z.to_nat r) (Z.to_nat c) with
  | Some v => v =? 0
  | None => false
  end.

(** The cells of the raster that a written sample covers. *)
Definition sample_footprint (s : sample) (sh : Z * Z) (r c : Z) : bool :=
  footprint sh (fig_xInd (s_path s)) (fig_yInd (s_path s))
    (fig_buffer (s_path s)) r c.

Definition is_finite (v : float) : bool :=
  match v with
  | S754_zero _ | S754_finite _ _ _ => true
  | _ => false
  end.

(** A raster of the given shape with the same radiance everywhere. *)
Definition constant_Rad (n0 n1 : Z) : ndarray float :=
  {| shape := (n0, n1);
     cells := replicate (Z.to_nat n0) (replicate (Z.to_nat n1) (of_Z 7)) |}.

(** The axis whose coordinate at index [i] is [i]. *)
Definition index_axis (n : Z) : list float :=
  map (fun i => of_Z (Z.of_nat i)) (seq 0 (Z.to_nat n)).

(** A dataset of [n0] rows and [n1] columns at unit satellite height, so
    that a planar coordinate is the index of its pixel. *)
Definition grid_dataset (n0 n1 : Z) : dataset :=
  {| Rad := constant_Rad n0 n1;
     var_x := index_axis n1;
     var_y := index_axis n0;
     perspective_point_height := of_Z 1;
     longitude_of_projection_origin := of_Z 0;
     sweep_angle_axis := SweepX;
     semi_major_axis := of_Z 1;
     semi_minor_axis := of_Z 1 |}.

(** A projection that hands the track position through unchanged. *)
Definition plain_Proj (h lon_0 : float) (s : sweep) (lon lat : float)
    : float * float := (lon, lat).

(** [c] writes nothing but samples that satisfy [P], after the files that
    were there. *)
Definition emits {A} (P : sample -> Prop) (c : M A) : Prop :=
  forall w w' r, c w = (w', r) ->
  exists new, saved w' = saved w ++ new /\ Forall P new.

(** Where a sample written for [date] from [ds] comes from: it carries the
    date and the buffer, its data is the window of [ds.Rad] around its
    center, no dimension of it is 0, and the center of a negative sample was
    drawn from [buffer, nx - buffer) x [buffer, ny - buffer) with
    [nx, ny = ds.Rad.shape]. *)
Definition provenance (buffer : Z) (ds : dataset) (date : Z) (s : sample)
    : Prop :=
  fig_date (s_path s) = date /\
  fig_buffer (s_path s) = buffer /\
  s_data s = getitem (Rad ds) (ywin (fig_yInd (s_path s)) buffer)
                              (xwin (fig_xInd (s_path s)) buffer) /\
  zero_in_shape (s_data s) = false /\
  (fig_kind (s_path s) = Negative ->
   buffer <= fig_xInd (s_path s) < fst (shape (Rad ds)) - buffer /\
   buffer <= fig_yInd (s_path s) < snd (shape (Rad ds)) - buffer).

(** A sample whose date has a downloaded dataset that it comes from. *)
Definition traced (buffer : Z) (download_data : Z -> option dataset)
    (s : sample) : Prop :=
  exists ds, download_data (fig_date (s_path s)) = Some ds /\
             provenance buffer ds (fig_date (s_path s)) s.

(** [i] is the first index at which the list of differences [d] is least. *)
Definition first_minimum (d : list float) (i : nat) : Prop :=
  exists di, d !! i = Some di /\
    (forall j dj, d !! j = Some dj -> fle di dj = true) /\
    (forall j dj, (j < i)%nat -> d !! j = Some dj -> flt di dj = true).

(** The axes of a dataset have the lengths of the dimensions of [ds.Rad]:
    [y] along the rows, [x] along the columns. *)
Definition coherent (ds : dataset) : Prop :=
  Z.of_nat (length (var_y ds)) = fst (shape (Rad ds)) /\
  Z.of_nat (length (var_x ds)) = snd (shape (Rad ds)).

(** The order of the doubles that are not NaN, read off a triple of
    integers compared from left to right. *)
Definition key (v : float) : Z * Z * Z :=
  match v with
  | S754_infinity true => (-2, 0, 0)
  | S754_finite true m e => (-1, - e, Z.neg m)
  | S754_zero _ => (0, 0, 0)
  | S754_finite false m e => (1, e, Z.pos m)
  | S754_infinity false => (2, 0, 0)
  | S754_nan => (3, 0, 0)
  end.

Definition lex_lt (a b : Z * Z * Z) : Prop :=
  fst (fst a) < fst (fst b) \/
  (fst (fst a) = fst (fst b) /\
   (snd (fst a) < snd (fst b) \/
    (snd (fst a) = snd (fst b) /\ snd a < snd b))).

(** The dates announced in a log, in order. *)
Fixpoint dates_logged (l : list log_record) : list Z :=
  match l with
  | [] => []
  | InfoDate d :: l' => d :: dates_logged l'
  | _ :: l' => dates_logged l'
  end.

(** The marked cells are exactly the cells under the samples written. *)
Definition marks_agree (sh : Z * Z) (a : ndarray Z) (new : list sample) : Prop :=
  forall r c,
    marked a r c = true <->
    exists s, In s new /\ sample_footprint s sh r c = true.

(** No negative sample shares a cell with a sample written before it. *)
Definition negatives_apart (sh : Z * Z) (new : list sample) : Prop :=
  forall (i j : nat) (s' s : sample),
    (i < j)%nat -> new !! i = Some s' -> new !! j = Some s ->
    fig_kind (s_path s) = Negative ->
    forall r c, sample_footprint s sh r c = true ->
                sample_footprint s' sh r c = false.

(** The positive samples come before the negative ones. *)
Definition positives_first (new : list sample) : Prop :=
  forall (i j : nat) (s' s : sample),
    (i < j)%nat -> new !! i = Some s' -> new !! j = Some s ->
    fig_kind (s_path s) = Positive -> fig_kind (s_path s') = Positive.

(** What ties the occupancy array of a raster of shape [sh] to the samples
    [new] written for it so far. *)
Definition occupancy_invariant (sh : Z * Z) (a : ndarray Z)
    (new : list sample) : Prop :=
  well_shaped a /\ shape a = sh /\
  marks_agree sh a new /\ negatives_apart sh new /\ positives_first new.

(** ** Further reference definitions *)

Definition is_kind (k : kind) (s : sample) : Prop := fig_kind (s_path s) = k.

(** The rows of the frame that carry a date: [df[df['ISO_TIME'] == date]]. *)
Definition rows_of_date (df : list track_row) (date : Z) : list track_row :=
  filter (fun row => ISO_TIME row =? date) df.

(** ** Retrieval of a GOES raster ([goes.py]) *)

Module Goes.

(** Python strings are lists of characters; [str] names a literal. *)
Definition pystr : Type := list ascii.

Definition str (s : string) : pystr := list_ascii_of_string s.

Inductive error : Type := OSError | IndexError | KeyError | ValueError.

Inductive result (A : Type) : Type :=
| Ok (a : A)
| Err (e : error)
| OutOfSteps.

Arguments Ok {A} a.
Arguments Err {A} e.
Arguments OutOfSteps {A}.

(** *** [datetime] *)

Record datetime : Type := mk_datetime {
  year : Z;
  month : Z;
  day : Z;
  hour : Z;
  minute : Z;
  second : Z;
  microsecond : Z
}.

Definition is_leap (y : Z) : bool :=
  (y mod 4 =? 0) && (negb (y mod 100 =? 0) || (y mod 400 =? 0)).

Definition DAYS_IN_MONTH : list Z :=
  [-1; 31; 28; 31; 30; 31; 30; 31; 31; 30; 31; 30; 31].

Definition DAYS_BEFORE_MONTH : list Z :=
  [-1; 0; 31; 59; 90; 120; 151; 181; 212; 243; 273; 304; 334].

Definition days_in_month (y m : Z) : Z :=
  if (m =? 2) && is_leap y then 29 else nth (Z.to_nat m) DAYS_IN_MONTH 0.

Definition days_before_year (y : Z) : Z :=
  let y := y - 1 in y * 365 + y / 4 - y / 100 + y / 400.

Definition days_before_month (y m : Z) : Z :=
  nth (Z.to_nat m) DAYS_BEFORE_MONTH 0 +
  (if (2 <? m) && is_leap y then 1 else 0).

Definition ymd2ord (y m d : Z) : Z :=
  days_before_year y + days_before_month y m + d.

Definition toordinal (d : datetime) : Z := ymd2ord (year d) (month d) (day d).

(** The field ranges the [datetime] constructor accepts. *)
Definition check_fields (d : datetime) : bool :=
  (1 <=? year d) && (year d <=? 9999) &&
  (1 <=? month d) && (month d <=? 12) &&
  (1 <=? day d) && (day d <=? days_in_month (year d) (month d)) &&
  (0 <=? hour d) && (hour d <? 24) &&
  (0 <=? minute d) && (minute d <? 60) &&
  (0 <=? second d) && (second d <? 60) &&
  (0 <=? microsecond d) && (microsecond d <? 1000000).

(** Comparison of two datetimes: the field tuples, lexicographically. *)
Fixpoint cmp (a b : list Z) : comparison :=
  match a, b with
  | [], [] => Eq
  | [], _ :: _ => Lt
  | _ :: _, [] => Gt
  | x :: a', y :: b' =>
      match x ?= y with
      | Eq => cmp a' b'
      | c => c
      end
  end.

Definition fields (d : datetime) : list Z :=
  [year d; month d; day d; hour d; minute d; second d; microsecond d].

Definition datetime_lt (a b : datetime) : bool :=
  match cmp (fields a) (fields b) with
  | Lt => true
  | _ => false
  end.

(** The [days] attribute of [timedelta(days, seconds, microseconds)] after
    normalisation: microseconds carry into seconds, seconds into days. *)
Definition timedelta_days (days seconds microseconds : Z) : Z :=
  let seconds := seconds + microseconds / 1000000 in
  days + seconds / 86400.

(** [(a - b).days] *)
Definition sub_days (a b : datetime) : Z :=
  let secs1 := second a + minute a * 60 + hour a * 3600 in
  let secs2 := second b + minute b * 60 + hour b * 3600 in
  timedelta_days (toordinal a - toordinal b) (secs1 - secs2)
    (microsecond a - microsecond b).

Definition day_of_year (date : datetime) : Z :=
  let year := year date in
  let firstDay := mk_datetime year 1 1 0 0 0 0 in
  sub_days date firstDay + 1.

(** *** String formatting *)

(** The decimal digits of a natural number. *)
Definition digits (n : N) : pystr :=
  list_ascii_of_string (NilEmpty.string_of_uint (N.to_uint n)).

(** [str(n)] and [f'{n}'] for an integer. *)
Definition str_int (n : Z) : pystr :=
  if n <? 0 then "-"%char :: digits (Z.to_N (- n)) else digits (Z.to_N n).

Definition zfill (width : nat) (s : pystr) : pystr :=
  repeat "0"%char (width - length s) ++ s.

(** [f'{n:0w.0f}'] for an integer [n]: the integer is converted to a double
    and printed without decimals, zero-padded after the sign to [w]
    characters.  The conversion is exact for [|n| <= 2^53], the range this
    definition covers. *)
Definition format_0f (width : nat) (n : Z) : pystr :=
  if n <? 0 then "-"%char :: zfill (width - 1) (digits (Z.to_N (- n)))
  else zfill width (digits (Z.to_N n)).

(** *** Splitting *)

(** [s.split(sep)] for a one-character separator. *)
Fixpoint split (sep : ascii) (s : pystr) : list pystr :=
  match s with
  | [] => [[]]
  | c :: s' =>
      if Ascii.eqb c sep then [] :: split sep s'
      else match split sep s' with
           | [] => [[c]]
           | w :: ws => (c :: w) :: ws
           end
  end.

(** [sep.join(parts)] *)
Fixpoint join (sep : ascii) (parts : list pystr) : pystr :=
  match parts with
  | [] => []
  | [p] => p
  | p :: ps => p ++ sep :: join sep ps
  end.

Fixpoint startswith (s prefix : pystr) : bool :=
  match prefix, s with
  | [], _ => true
  | _ :: _, [] => false
  | p :: prefix', c :: s' => Ascii.eqb c p && startswith s' prefix'
  end.

(** *** Credentials *)

Section Credentials.

(** [open_ path] is the text [open(path,'r').read()] returns, [None] when
    the file cannot be opened. *)
Variable open_ : pystr -> option pystr.

Definition read_aws_creds (credPath : pystr) : result (list pystr) :=
  match open_ credPath with
  | None => Err OSError
  | Some creds =>
      match split "010"%char creds !! 1%nat with
      | None => Err IndexError
      | Some line => Ok (split ","%char line)
      end
  end.

End Credentials.

(** *** Listing a bucket *)

Record s3_object : Type := mk_object { Key : pystr }.

(** A reply of [list_objects_v2]: both entries may be missing. *)
Record list_response : Type := mk_response {
  Contents : option (list s3_object);
  NextContinuationToken : option pystr
}.

Definition s3_client : Type := gmap pystr pystr -> list_response.

(** The body of the [while True] loop of [get_s3_keys]: the keys yielded so
    far and how the generator ended. *)
Fixpoint list_pages (fuel : nat) (s3Client : s3_client) (prefix : pystr)
  (kwargs : gmap pystr pystr) : list pystr * result unit :=
  match fuel with
  | O => ([], OutOfSteps)
  | S fuel' =>
      let resp := s3Client kwargs in
      match Contents resp with
      | None => ([], Err KeyError)
      | Some objs =>
          let yielded :=
            List.filter (fun key => startswith key prefix) (map Key objs) in
          match NextContinuationToken resp with
          | Some token =>
              let '(rest, r) :=
                list_pages fuel' s3Client prefix
                  (<[str "ContinuationToken" := token]> kwargs) in
              (yielded ++ rest, r)
          | None => (yielded, Ok tt)
          end
      end
  end.

Definition get_s3_keys (fuel : nat) (bucket : pystr) (s3Client : s3_client)
  (prefix : pystr) : list pystr * result unit :=
  let kwargs : gmap pystr pystr := {[ str "Bucket" := bucket ]} in
  let kwargs := <[str "Prefix" := prefix]> kwargs in
  list_pages fuel s3Client prefix kwargs.

(** *** [download_data] *)

Definition scan_mode (date : datetime) : pystr :=
  if datetime_lt date (mk_datetime 2019 4 2 16 0 0 0) then str "M3"
  else str "M6".

Definition prefix_of (product : pystr) (date : datetime) (band : Z) : pystr :=
  let year := year date in
  let day := day_of_year date in
  let hour := hour date in
  let scanMode := scan_mode date in
  product ++ str "/" ++ str_int year ++ str "/" ++ format_0f 3 day ++
  str "/" ++ format_0f 2 hour ++ str "/OR_" ++ product ++ str "-" ++
  scanMode ++ str "C" ++ format_0f 2 band.

Definition object_url (bucketName key : pystr) : pystr :=
  str "https://" ++ bucketName ++ str ".s3.amazonaws.com/" ++ key.

(** [key.split('/')[-1].split('.')[0]] *)
Definition file_name (key : pystr) : pystr :=
  hd [] (split "."%char (List.last (split "/"%char key) [])).

Section Download.

Variable open_ : pystr -> option pystr.

(** [boto3_client keyID key] is [list_objects_v2] of the client made with
    these credentials. *)
Variable boto3_client : pystr -> pystr -> s3_client.

(** [requests_get url] is the body of the reply, [None] when the request
    raises (a [RequestException], which is an [OSError]). *)
Variable requests_get : pystr -> option pystr.

(** [open_dataset fileName content] is the dataset read from the bytes,
    [None] when netCDF4 rejects them with an [OSError]. *)
Variable open_dataset : pystr -> pystr -> option dataset.

Definition download_data (fuel : nat) (date : datetime)
  (credPath bucketName product : pystr) (band : Z) : result dataset :=
  match read_aws_creds open_ credPath with
  | Ok [keyID; key] =>
      let s3Client := boto3_client keyID key in
      let prefix := prefix_of product date band in
      let '(keys, r) := get_s3_keys fuel bucketName s3Client prefix in
      match r with
      | Ok _ =>
          match keys with
          | [] => Err IndexError
          | key :: _ =>
              match requests_get (object_url bucketName key) with
              | None => Err OSError
              | Some content =>
                  let fileName := file_name key in
                  match open_dataset fileName content with
                  | None => Err OSError
                  | Some ds => Ok ds
                  end
              end
          end
      | Err e => Err e
      | OutOfSteps => OutOfSteps
      end
  | Ok _ => Err ValueError
  | Err e => Err e
  | OutOfSteps => OutOfSteps
  end.

End Download.

(** *** Reference notions for [goes.py] *)

(** The replies a client gives when each request after the first carries the
    token of the reply before it. *)
Inductive listing (s3Client : s3_client) :
  gmap pystr pystr -> list list_response -> Prop :=
| listing_last kwargs :
    NextContinuationToken (s3Client kwargs) = None ->
    listing s3Client kwargs [s3Client kwargs]
| listing_more kwargs token pages :
    NextContinuationToken (s3Client kwargs) = Some token ->
    listing s3Client (<[str "ContinuationToken" := token]> kwargs) pages ->
    listing s3Client kwargs (s3Client kwargs :: pages).

(** The keys of the pages up to the first one without [Contents], and
    whether such a page was met. *)
Fixpoint keys_of_pages (pages : list list_response) : list pystr * bool :=
  match pages with
  | [] => ([], true)
  | page :: pages' =>
      match Contents page with
      | None => ([], false)
      | Some objs =>
          let '(ks, complete) := keys_of_pages pages' in
          (map Key objs ++ ks, complete)
      end
  end.

Definition first_request (bucket prefix : pystr) : gmap pystr pystr :=
  <[str "Prefix" := prefix]> {[ str "Bucket" := bucket ]}.

(** A text whose second line is [fields], joined by commas. *)
Definition credentials_file (header : pystr) (fields : list pystr)
  (rest : pystr) : pystr :=
  header ++ "010"%char :: join ","%char fields ++ rest.

Definition well_formed (header : pystr) (fields : list pystr)
  (rest : pystr) : Prop :=
  ~ In "010"%char header /\ fields <> [] /\
  Forall (fun f => ~ In ","%char f /\ ~ In "010"%char f) fields /\
  (rest = [] \/ exists r, rest = "010"%char :: r).

(** A service that answers in two pages, and one that never stops. *)
Definition two_page_client : s3_client :=
  fun kwargs =>
    match kwargs !! str "ContinuationToken" with
    | None =>
        mk_response
          (Some [mk_object
                   (str "ABI-L1b-RadF/2017/249/15/OR_ABI-L1b-RadF-M3C12_s00.nc");
                 mk_object
                   (str "ABI-L1b-RadF/2017/249/15/OR_ABI-L1b-RadF-M3C13_s00.nc");
                 mk_object
                   (str "ABI-L1b-RadF/2017/249/15/OR_ABI-L1b-RadF-M3C13_s15.nc")])
          (Some (str "token"))
    | Some _ =>
        mk_response
          (Some [mk_object
                   (str "ABI-L1b-RadF/2017/249/15/OR_ABI-L1b-RadF-M3C13_s30.nc")])
          None
    end.

(** A reader that accepts one file name and one reply only. *)
Definition open_only (fileName content : string) (ds : dataset) :
  pystr -> pystr -> option dataset :=
  fun name bytes =>
    if String.eqb (string_of_list_ascii name) fileName &&
       String.eqb (string_of_list_ascii bytes) content
    then Some ds else None.

Definition endless_client : s3_client :=
  fun _ => mk_response (Some []) (Some (str "token")).

Definition secrets (fields : list pystr) : pystr -> option pystr :=
  fun _ => Some (credentials_file (str "Access key ID,Secret access key")
                   fields (str "")).

Definition same_hour (a b : datetime) : Prop :=
  year a = year b /\ month a = month b /\ day a = day b /\ hour a = hour b.

End Goes.

(** ** File names of the crops *)

Module FigName.

Import Goes.

(** [dt.strftime("%Y%m%d_%HZ")]: the year in four digits (for the years
    1000 to 9999, on which all platforms agree), month, day and hour in
    two. *)
Definition strftime (dt : datetime) : pystr :=
  zfill 4 (digits (Z.to_N (year dt))) ++
  zfill 2 (digits (Z.to_N (month dt))) ++
  zfill 2 (digits (Z.to_N (day dt))) ++ str "_" ++
  zfill 2 (digits (Z.to_N (hour dt))) ++ str "Z".

Definition figPart (dt : datetime) (xInd yInd buffer : Z) : pystr :=
  strftime dt ++ str "_" ++ format_0f 5 xInd ++ str "_" ++
  format_0f 5 yInd ++ str "_" ++ str_int buffer.

Definition directory (k : kind) : pystr :=
  match k with
  | Positive => str "./data/training/positive/"
  | Negative => str "./data/training/negative/"
  end.

Definition figPath (k : kind) (dt : datetime) (xInd yInd buffer : Z)
  : pystr :=
  directory k ++ figPart dt xInd yInd buffer ++ str "_cropped.png".

(** [s.replace(old, new)] for a non-empty [old]: the occurrences of [old]
    are replaced from left to right, without overlap.  [skip] counts the
    characters of an occurrence still to pass over. *)
Fixpoint replace_from (skip : nat) (old new s : pystr) : pystr :=
  match s with
  | [] => []
  | c :: s' =>
      match skip with
      | S k => replace_from k old new s'
      | O =>
          if startswith s old
          then new ++ replace_from (length old - 1) old new s'
          else c :: replace_from 0 old new s'
      end
  end.

Definition replace (old new s : pystr) : pystr := replace_from 0 old new s.

(** The path [crop_image] gives to the netCDF copy. *)
Definition ncPath (path : pystr) : pystr :=
  replace (str "png") (str "nc") path.

(** A year that [strftime] prints in four digits, with the other fields in
    range. *)
Definition four_digit_year (dt : datetime) : Prop :=
  check_fields dt = true /\ 1000 <= year dt.

End FigName.

(** ** Frames and their index *)

Module Pandas.

(** A frame: its rows in order, each under its index label. *)
Abbreviation frame R := (list (Z * R)).

(** [df.index.values] *)
Definition index_values {R : Type} (df : frame R) : list Z := map fst df.

Definition rows {R : Type} (df : frame R) : list R := map snd df.

(** [df[cond]] for a condition on the rows: the rows that satisfy it, under
    the labels they had. *)
Definition mask {R : Type} (cond : R -> bool) (df : frame R) : frame R :=
  filter (fun lr => cond (snd lr)) df.

(** [df[df.index == i]] *)
Definition mask_index {R : Type} (i : Z) (df : frame R) : frame R :=
  filter (fun lr => fst lr =? i) df.

Fixpoint number_from {R : Type} (i : Z) (l : list R) : frame R :=
  match l with
  | [] => []
  | r :: l' => (i, r) :: number_from (i + 1) l'
  end.

(** [df.reset_index()]: the rows under the labels 0, 1, ...; the labels they
    had go to a column of their own, which the script never reads. *)
Definition reset_index {R : Type} (df : frame R) : frame R :=
  number_from 0 (rows df).

(** What the loop over the track points of a date reads: for each [i] of
    [indices], the frame [row = dfSubset[dfSubset.index == i]]. *)
Definition selected_rows (df : frame track_row) (date : Z)
  : list (list track_row) :=
  let dfSubset := mask (fun row => ISO_TIME row =? date) df in
  let indices := index_values dfSubset in
  map (fun i => rows (mask_index i dfSubset)) indices.

End Pandas.

(** ** The track archive ([ibtracs.py]) *)

Module Ibtracs.

Import Goes.

Definition archive_url (basin : pystr) : pystr :=
  str "https://www.ncei.noaa.gov/data/" ++
  str "international-best-track-archive-for-climate-stewardship-ibtracs/" ++
  str "v04r00/access/csv/ibtracs." ++ basin ++ str ".list.v04r00.csv".

(** [os.path.exists(path)] on a store of files by path. *)
Definition exists_ (files : gmap pystr pystr) (path : pystr) : bool :=
  match files !! path with
  | Some _ => true
  | None => false
  end.

(** [download_data(basin, dataDir, overwrite)] on the files [files].
    [urlopen url] is the body served at [url], [None] when the request fails
    (a [URLError], which is an [OSError]); [urlretrieve] writes the body
    under the path.  The directory is taken to exist. *)
Definition download_data (urlopen : pystr -> option pystr)
  (basin dataDir : pystr) (overwrite : bool) (files : gmap pystr pystr)
  : gmap pystr pystr * result pystr :=
  let url := archive_url basin in
  let filePath := dataDir ++ str "ibtracs_" ++ basin ++ str ".csv" in
  if overwrite || negb (exists_ files filePath) then
    match urlopen url with
    | None => (files, Err OSError)
    | Some body => (<[filePath := body]> files, Ok filePath)
    end
  else (files, Ok filePath).

End Ibtracs.

(** ** Slices and arrays *)

Lemma adjust_index_range (len i : Z) :
  0 <= len -> 0 <= PySlice.adjust_index len i <= len.
Proof.
  intros Hlen. unfold PySlice.adjust_index.
  destruct (Z.ltb_spec i 0); lia.
Qed.

Lemma adjust_index_nonneg (len i : Z) :
  0 <= i -> PySlice.adjust_index len i = Z.min i len.
Proof.
  intros Hi. unfold PySlice.adjust_index.
  destruct (Z.ltb_spec i 0); lia.
Qed.

Lemma selects_range (len : Z) (s : PySlice.slice) (i : Z) :
  0 <= len -> PySlice.selects len s i = true -> 0 <= i < len.
Proof.
  intros Hlen. unfold PySlice.selects, PySlice.indices.
  pose proof (adjust_index_range len (fst s) Hlen).
  pose proof (adjust_index_range len (snd s) Hlen).
  rewrite andb_true_iff, Z.leb_le, Z.ltb_lt. lia.
Qed.

Lemma selects_nonneg_start (len lo hi i : Z) :
  0 <= lo -> 0 <= hi ->
  PySlice.selects len (lo, hi) i = (lo <=? i) && (i <? Z.min len hi).
Proof.
  intros Hlo Hhi. unfold PySlice.selects, PySlice.indices. simpl.
  rewrite !adjust_index_nonneg by lia.
  destruct (Z.leb_spec (Z.min lo len) i), (Z.leb_spec lo i),
    (Z.ltb_spec i (Z.min hi len)), (Z.ltb_spec i (Z.min len hi)); simpl; lia.
Qed.

Lemma slice_length_nonneg_start (len lo hi : Z) :
  0 <= lo -> lo <= hi -> lo <= len ->
  PySlice.slice_length len (lo, hi) = Z.min len hi - lo.
Proof.
  intros Hlo Hhi Hlen. unfold PySlice.slice_length, PySlice.indices. simpl.
  rewrite !adjust_index_nonneg by lia.
  destruct (Z.ltb_spec (Z.min lo len) (Z.min hi len)); lia.
Qed.

Lemma slice_length_pos_selects (len : Z) (s : PySlice.slice) :
  0 < PySlice.slice_length len s <->
  exists i, PySlice.selects len s i = true.
Proof.
  unfold PySlice.slice_length, PySlice.selects.
  destruct (PySlice.indices len s) as [lo hi]. split.
  - destruct (Z.ltb_spec lo hi); [|lia]. intros _. exists lo.
    rewrite andb_true_iff, Z.leb_le, Z.ltb_lt. lia.
  - intros [i Hi]. rewrite andb_true_iff, Z.leb_le, Z.ltb_lt in Hi.
    destruct (Z.ltb_spec lo hi); lia.
Qed.

Lemma lookup_setslice {A} (len : Z) (s : PySlice.slice) (f : A -> A)
    (l : list A) (i : nat) :
  PySlice.setslice len s f l !! i =
  (fun x => if PySlice.selects len s (Z.of_nat i) then f x else x) <$> l !! i.
Proof.
  unfold PySlice.setslice, PySlice.selects.
  destruct (PySlice.indices len s) as [lo hi].
  replace (Z.of_nat i) with (0 + Z.of_nat i) by lia.
  generalize 0 as k. revert i.
  induction l as [|x l IH]; intros i k; [reflexivity|].
  destruct i as [|i]; simpl.
  - rewrite Z.add_0_r. reflexivity.
  - rewrite IH. replace (k + 1 + Z.of_nat i) with (k + Z.pos (Pos.of_succ_nat i))
      by lia. reflexivity.
Qed.

Lemma length_setslice {A} (len : Z) (s : PySlice.slice) (f : A -> A)
    (l : list A) :
  length (PySlice.setslice len s f l) = length l.
Proof.
  unfold PySlice.setslice. destruct (PySlice.indices len s) as [lo hi].
  generalize 0 as k. induction l as [|x l IH]; intros k; simpl;
    [reflexivity|rewrite IH; reflexivity].
Qed.

Lemma lookup_getslice {A} (len : Z) (s : PySlice.slice) (l : list A) (k : nat) :
  0 <= len ->
  PySlice.getslice len s l !! k =
  if PySlice.selects len s (fst (PySlice.indices len s) + Z.of_nat k)
  then l !! (Z.to_nat (fst (PySlice.indices len s)) + k)%nat
  else None.
Proof.
  intros Hlen. unfold PySlice.getslice, PySlice.selects.
  pose proof (adjust_index_range len (fst s) Hlen) as Hlo.
  pose proof (adjust_index_range len (snd s) Hlen) as Hhi.
  unfold PySlice.indices. simpl.
  set (lo := PySlice.adjust_index len (fst s)) in *.
  set (hi := PySlice.adjust_index len (snd s)) in *.
  rewrite lookup_take, lookup_drop.
  destruct (Z.leb_spec lo (lo + Z.of_nat k)); [|lia]. simpl.
  destruct (Z.ltb_spec (lo + Z.of_nat k) hi); case_decide; try reflexivity; lia.
Qed.

Lemma in_getslice {A} (len : Z) (s : PySlice.slice) (l : list A) (i : nat)
    (x : A) :
  0 <= len ->
  PySlice.selects len s (Z.of_nat i) = true -> l !! i = Some x ->
  In x (PySlice.getslice len s l).
Proof.
  intros Hnn Hsel Hx. apply list_elem_of_In, list_elem_of_lookup.
  pose proof (adjust_index_range len (fst s) Hnn) as Hlo.
  assert (Hsel' := Hsel).
  unfold PySlice.selects, PySlice.indices in Hsel'.
  rewrite andb_true_iff, Z.leb_le, Z.ltb_lt in Hsel'.
  exists (i - Z.to_nat (PySlice.adjust_index len (fst s)))%nat.
  rewrite lookup_getslice by exact Hnn. simpl.
  replace (PySlice.adjust_index len (fst s) +
           Z.of_nat (i - Z.to_nat (PySlice.adjust_index len (fst s))))
    with (Z.of_nat i) by lia.
  rewrite Hsel.
  replace (Z.to_nat (PySlice.adjust_index len (fst s)) +
           (i - Z.to_nat (PySlice.adjust_index len (fst s))))%nat
    with i by lia.
  exact Hx.
Qed.

Lemma in_getslice_inv {A} (len : Z) (s : PySlice.slice) (l : list A) (x : A) :
  0 <= len ->
  In x (PySlice.getslice len s l) ->
  exists i : nat, PySlice.selects len s (Z.of_nat i) = true /\ l !! i = Some x.
Proof.
  intros Hnn Hin.
  apply list_elem_of_In, list_elem_of_lookup in Hin as [k Hk].
  rewrite lookup_getslice in Hk by exact Hnn.
  destruct (PySlice.selects len s (fst (PySlice.indices len s) + Z.of_nat k))
    eqn:Hsel; [|discriminate].
  pose proof (adjust_index_range len (fst s) Hnn) as Hlo.
  exists (Z.to_nat (fst (PySlice.indices len s)) + k)%nat.
  split; [|exact Hk].
  rewrite <- Hsel. f_equal. unfold PySlice.indices. simpl. lia.
Qed.

(** A test over a slice is a test over the selected positions. *)
Lemma forallb_getslice {A} (p : A -> bool) (len : Z) (s : PySlice.slice)
    (l : list A) :
  0 <= len ->
  forallb p (PySlice.getslice len s l) = true <->
  forall (i : nat) (x : A),
    PySlice.selects len s (Z.of_nat i) = true -> l !! i = Some x -> p x = true.
Proof.
  intros Hnn. rewrite forallb_forall. split.
  - intros H i x Hsel Hx. apply H. eapply in_getslice; eassumption.
  - intros H x Hin.
    destruct (in_getslice_inv len s l x Hnn Hin) as (i & Hsel & Hx).
    eapply H; eassumption.
Qed.

Lemma cell_setitem {A} (a : ndarray A) (ys xs : PySlice.slice) (v : A)
    (r c : nat) :
  cell (setitem a ys xs v) r c =
  (fun x => if PySlice.selects (fst (shape a)) ys (Z.of_nat r) &&
               PySlice.selects (snd (shape a)) xs (Z.of_nat c)
            then v else x) <$> cell a r c.
Proof.
  unfold cell, setitem. simpl. rewrite lookup_setslice.
  destruct (cells a !! r) as [row|]; [|reflexivity]. simpl.
  destruct (PySlice.selects (fst (shape a)) ys (Z.of_nat r)); simpl.
  - rewrite lookup_setslice. destruct (row !! c); reflexivity.
  - destruct (row !! c); reflexivity.
Qed.

Lemma well_shaped_setitem {A} (a : ndarray A) (ys xs : PySlice.slice) (v : A) :
  well_shaped a -> well_shaped (setitem a ys xs v).
Proof.
  intros (H0 & H1 & Hrows & Hcols). unfold well_shaped, setitem. simpl.
  repeat split; try assumption.
  - rewrite length_setslice. exact Hrows.
  - rewrite Forall_lookup in *. intros r row Hrow.
    rewrite lookup_setslice in Hrow.
    destruct (cells a !! r) as [row0|] eqn:Hr; [|discriminate].
    simpl in Hrow. injection Hrow as <-.
    specialize (Hcols r row0 Hr). simpl in Hcols.
    destruct (PySlice.selects (fst (shape a)) ys (Z.of_nat r));
      [rewrite length_setslice|]; exact Hcols.
Qed.

(** Every position inside the shape of a well-shaped array holds a cell. *)
Lemma cell_is_Some {A} (a : ndarray A) (r c : nat) :
  well_shaped a ->
  Z.of_nat r < fst (shape a) -> Z.of_nat c < snd (shape a) ->
  exists x, cell a r c = Some x.
Proof.
  intros (H0 & H1 & Hrows & Hcols) Hr Hc. unfold cell.
  destruct (lookup_lt_is_Some_2 (cells a) r) as [row Hrow]; [lia|].
  rewrite Hrow. simpl.
  rewrite Forall_lookup in Hcols. specialize (Hcols r row Hrow). simpl in Hcols.
  destruct (lookup_lt_is_Some_2 row c) as [x Hx]; [lia|].
  exists x. exact Hx.
Qed.

(** [(a[ys, xs] == 1).all()] holds exactly when every selected cell is 1;
    over an empty selection it holds. *)
Lemma all_eq_1_getitem (a : ndarray Z) (ys xs : PySlice.slice) :
  well_shaped a ->
  all_eq_1 (getitem a ys xs) = true <->
  forall r c : nat,
    PySlice.selects (fst (shape a)) ys (Z.of_nat r) = true ->
    PySlice.selects (snd (shape a)) xs (Z.of_nat c) = true ->
    cell a r c = Some 1.
Proof.
  intros Hws. assert (Hws' := Hws).
  destruct Hws' as (H0 & H1 & Hrows & Hcols).
  unfold all_eq_1, getitem. simpl.
  rewrite forallb_forall. setoid_rewrite in_map_iff. split.
  - intros H r c Hr Hc.
    destruct (selects_range _ _ _ H0 Hr) as [_ Hr'].
    destruct (selects_range _ _ _ H1 Hc) as [_ Hc'].
    destruct (cell_is_Some a r c Hws Hr' Hc') as [x Hx]. rewrite Hx.
    unfold cell in Hx.
    destruct (cells a !! r) as [row|] eqn:Hrow; [|discriminate].
    simpl in Hx.
    assert (forallb (Z.eqb 1) (PySlice.getslice (snd (shape a)) xs row) = true)
      as Hall.
    { apply H. exists row. split; [reflexivity|].
      eapply in_getslice; eassumption. }
    rewrite forallb_getslice in Hall by exact H1.
    specialize (Hall c x Hc Hx). apply Z.eqb_eq in Hall. congruence.
  - intros H sub (row & <- & Hin).
    destruct (in_getslice_inv _ _ _ _ H0 Hin) as (r & Hr & Hrow).
    rewrite forallb_getslice by exact H1.
    intros c x Hc Hx. specialize (H r c Hr Hc).
    unfold cell in H. rewrite Hrow in H. simpl in H.
    apply Z.eqb_eq. congruence.
Qed.

Lemma setslice_idem {A} (len : Z) (s : PySlice.slice) (f : A -> A)
    (l : list A) :
  (forall x, f (f x) = f x) ->
  PySlice.setslice len s f (PySlice.setslice len s f l) =
  PySlice.setslice len s f l.
Proof.
  intros Hf. apply list_eq. intros i. rewrite !lookup_setslice.
  destruct (l !! i) as [x|]; [|reflexivity]. simpl.
  destruct (PySlice.selects len s (Z.of_nat i)); [rewrite Hf|]; reflexivity.
Qed.

Lemma setitem_idem {A} (a : ndarray A) (ys xs : PySlice.slice) (v : A) :
  setitem (setitem a ys xs v) ys xs v = setitem a ys xs v.
Proof.
  unfold setitem. simpl. f_equal.
  apply setslice_idem. intros row.
  apply setslice_idem. reflexivity.
Qed.

Lemma well_shaped_ones (n0 n1 : Z) :
  0 <= n0 -> 0 <= n1 -> well_shaped (ones n0 n1).
Proof.
  intros H0 H1. unfold well_shaped, ones. simpl.
  repeat split; try assumption.
  - rewrite length_replicate. lia.
  - apply Forall_lookup. intros r row Hrow.
    apply lookup_replicate_1 in Hrow as [-> _].
    rewrite length_replicate. lia.
Qed.

Lemma cell_ones (n0 n1 : Z) (r c : nat) :
  Z.of_nat r < n0 -> Z.of_nat c < n1 -> cell (ones n0 n1) r c = Some 1.
Proof.
  intros Hr Hc. unfold cell, ones. simpl.
  rewrite lookup_replicate_2 by lia. simpl.
  apply lookup_replicate_2. lia.
Qed.

Lemma cell_ones_inv (n0 n1 : Z) (r c : nat) (v : Z) :
  cell (ones n0 n1) r c = Some v -> v = 1.
Proof.
  unfold cell, ones. simpl.
  destruct (replicate (Z.to_nat n0) (replicate (Z.to_nat n1) 1) !! r)
    as [row|] eqn:Hrow; [|discriminate].
  apply lookup_replicate_1 in Hrow as [-> _]. simpl.
  intros Hc. apply lookup_replicate_1 in Hc as [-> _]. reflexivity.
Qed.

(** A fresh occupancy array has no marked cell. *)
Lemma marked_ones (n0 n1 r c : Z) : marked (ones n0 n1) r c = false.
Proof.
  unfold marked.
  destruct (cell (ones n0 n1) (Z.to_nat r) (Z.to_nat c)) as [v|] eqn:Hv.
  - apply cell_ones_inv in Hv. subst v. simpl. apply andb_false_r.
  - apply andb_false_r.
Qed.

(** What a mark does to the marked set: it adds the cells its window
    selects, and nothing else. *)
Lemma marked_setitem (a : ndarray Z) (xInd yInd buffer r c : Z) :
  well_shaped a ->
  marked (setitem a (ywin yInd buffer) (xwin xInd buffer) 0) r c =
  footprint (shape a) xInd yInd buffer r c || marked a r c.
Proof.
  intros Hws. unfold marked, footprint.
  destruct (Z.leb_spec 0 r) as [Hr|Hr]; simpl.
  2:{ destruct (PySlice.selects (fst (shape a)) (ywin yInd buffer) r) eqn:Hs;
        [|reflexivity].
      apply selects_range in Hs; [lia|apply Hws]. }
  destruct (Z.leb_spec 0 c) as [Hc|Hc]; simpl.
  2:{ destruct (PySlice.selects (snd (shape a)) (xwin xInd buffer) c) eqn:Hs;
        [|rewrite andb_false_r; reflexivity].
      apply selects_range in Hs; [lia|apply Hws]. }
  rewrite cell_setitem. rewrite !Z2Nat.id by assumption.
  destruct (cell a (Z.to_nat r) (Z.to_nat c)) as [v|] eqn:Hv; simpl.
  - destruct (PySlice.selects (fst (shape a)) (ywin yInd buffer) r &&
              PySlice.selects (snd (shape a)) (xwin xInd buffer) c);
      reflexivity.
  - destruct (PySlice.selects (fst (shape a)) (ywin yInd buffer) r) eqn:Hsr;
      [|reflexivity].
    destruct (PySlice.selects (snd (shape a)) (xwin xInd buffer) c) eqn:Hsc;
      [|reflexivity].
    exfalso.
    apply selects_range in Hsr; [|apply Hws].
    apply selects_range in Hsc; [|apply Hws].
    destruct (cell_is_Some a (Z.to_nat r) (Z.to_nat c) Hws) as [x Hx];
      [lia|lia|congruence].
Qed.

(** ** The occupancy array: marking and testing a window *)

(** C6, as stated, fails for a window whose slice is empty: on a fresh
    500 x 500 occupancy array, the window of center row 0 and buffer 10 is
    the empty row slice [490:10], the mark changes nothing, and the test
    over the same window still answers that it is free.  The same holds of
    the window of buffer 0 around (250, 250), which has no cell. *)
Lemma mark_then_test_row0_still_free :
  let free0 := ones 500 500 in
  let free1 := setitem free0 (ywin 0 10) (xwin 250 10) 0 in
  let free2 := setitem free0 (ywin 250 0) (xwin 250 0) 0 in
  PySlice.indices 500 (ywin 0 10) = (490, 10) /\
  free1 = free0 /\
  all_eq_1 (getitem free1 (ywin 0 10) (xwin 250 10)) = true /\
  free2 = free0 /\
  all_eq_1 (getitem free2 (ywin 250 0) (xwin 250 0)) = true.
Proof. vm_compute. repeat split; reflexivity. Qed.

(** C6, amended: for every window that selects at least one cell of the
    occupancy array, after the mark every cell of the window is occupied and
    the test over the same window answers false; and for every window,
    marking twice leaves the same array as marking once. *)
Theorem mark_then_test_not_free (a : ndarray Z) (xInd yInd buffer : Z) :
  well_shaped a ->
  0 < PySlice.slice_length (fst (shape a)) (ywin yInd buffer) ->
  0 < PySlice.slice_length (snd (shape a)) (xwin xInd buffer) ->
  let a1 := setitem a (ywin yInd buffer) (xwin xInd buffer) 0 in
  all_eq_1 (getitem a1 (ywin yInd buffer) (xwin xInd buffer)) = false /\
  (forall r c, footprint (shape a) xInd yInd buffer r c = true ->
               marked a1 r c = true) /\
  setitem a1 (ywin yInd buffer) (xwin xInd buffer) 0 = a1.
Proof.
  intros Hws Hrows Hcols a1. split; [|split].
  - destruct (all_eq_1 (getitem a1 (ywin yInd buffer) (xwin xInd buffer)))
      eqn:Hall; [|reflexivity].
    exfalso.
    apply slice_length_pos_selects in Hrows as [r Hr].
    apply slice_length_pos_selects in Hcols as [c Hc].
    assert (well_shaped a1) as Hws1 by (apply well_shaped_setitem, Hws).
    rewrite (all_eq_1_getitem a1 _ _ Hws1) in Hall.
    pose proof (selects_range _ _ _ (proj1 Hws) Hr) as Hr'.
    pose proof (selects_range _ _ _ (proj1 (proj2 Hws)) Hc) as Hc'.
    specialize (Hall (Z.to_nat r) (Z.to_nat c)).
    simpl in Hall. rewrite !Z2Nat.id in Hall by lia.
    specialize (Hall Hr Hc).
    unfold a1 in Hall. rewrite cell_setitem in Hall.
    rewrite !Z2Nat.id in Hall by lia. rewrite Hr, Hc in Hall. simpl in Hall.
    destruct (cell a (Z.to_nat r) (Z.to_nat c)); discriminate.
  - intros r c Hfp. unfold a1. rewrite marked_setitem by exact Hws.
    rewrite Hfp. reflexivity.
  - apply setitem_idem.
Qed.

Lemma mark_then_test_not_free_witness :
  let a := ones 100 100 in
  let a1 := setitem a (ywin 50 10) (xwin 50 10) 0 in
  all_eq_1 (getitem a1 (ywin 50 10) (xwin 50 10)) = false /\
  (forall r c, footprint (shape a) 50 50 10 r c = true -> marked a1 r c = true) /\
  setitem a1 (ywin 50 10) (xwin 50 10) 0 = a1.
Proof.
  apply (mark_then_test_not_free (ones 100 100) 50 50 10).
  - apply well_shaped_ones; lia.
  - vm_compute. reflexivity.
  - vm_compute. reflexivity.
Defined.

(** ** The occupancy array of a raster *)

(** C9: the occupancy array is [np.ones((ny, nx))] with [nx, ny] unpacked
    from [ds.Rad.shape] in that order, so for a raster of 2 rows and 3
    columns it has 3 rows and 2 columns: not the shape of the raster. *)
Theorem occupancy_shape_swapped :
  let ds := grid_dataset 2 3 in
  shape (Rad ds) = (2, 3) /\
  occupancy ds = (2, 3, ones 3 2) /\
  shape (snd (occupancy ds)) = (3, 2) /\
  shape (snd (occupancy ds)) <> shape (Rad ds).
Proof. vm_compute. repeat split; try reflexivity. discriminate. Qed.

(** What does hold of the fresh array on every raster: it is the transpose
    shape, well shaped, and no cell of it is marked; on a square raster the
    shape is the raster's. *)
Lemma occupancy_fresh (ds : dataset) :
  well_shaped (Rad ds) ->
  let free0 := snd (occupancy ds) in
  shape free0 = (snd (shape (Rad ds)), fst (shape (Rad ds))) /\
  well_shaped free0 /\
  (forall r c, marked free0 r c = false) /\
  (fst (shape (Rad ds)) = snd (shape (Rad ds)) -> shape free0 = shape (Rad ds)).
Proof.
  intros (H0 & H1 & _). unfold occupancy.
  destruct (shape (Rad ds)) as [nx ny] eqn:Hsh. simpl in *.
  split; [reflexivity|split; [|split]].
  - apply (well_shaped_ones ny nx); assumption.
  - intros r c. apply marked_ones.
  - intros ->. reflexivity.
Qed.

(** ** Crop extraction *)

Lemma lookup_map {A B} (f : A -> B) (l : list A) (i : nat) :
  map f l !! i = f <$> l !! i.
Proof.
  revert i. induction l as [|x l IH]; intros [|i]; simpl; try reflexivity.
  apply IH.
Qed.

(** The cells of [a[ys, xs]] are the selected cells of [a], in place. *)
Lemma cell_getitem {A} (a : ndarray A) (ys xs : PySlice.slice) (i j : nat) :
  0 <= fst (shape a) -> 0 <= snd (shape a) ->
  let lo_y := fst (PySlice.indices (fst (shape a)) ys) in
  let lo_x := fst (PySlice.indices (snd (shape a)) xs) in
  cell (getitem a ys xs) i j =
  if PySlice.selects (fst (shape a)) ys (lo_y + Z.of_nat i) &&
     PySlice.selects (snd (shape a)) xs (lo_x + Z.of_nat j)
  then cell a (Z.to_nat lo_y + i) (Z.to_nat lo_x + j)
  else None.
Proof.
  intros H0 H1 lo_y lo_x. unfold cell, getitem. simpl.
  rewrite lookup_map, lookup_getslice by exact H0. fold lo_y.
  destruct (PySlice.selects (fst (shape a)) ys (lo_y + Z.of_nat i));
    [|reflexivity]. simpl.
  destruct (cells a !! (Z.to_nat lo_y + i)%nat) as [row|].
  - simpl. rewrite lookup_getslice by exact H1. reflexivity.
  - simpl. destruct (PySlice.selects _ _ _); reflexivity.
Qed.

(** C3, as stated, fails at a low edge: for center row 0 and buffer 10 on a
    500 x 500 raster the clipped window has rows 0..9, but the row slice
    [-10:10] resolves to [490:10], which is empty; the subset has shape
    (0, 20) and [crop_image] writes nothing. *)
Lemma crop_image_row0_dropped :
  let ds := grid_dataset 500 500 in
  let figPath := mk_fig_path Positive 0 250 0 10 in
  clipped_window (shape (Rad ds)) 250 0 10 0 250 = true /\
  footprint (shape (Rad ds)) 250 0 10 0 250 = false /\
  shape (getitem (Rad ds) (ywin 0 10) (xwin 250 10)) = (0, 20) /\
  crop_image ds 250 0 10 myDPI figPath initial_world
    = (initial_world, Returned tt).
Proof. vm_compute. repeat split; reflexivity. Qed.

(** At the far edge the same raster does give a clipped crop: center row 499
    keeps rows 489..499. *)
Lemma crop_image_row499_clipped :
  let ds := grid_dataset 500 500 in
  let figPath := mk_fig_path Positive 0 250 499 10 in
  let data := getitem (Rad ds) (ywin 499 10) (xwin 250 10) in
  shape data = (11, 20) /\
  saved (fst (crop_image ds 250 499 10 myDPI figPath initial_world))
    = [mk_sample figPath data].
Proof. vm_compute. repeat split; reflexivity. Qed.

(** C3, amended: for every center at least [buffer] away from the low edges
    (row - buffer >= 0 and col - buffer >= 0), the subset is the window
    [row-buffer, row+buffer) x [col-buffer, col+buffer) clipped to the
    raster: the same cells, in place, with the clipped lengths.  The call
    never raises; it writes the crop unless a clipped length is 0, and a
    center inside the raster always gives a crop that is written. *)
Theorem crop_image_clipped_window (ds : dataset) (xInd yInd buffer dpi : Z)
    (figPath : fig_path) (w : world) :
  well_shaped (Rad ds) ->
  0 <= buffer -> buffer <= yInd -> buffer <= xInd ->
  let sh := shape (Rad ds) in
  let data := getitem (Rad ds) (ywin yInd buffer) (xwin xInd buffer) in
  (forall r c, footprint sh xInd yInd buffer r c
               = clipped_window sh xInd yInd buffer r c) /\
  shape data = (Z.max 0 (Z.min (fst sh) (yInd + buffer) - (yInd - buffer)),
                Z.max 0 (Z.min (snd sh) (xInd + buffer) - (xInd - buffer))) /\
  (forall i j : nat,
     Z.of_nat i < fst (shape data) -> Z.of_nat j < snd (shape data) ->
     cell data i j
     = cell (Rad ds) (Z.to_nat (yInd - buffer) + i) (Z.to_nat (xInd - buffer) + j)) /\
  crop_image ds xInd yInd buffer dpi figPath w
  = (if zero_in_shape data then w
     else {| saved := saved w ++ [mk_sample figPath data];
             logged := logged w; draws := draws w |},
     Returned tt) /\
  (0 < buffer -> yInd < fst sh -> xInd < snd sh -> zero_in_shape data = false).
Proof.
  intros (H0 & H1 & _) Hb Hy Hx sh data.
  assert (Hshape : shape data =
    (Z.max 0 (Z.min (fst sh) (yInd + buffer) - (yInd - buffer)),
     Z.max 0 (Z.min (snd sh) (xInd + buffer) - (xInd - buffer)))).
  { unfold data, getitem, ywin, xwin, PySlice.slice_length, PySlice.indices.
    simpl. rewrite !adjust_index_nonneg by lia. fold sh.
    destruct (Z.ltb_spec (Z.min (yInd - buffer) (fst sh))
                (Z.min (yInd + buffer) (fst sh))),
             (Z.ltb_spec (Z.min (xInd - buffer) (snd sh))
                (Z.min (xInd + buffer) (snd sh))); f_equal; lia. }
  split; [|split; [exact Hshape|split; [|split]]].
  - intros r c. unfold footprint, clipped_window, ywin, xwin.
    rewrite !selects_nonneg_start by lia.
    rewrite !Z.max_r by lia. rewrite andb_assoc. reflexivity.
  - intros i j Hi Hj. rewrite Hshape in Hi, Hj. simpl in Hi, Hj.
    unfold data. rewrite cell_getitem by assumption.
    unfold PySlice.selects, PySlice.indices, ywin, xwin. simpl.
    rewrite !adjust_index_nonneg by lia. fold sh.
    replace (Z.min (yInd - buffer) (fst sh)) with (yInd - buffer) by lia.
    replace (Z.min (xInd - buffer) (snd sh)) with (xInd - buffer) by lia.
    destruct (Z.leb_spec (yInd - buffer) (yInd - buffer + Z.of_nat i)); [|lia].
    destruct (Z.leb_spec (xInd - buffer) (xInd - buffer + Z.of_nat j)); [|lia].
    destruct (Z.ltb_spec (yInd - buffer + Z.of_nat i)
                (Z.min (yInd + buffer) (fst sh))); [|lia].
    destruct (Z.ltb_spec (xInd - buffer + Z.of_nat j)
                (Z.min (xInd + buffer) (snd sh))); [|lia].
    reflexivity.
  - unfold crop_image. fold data.
    destruct (zero_in_shape data); reflexivity.
  - intros Hpos Hy' Hx'. unfold zero_in_shape. rewrite Hshape. simpl.
    apply orb_false_iff. split; apply Z.eqb_neq; lia.
Qed.

Lemma crop_image_clipped_window_witness :
  let ds := grid_dataset 6 6 in
  let figPath := mk_fig_path Positive 0 3 5 2 in
  let data := getitem (Rad ds) (ywin 5 2) (xwin 3 2) in
  shape data = (3, 4) /\
  crop_image ds 3 5 2 myDPI figPath initial_world
  = ({| saved := [mk_sample figPath data]; logged := []; draws := O |},
     Returned tt).
Proof.
  intros ds figPath data.
  assert (well_shaped (Rad ds)) as Hws.
  { unfold well_shaped. simpl. repeat split; try lia. repeat constructor. }
  destruct (crop_image_clipped_window ds 3 5 2 myDPI figPath initial_world Hws)
    as (_ & Hshape & _ & Hcrop & Hsaved); try lia.
  split.
  - etransitivity; [exact Hshape|reflexivity].
  - rewrite Hsaved in Hcrop by (simpl; lia). exact Hcrop.
Defined.

(** ** What the effects leave behind *)

Lemma emits_weaken {A} (P Q : sample -> Prop) (c : M A) :
  (forall s, P s -> Q s) -> emits P c -> emits Q c.
Proof.
  intros HPQ Hc w w' r Hrun.
  destruct (Hc w w' r Hrun) as (new & Hsaved & Hnew).
  exists new. split; [exact Hsaved|].
  eapply Forall_impl; eassumption.
Qed.

Lemma emits_ret {A} (P : sample -> Prop) (a : A) : emits P (ret a).
Proof.
  intros w w' r Hrun. injection Hrun as <- _.
  exists []. rewrite app_nil_r. split; [reflexivity|constructor].
Qed.

Lemma emits_lift {A} (P : sample -> Prop) (o : outcome A) : emits P (lift o).
Proof.
  intros w w' r Hrun. injection Hrun as <- _.
  exists []. rewrite app_nil_r. split; [reflexivity|constructor].
Qed.

Lemma emits_raise {A} (P : sample -> Prop) (e : exn) : emits P (@raise A e).
Proof. apply emits_lift. Qed.

Lemma emits_log (P : sample -> Prop) (r : log_record) : emits P (log r).
Proof.
  intros w w' o Hrun. injection Hrun as <- _. simpl.
  exists []. rewrite app_nil_r. split; [reflexivity|constructor].
Qed.

Lemma emits_save (P : sample -> Prop) (s : sample) : P s -> emits P (save s).
Proof.
  intros Hs w w' o Hrun. injection Hrun as <- _. simpl.
  exists [s]. split; [reflexivity|]. constructor; [exact Hs|constructor].
Qed.

Lemma emits_bind {A B} (P : sample -> Prop) (c : M A) (k : A -> M B) :
  emits P c -> (forall a, emits P (k a)) -> emits P (bind c k).
Proof.
  intros Hc Hk w w' r. unfold bind.
  destruct (c w) as [w1 [a|e|]] eqn:Hcw;
    destruct (Hc w w1 _ Hcw) as (new1 & Hsaved1 & Hnew1).
  - intros Hrun. destruct (Hk a w1 w' r Hrun) as (new2 & Hsaved2 & Hnew2).
    exists (new1 ++ new2). split.
    + rewrite Hsaved2, Hsaved1, app_assoc. reflexivity.
    + apply Forall_app. split; assumption.
  - intros Hrun. injection Hrun as <- _. exists new1. split; assumption.
  - intros Hrun. injection Hrun as <- _. exists new1. split; assumption.
Qed.

Lemma emits_try_except (P : sample -> Prop) (body handler : M unit) :
  emits P body -> emits P handler -> emits P (try_except body handler).
Proof.
  intros Hb Hh w w' r. unfold try_except.
  destruct (body w) as [w1 [a|e|]] eqn:Hbw;
    destruct (Hb w w1 _ Hbw) as (new1 & Hsaved1 & Hnew1).
  - intros Hrun. injection Hrun as <- _. exists new1. split; assumption.
  - intros Hrun. destruct (Hh w1 w' r Hrun) as (new2 & Hsaved2 & Hnew2).
    exists (new1 ++ new2). split.
    + rewrite Hsaved2, Hsaved1, app_assoc. reflexivity.
    + apply Forall_app. split; assumption.
  - intros Hrun. injection Hrun as <- _. exists new1. split; assumption.
Qed.

Lemma emits_crop_image (P : sample -> Prop) (ds : dataset)
    (xInd yInd buffer dpi : Z) (figPath : fig_path) :
  (zero_in_shape (getitem (Rad ds) (ywin yInd buffer) (xwin xInd buffer))
   = false ->
   P (mk_sample figPath
        (getitem (Rad ds) (ywin yInd buffer) (xwin xInd buffer)))) ->
  emits P (crop_image ds xInd yInd buffer dpi figPath).
Proof.
  intros HP. unfold crop_image.
  destruct (zero_in_shape _) eqn:Hz; simpl.
  - apply emits_ret.
  - apply emits_save. apply HP. reflexivity.
Qed.

Section Effects.

Variable buffer : Z.
Variable Proj : float -> float -> sweep -> float -> float -> float * float.
Variable download_data : Z -> option dataset.
Variable rng : nat -> Z.
Variable df : list track_row.

(** A draw that returns lies in the range it was asked for. *)
Lemma randint_range (low high : Z) (w w' : world) (v : Z) :
  randint rng low high w = (w', Returned v) ->
  low <= v < high /\ saved w' = saved w /\ logged w' = logged w /\
  draws w' = S (draws w).
Proof.
  unfold randint. destruct (Z.ltb_spec low high); [|discriminate].
  intros Hrun. injection Hrun as <- <-. simpl.
  pose proof (Z.mod_pos_bound (rng (draws w)) (high - low)).
  split; [lia|repeat split; reflexivity].
Qed.

Lemma randint_not_returned (low high : Z) (w w' : world) (o : outcome Z) :
  randint rng low high w = (w', o) ->
  (forall v, o <> Returned v) -> w' = w /\ o = Raised ValueError.
Proof.
  unfold randint. destruct (Z.ltb_spec low high).
  - intros Hrun Hno. injection Hrun as <- <-. exfalso. eapply Hno. reflexivity.
  - intros Hrun _. injection Hrun as <- <-. split; reflexivity.
Qed.

Lemma emits_positive_loop (ds : dataset) (dt : Z) (x y : list float)
    (p : float -> float -> float * float) (rows : list track_row)
    (free0 : ndarray Z) :
  emits (provenance buffer ds dt) (positive_loop buffer ds dt x y p rows free0).
Proof.
  revert free0. induction rows as [|row rows IH]; intros free0; simpl.
  - apply emits_ret.
  - destruct (p (LON row) (LAT row)) as [trackX trackY].
    apply emits_bind; [apply emits_lift|].
    intros [xInd yInd].
    apply emits_bind; [|intros _; apply IH].
    apply emits_crop_image. intros Hz.
    unfold provenance. simpl. repeat split; try reflexivity; try exact Hz;
      discriminate.
Qed.

Lemma emits_negative_draw (ds : dataset) (dt : Z) (st : loop_state) :
  emits (provenance buffer ds dt)
    (negative_draw buffer rng ds dt (fst (shape (Rad ds)))
       (snd (shape (Rad ds))) st).
Proof.
  intros w w' r. unfold negative_draw, bind.
  destruct (randint rng buffer (fst (shape (Rad ds)) - buffer) w)
    as [w1 [xInd| |]] eqn:Hx.
  2,3: apply randint_not_returned in Hx as [-> _]; [|discriminate];
       intros Hrun; injection Hrun as <- _; exists [];
       rewrite app_nil_r; split; [reflexivity|constructor].
  apply randint_range in Hx as (Hxr & Hs1 & _).
  destruct (randint rng buffer (snd (shape (Rad ds)) - buffer) w1)
    as [w2 [yInd| |]] eqn:Hy.
  2,3: apply randint_not_returned in Hy as [-> _]; [|discriminate];
       intros Hrun; injection Hrun as <- _; exists [];
       rewrite app_nil_r; split; [congruence|constructor].
  apply randint_range in Hy as (Hyr & Hs2 & _).
  rewrite <- Hs1, <- Hs2.
  destruct (all_eq_1 _).
  - apply (emits_bind (provenance buffer ds dt)); [|intros; apply emits_ret].
    apply emits_crop_image. intros Hz.
    unfold provenance. simpl.
    split; [reflexivity|split; [reflexivity|split; [reflexivity|]]].
    split; [exact Hz|]. intros _. lia.
  - apply emits_ret.
Qed.

Lemma emits_negative_loop (fuel : nat) (ds : dataset) (dt target maxA : Z)
    (st : loop_state) :
  emits (provenance buffer ds dt)
    (negative_loop buffer rng fuel ds dt (fst (shape (Rad ds)))
       (snd (shape (Rad ds))) target maxA st).
Proof.
  revert st. induction fuel as [|fuel IH]; intros st; simpl.
  - apply emits_lift.
  - destruct (negativeCount st <? target); [|apply emits_ret].
    apply emits_bind; [apply emits_negative_draw|].
    intros st1. simpl.
    destruct (attemptCount st1 + 1 >? maxA); [apply emits_ret|apply IH].
Qed.

Lemma emits_sample_raster (fuel : nat) (ds : dataset) (date : Z) :
  emits (provenance buffer ds date)
    (sample_raster buffer Proj rng df fuel ds date).
Proof.
  unfold sample_raster, occupancy.
  destruct (shape (Rad ds)) as [nx ny] eqn:Hsh.
  apply emits_bind; [apply emits_log|]. intros _.
  apply emits_bind; [apply emits_positive_loop|]. intros free1.
  unfold negative_phase.
  pose proof (emits_negative_loop fuel ds date
    (Z.of_nat (length (filter (fun row => ISO_TIME row =? date) df)))
    (5 * Z.of_nat (length (filter (fun row => ISO_TIME row =? date) df)))
    {| free := free1; negativeCount := 0; attemptCount := 0 |}) as H.
  rewrite Hsh in H. exact H.
Qed.

(** Every sample written while a date is processed comes from the dataset
    that was downloaded for that date. *)
Lemma emits_process_date (fuel : nat) (date : Z) :
  emits (fun s => exists ds, download_data date = Some ds /\
                             provenance buffer ds date s)
    (process_date buffer Proj download_data rng df fuel date).
Proof.
  unfold process_date.
  destruct (download_data date) as [ds|] eqn:Hdl.
  - intros w w' r. unfold bind at 1. unfold ret at 1.
    revert w w' r.
    change (emits (fun s => exists ds0, Some ds = Some ds0 /\
                                         provenance buffer ds0 date s)
      (bind (log DebugProjecting) (fun _ =>
         bind (sample_raster buffer Proj rng df fuel ds date)
              (fun _ => ret tt)))).
    apply emits_bind; [apply emits_log|]. intros _.
    apply emits_bind; [|intros; apply emits_ret].
    eapply emits_weaken; [|apply emits_sample_raster].
    intros s Hs. exists ds. split; [reflexivity|exact Hs].
  - intros w w' r. unfold bind, raise. intros Hrun. injection Hrun as <- _.
    exists []. rewrite app_nil_r. split; [reflexivity|constructor].
Qed.

Lemma emits_date_loop (fuel : nat) (dates : list Z) :
  emits (traced buffer download_data)
    (date_loop buffer Proj download_data rng df fuel dates).
Proof.
  induction dates as [|date dates IH]; simpl.
  - apply emits_ret.
  - apply emits_bind; [apply emits_log|]. intros _.
    apply emits_bind; [apply emits_log|]. intros _.
    apply emits_bind; [|intros _; exact IH].
    apply emits_try_except; [|apply emits_log].
    eapply emits_weaken; [|apply emits_process_date].
    intros s (ds & Hdl & Hprov). exists ds.
    destruct Hprov as (Hdate & Hrest). subst date.
    split; [exact Hdl|]. split; [reflexivity|exact Hrest].
Qed.

Lemma emits_main (fuel : nat) :
  emits (traced buffer download_data)
    (main buffer Proj download_data rng df fuel).
Proof.
  unfold main.
  apply emits_bind; [apply emits_log|]. intros _.
  apply emits_bind; [apply emits_date_loop|]. intros _.
  apply emits_log.
Qed.

(** Every file a run writes is a window of the raster of its date. *)
Lemma main_samples_traced (fuel : nat) (s : sample) :
  In s (saved (fst (main buffer Proj download_data rng df fuel initial_world))) ->
  traced buffer download_data s.
Proof.
  destruct (main buffer Proj download_data rng df fuel initial_world)
    as [w r] eqn:Hrun.
  destruct (emits_main fuel _ _ _ Hrun) as (new & Hsaved & Hnew).
  simpl in *. subst. rewrite Forall_forall in Hnew.
  intros Hin. apply Hnew. apply list_elem_of_In. exact Hin.
Qed.

End Effects.

(** ** Negative samples on a square raster *)

(** C10: on square rasters, every negative sample that a run writes has
    shape (2 buffer, 2 buffer). *)
Theorem negative_crops_full_size (buffer : Z)
    (Proj : float -> float -> sweep -> float -> float -> float * float)
    (download_data : Z -> option dataset) (rng : nat -> Z)
    (df : list track_row) (fuel : nat) (s : sample) :
  0 <= buffer ->
  (forall date ds, download_data date = Some ds ->
                   fst (shape (Rad ds)) = snd (shape (Rad ds))) ->
  In s (saved (fst (main buffer Proj download_data rng df fuel initial_world))) ->
  fig_kind (s_path s) = Negative ->
  shape (s_data s) = (2 * buffer, 2 * buffer).
Proof.
  intros Hb Hsq Hin Hneg.
  apply main_samples_traced in Hin as (ds & Hdl & Hprov).
  destruct Hprov as (_ & _ & Hdata & _ & Hrange).
  specialize (Hrange Hneg). specialize (Hsq _ _ Hdl).
  rewrite Hdata. unfold getitem, ywin, xwin. simpl.
  rewrite <- Hsq in *.
  rewrite !slice_length_nonneg_start by lia.
  f_equal; lia.
Qed.

Lemma negative_crops_full_size_witness :
  let run := main 1 plain_Proj (fun _ => Some (grid_dataset 5 5)) (fun _ => 2)
               [mk_track_row 0 (of_Z 1) (of_Z 1)] 6 initial_world in
  map (fun s => fig_kind (s_path s)) (saved (fst run)) = [Positive; Negative] /\
  forall s, In s (saved (fst run)) -> fig_kind (s_path s) = Negative ->
            shape (s_data s) = (2 * 1, 2 * 1).
Proof.
  split.
  - vm_compute. reflexivity.
  - intros s Hin Hneg.
    apply (negative_crops_full_size 1 plain_Proj
             (fun _ => Some (grid_dataset 5 5)) (fun _ => 2)
             [mk_track_row 0 (of_Z 1) (of_Z 1)] 6 s).
    + lia.
    + intros date ds [= <-]. reflexivity.
    + exact Hin.
    + exact Hneg.
Defined.

(** ** Negative samples on a raster that is not square *)

(** C5: with [nx, ny = ds.Rad.shape] the column index [xInd] is drawn from
    [buffer, rows - buffer) and the row index from [buffer, cols - buffer).
    On a raster of 1000 rows and 499 columns with buffer 249, the draw
    xInd = 747, yInd = 249 is accepted; its window spans columns 498..995 of
    a raster that has 499 columns, and the crop that is written has a single
    column. *)
Theorem negative_draw_off_raster :
  let ds := grid_dataset 1000 499 in
  let run := main script_buffer plain_Proj (fun _ => Some ds) (fun _ => 498)
               [mk_track_row 0 (of_Z 249) (of_Z 249)] 6 initial_world in
  shape (Rad ds) = (1000, 499) /\
  map s_path (saved (fst run))
  = [mk_fig_path Positive 0 249 249 249; mk_fig_path Negative 0 747 249 249] /\
  map (fun s => shape (s_data s)) (saved (fst run)) = [(498, 498); (498, 1)] /\
  xwin 747 script_buffer = (498, 996).
Proof. vm_compute. repeat split; reflexivity. Qed.

(** ** The negative-sampling loop: termination and attempts *)

Section Attempts.

Variable buffer : Z.
Variable rng : nat -> Z.

(** One draw either raises [ValueError] (an empty range) or returns with the
    attempt counter untouched and two more integers drawn. *)
Lemma negative_draw_outcome (ds : dataset) (dt nx ny : Z) (st : loop_state)
    (w : world) :
  match negative_draw buffer rng ds dt nx ny st w with
  | (w', Returned st') =>
      attemptCount st' = attemptCount st /\
      negativeCount st <= negativeCount st' <= negativeCount st + 1 /\
      draws w' = (draws w + 2)%nat /\ logged w' = logged w
  | (w', Raised e) => e = ValueError /\ logged w' = logged w
  | (_, OutOfFuel) => False
  end.
Proof.
  unfold negative_draw, bind.
  destruct (randint rng buffer (nx - buffer) w) as [w1 [xInd| |]] eqn:Hx.
  2:{ apply randint_not_returned in Hx as [-> Hx]; [|discriminate].
      injection Hx as ->. split; reflexivity. }
  2:{ apply randint_not_returned in Hx as [_ Hx]; discriminate. }
  apply randint_range in Hx as (_ & _ & Hl1 & Hd1).
  destruct (randint rng buffer (ny - buffer) w1) as [w2 [yInd| |]] eqn:Hy.
  2:{ apply randint_not_returned in Hy as [-> Hy]; [|discriminate].
      injection Hy as ->. split; [reflexivity|exact Hl1]. }
  2:{ apply randint_not_returned in Hy as [_ Hy]; discriminate. }
  apply randint_range in Hy as (_ & _ & Hl2 & Hd2).
  destruct (all_eq_1 _).
  - unfold crop_image.
    destruct (negb (zero_in_shape _)); simpl;
      (split; [reflexivity|split; [lia|split; [lia|congruence]]]).
  - simpl. split; [reflexivity|split; [lia|split; [lia|congruence]]].
Qed.

(** With as many steps as there are attempts left, the loop comes to an end
    on its own: it returns after at most [maxAttemptCount + 1] attempts in
    all, two integers drawn per attempt, or it stops on a [ValueError]. *)
Lemma negative_loop_terminates (fuel : nat) (ds : dataset)
    (dt nx ny target maxA : Z) (st : loop_state) (w : world) :
  attemptCount st <= maxA ->
  (Z.to_nat (maxA - attemptCount st) < fuel)%nat ->
  match negative_loop buffer rng fuel ds dt nx ny target maxA st w with
  | (w', Returned st') =>
      attemptCount st <= attemptCount st' <= maxA + 1 /\
      Z.of_nat (draws w') =
        Z.of_nat (draws w) + 2 * (attemptCount st' - attemptCount st) /\
      logged w' = logged w
  | (w', Raised e) => e = ValueError /\ logged w' = logged w
  | (_, OutOfFuel) => False
  end.
Proof.
  revert st w. induction fuel as [|fuel IH]; intros st w Hle Hfuel; [lia|].
  simpl. destruct (negativeCount st <? target).
  2:{ simpl. split; [lia|split; [lia|reflexivity]]. }
  unfold bind.
  pose proof (negative_draw_outcome ds dt nx ny st w) as Hdraw.
  destruct (negative_draw buffer rng ds dt nx ny st w) as [w1 [st1|e|]];
    [|exact Hdraw|exact Hdraw].
  destruct Hdraw as (Hatt & _ & Hdraws & Hlog). simpl.
  destruct (Z.gtb_spec (attemptCount st1 + 1) maxA) as [Hgt|Hngt].
  - simpl. split; [lia|split; [lia|exact Hlog]].
  - set (st2 := {| free := free st1; negativeCount := negativeCount st1;
                   attemptCount := attemptCount st1 + 1 |}).
    specialize (IH st2 w1). simpl in IH.
    assert (attemptCount st1 + 1 <= maxA) as H1 by lia.
    assert (Z.to_nat (maxA - (attemptCount st1 + 1)) < fuel)%nat as H2 by lia.
    specialize (IH H1 H2).
    destruct (negative_loop buffer rng fuel ds dt nx ny target maxA st2 w1)
      as [w' [st'|e|]]; [|  |exact IH].
    + destruct IH as (Ha & Hd & Hl). split; [lia|split; [lia|congruence]].
    + destruct IH as (He & Hl). split; [exact He|congruence].
Qed.

Lemma negative_phase_terminates (fuel : nat) (ds : dataset)
    (dt nx ny target : Z) (free0 : ndarray Z) (w : world) :
  0 <= target ->
  (Z.to_nat (5 * target) < fuel)%nat ->
  match negative_phase buffer rng fuel ds dt nx ny target free0 w with
  | (w', Returned st') =>
      0 <= attemptCount st' <= 5 * target + 1 /\
      Z.of_nat (draws w') = Z.of_nat (draws w) + 2 * attemptCount st' /\
      logged w' = logged w
  | (w', Raised e) => e = ValueError /\ logged w' = logged w
  | (_, OutOfFuel) => False
  end.
Proof.
  intros Ht Hfuel. unfold negative_phase.
  pose proof (negative_loop_terminates fuel ds dt nx ny target (5 * target)
    {| free := free0; negativeCount := 0; attemptCount := 0 |} w) as H.
  simpl in H.
  assert (0 <= 5 * target) as H1 by lia.
  assert (Z.to_nat (5 * target - 0) < fuel)%nat as H2 by lia.
  specialize (H H1 H2).
  destruct (negative_loop buffer rng fuel ds dt nx ny target (5 * target) _ w)
    as [w' [st'|e|]]; [|exact H|exact H].
  destruct H as (Ha & Hd & Hl). split; [lia|split; [lia|exact Hl]].
Qed.

End Attempts.

(** C2: the loop leaves when [attemptCount > maxAttemptCount], one attempt
    after the budget [maxAttemptCount = 5 * target] is used up.  On a
    499 x 499 raster with buffer 249 and one track point at pixel (249, 249),
    the only pixel that can be drawn is (249, 249), its window is marked, the
    target is 1, and the loop makes 6 draws, all rejected, before it stops. *)
Theorem negative_sampling_six_attempts :
  let ds := grid_dataset 499 499 in
  let df := [mk_track_row 0 (of_Z 249) (of_Z 249)] in
  match sample_raster script_buffer plain_Proj (fun _ => 0) df 100 ds 0
          initial_world with
  | (w, Returned st) =>
      5 * Z.of_nat (length df) = 5 /\
      attemptCount st = 6 /\ negativeCount st = 0 /\ draws w = 12%nat
  | _ => False
  end.
Proof. vm_compute. repeat split; reflexivity. Qed.

(** ** The order of the doubles *)

Lemma flt_key (a b : float) :
  is_nan a = false -> is_nan b = false ->
  flt a b = true <-> lex_lt (key a) (key b).
Proof.
  unfold flt, SFltb, lex_lt.
  destruct a as [sa|sa| |sa ma ea], b as [sb|sb| |sb mb eb];
    try discriminate; intros _ _;
    try destruct sa; try destruct sb; simpl;
    try (split; [discriminate|lia]);
    try (split; [intros _; lia|reflexivity]).
  - change (Pos.compare_cont Eq ma mb) with (Pos.compare ma mb).
    destruct (Z.compare_spec ea eb) as [He|He|He],
      (Pos.compare_spec ma mb) as [Hm|Hm|Hm]; simpl;
      split; intros Hk; try discriminate; try reflexivity; lia.
  - change (Pos.compare_cont Eq ma mb) with (Pos.compare ma mb).
    destruct (Z.compare_spec ea eb) as [He|He|He],
      (Pos.compare_spec ma mb) as [Hm|Hm|Hm]; simpl;
      split; intros Hk; try discriminate; try reflexivity; lia.
Qed.

Lemma fle_key (a b : float) :
  is_nan a = false -> is_nan b = false ->
  fle a b = true <-> lex_lt (key a) (key b) \/ key a = key b.
Proof.
  unfold fle, SFleb, lex_lt.
  destruct a as [sa|sa| |sa ma ea], b as [sb|sb| |sb mb eb];
    try discriminate; intros _ _;
    try destruct sa; try destruct sb; simpl;
    try (split; [discriminate|intros [H|H]; [lia|discriminate]]);
    try (split; [intros _; left; lia|reflexivity]);
    try (split; [intros _; right; reflexivity|reflexivity]).
  - change (Pos.compare_cont Eq ma mb) with (Pos.compare ma mb).
    destruct (Z.compare_spec ea eb) as [He|He|He],
      (Pos.compare_spec ma mb) as [Hm|Hm|Hm]; simpl;
      split; intros Hk; try discriminate; try reflexivity;
      try (left; lia); try (right; congruence);
      destruct Hk as [Hk|Hk]; try lia; injection Hk; lia.
  - change (Pos.compare_cont Eq ma mb) with (Pos.compare ma mb).
    destruct (Z.compare_spec ea eb) as [He|He|He],
      (Pos.compare_spec ma mb) as [Hm|Hm|Hm]; simpl;
      split; intros Hk; try discriminate; try reflexivity;
      try (left; lia); try (right; congruence);
      destruct Hk as [Hk|Hk]; try lia; injection Hk; lia.
Qed.

Lemma lex_trichotomy (a b : Z * Z * Z) : lex_lt a b \/ a = b \/ lex_lt b a.
Proof.
  destruct a as [[a1 a2] a3], b as [[b1 b2] b3]. unfold lex_lt. simpl.
  destruct (Z.lt_total a1 b1) as [H|[H|H]]; [lia| |lia].
  destruct (Z.lt_total a2 b2) as [H'|[H'|H']]; [lia| |lia].
  destruct (Z.lt_total a3 b3) as [H''|[H''|H'']]; [lia| |lia].
  right. left. congruence.
Qed.

Lemma lex_lt_irrefl (a : Z * Z * Z) : ~ lex_lt a a.
Proof. unfold lex_lt. lia. Qed.

Lemma lex_lt_trans (a b c : Z * Z * Z) : lex_lt a b -> lex_lt b c -> lex_lt a c.
Proof. unfold lex_lt. lia. Qed.

Lemma fle_refl (a : float) : is_nan a = false -> fle a a = true.
Proof. intros Ha. apply fle_key; [assumption..|]. right. reflexivity. Qed.

Lemma fle_false_flt (a b : float) :
  is_nan a = false -> is_nan b = false -> fle a b = false <-> flt b a = true.
Proof.
  intros Ha Hb. rewrite (flt_key b a Hb Ha). split.
  - intros Hle. destruct (lex_trichotomy (key a) (key b)) as [H|[H|H]].
    + assert (fle a b = true) by (apply fle_key; auto). congruence.
    + assert (fle a b = true) by (apply fle_key; auto). congruence.
    + exact H.
  - intros Hlt. destruct (fle a b) eqn:Hle; [|reflexivity].
    apply fle_key in Hle as [H|H]; [| |assumption..].
    + exfalso. eapply lex_lt_irrefl, lex_lt_trans; eassumption.
    + exfalso. rewrite H in Hlt. eapply lex_lt_irrefl; eassumption.
Qed.

Lemma fle_total (a b : float) :
  is_nan a = false -> is_nan b = false -> fle a b = false -> fle b a = true.
Proof.
  intros Ha Hb Hle. apply fle_false_flt in Hle; [|assumption..].
  apply flt_key in Hle; [|assumption..].
  apply fle_key; [assumption..|]. left. exact Hle.
Qed.

Lemma fle_trans (a b c : float) :
  is_nan a = false -> is_nan b = false -> is_nan c = false ->
  fle a b = true -> fle b c = true -> fle a c = true.
Proof.
  intros Ha Hb Hc Hab Hbc.
  apply fle_key in Hab; [|assumption..]. apply fle_key in Hbc; [|assumption..].
  apply fle_key; [assumption..|].
  destruct Hab as [Hab|Hab], Hbc as [Hbc|Hbc].
  - left. eapply lex_lt_trans; eassumption.
  - left. rewrite <- Hbc. exact Hab.
  - left. rewrite Hab. exact Hbc.
  - right. congruence.
Qed.

(** ** The nearest-pixel search *)

(** Where [np.argmin] ends up, on values none of which is NaN: at the index
    it came in with, when nothing further is smaller than the running
    minimum; otherwise at the first of the least values further on. *)
Lemma argmin_loop_spec (a : list float) (mp : float) (min_ind i : nat) :
  is_nan mp = false -> Forall (fun v => is_nan v = false) a ->
  (Numpy.argmin_loop mp min_ind i a = min_ind /\
   Forall (fun v => fle mp v = true) a) \/
  (exists (n : nat) (v : float),
     Numpy.argmin_loop mp min_ind i a = (i + n)%nat /\
     a !! n = Some v /\ fle mp v = false /\
     Forall (fun u => fle v u = true) a /\
     forall (m : nat) (u : float),
       (m < n)%nat -> a !! m = Some u -> fle u v = false).
Proof.
  revert mp min_ind i.
  induction a as [|v a IH]; intros mp min_ind i Hmp Ha; simpl.
  - left. split; [reflexivity|constructor].
  - apply Forall_cons in Ha as [Hv Ha].
    destruct (fle mp v) eqn:Hle; simpl.
    + destruct (IH mp min_ind (S i) Hmp Ha)
        as [[Heq Hall]|(n & v' & Heq & Hn & Hlt & Hall & Hbefore)].
      * left. split; [exact Heq|]. constructor; assumption.
      * right. exists (S n), v'.
        assert (is_nan v' = false) as Hv'.
        { rewrite Forall_lookup in Ha. eapply Ha. exact Hn. }
        split; [rewrite Heq; lia|]. split; [exact Hn|].
        split; [exact Hlt|]. split.
        -- constructor; [|exact Hall].
           apply (fle_trans v' mp v); try assumption.
           apply fle_total; assumption.
        -- intros [|m] u Hm Hu; simpl in Hu.
           ++ injection Hu as <-.
              destruct (fle v v') eqn:Hvv'; [|reflexivity].
              assert (fle mp v' = true)
                by (apply (fle_trans mp v v'); assumption).
              congruence.
           ++ apply (Hbefore m u); [lia|exact Hu].
    + rewrite Hv.
      destruct (IH v i (S i) Hv Ha)
        as [[Heq Hall]|(n & v' & Heq & Hn & Hlt & Hall & Hbefore)].
      * right. exists O, v.
        split; [rewrite Heq; lia|]. split; [reflexivity|].
        split; [exact Hle|]. split.
        -- constructor; [apply fle_refl; exact Hv|exact Hall].
        -- intros m u Hm. lia.
      * right. exists (S n), v'.
        assert (is_nan v' = false) as Hv'.
        { rewrite Forall_lookup in Ha. eapply Ha. exact Hn. }
        split; [rewrite Heq; lia|]. split; [exact Hn|]. split.
        -- destruct (fle mp v') eqn:Hmv'; [|reflexivity].
           assert (fle mp v = true); [|congruence].
           apply (fle_trans mp v' v); try assumption.
           apply fle_total; assumption.
        -- split.
           ++ constructor; [apply fle_total; assumption|exact Hall].
           ++ intros [|m] u Hm Hu; simpl in Hu.
              ** injection Hu as <-. exact Hlt.
              ** apply (Hbefore m u); [lia|exact Hu].
Qed.

(** [np.nanargmin] on a list of differences with no NaN in it: it returns,
    and what it returns is the first index of the least difference. *)
Lemma nanargmin_first_minimum (d : list float) :
  d <> [] -> Forall (fun v => is_nan v = false) d ->
  exists i : nat,
    Numpy.nanargmin d = Returned (Z.of_nat i) /\ first_minimum d i.
Proof.
  intros Hne Hd. unfold Numpy.nanargmin, Numpy.replace_nan.
  assert (map (fun v => if is_nan v then pinf else v) d = d) as ->.
  { clear Hne. induction Hd as [|v d Hv Hd IH]; simpl; [reflexivity|].
    rewrite Hv, IH. reflexivity. }
  destruct d as [|v d]; [congruence|]. clear Hne.
  apply Forall_cons in Hd as [Hv Hd]. simpl. rewrite Hv. simpl.
  destruct (argmin_loop_spec d v 0 1 Hv Hd)
    as [[Heq Hall]|(n & v' & Heq & Hn & Hlt & Hall & Hbefore)].
  - exists O. rewrite Heq. split; [reflexivity|].
    exists v. split; [reflexivity|]. split.
    + intros [|j] dj Hj; simpl in Hj.
      * injection Hj as <-. apply fle_refl. exact Hv.
      * rewrite Forall_lookup in Hall. eapply Hall. exact Hj.
    + intros j dj Hj. lia.
  - exists (S n). rewrite Heq. split; [reflexivity|].
    assert (is_nan v' = false) as Hv'.
    { rewrite Forall_lookup in Hd. eapply Hd. exact Hn. }
    exists v'. split; [exact Hn|]. split.
    + intros [|j] dj Hj; simpl in Hj.
      * injection Hj as <-. apply fle_total; assumption.
      * rewrite Forall_lookup in Hall. eapply Hall. exact Hj.
    + intros [|j] dj Hlt' Hj; simpl in Hj.
      * injection Hj as <-. apply fle_false_flt; assumption.
      * assert (is_nan dj = false) as Hdj.
        { rewrite Forall_lookup in Hd. eapply Hd. exact Hj. }
        apply fle_false_flt; try assumption.
        apply (Hbefore j dj); [lia|exact Hj].
Qed.

(** Rounding a nonnegative mantissa never yields NaN. *)
Lemma shr_1_nonneg (mrs : shr_record) : 0 <= shr_m mrs -> 0 <= shr_m (shr_1 mrs).
Proof.
  destruct mrs as [m r s]. simpl.
  destruct m as [|[p|p|]|p]; simpl; lia.
Qed.

Lemma iter_shr_1_nonneg (p : positive) (mrs : shr_record) :
  0 <= shr_m mrs -> 0 <= shr_m (SpecFloat.iter_pos shr_1 p mrs).
Proof.
  revert mrs. induction p as [p IH|p IH|]; intros mrs Hm; simpl.
  - apply IH, IH, shr_1_nonneg, Hm.
  - apply IH, IH, Hm.
  - apply shr_1_nonneg, Hm.
Qed.

Lemma shr_fexp_nonneg (m e : Z) (l : location) :
  0 <= m -> 0 <= shr_m (fst (shr_fexp prec emax m e l)).
Proof.
  intros Hm. unfold shr_fexp, shr.
  assert (0 <= shr_m (shr_record_of_loc m l)) as H0.
  { destruct l as [|[ | | ]]; simpl; exact Hm. }
  destruct (fexp prec emax (Zdigits2 m + e) - e) as [|p|p]; simpl;
    [exact H0|apply iter_shr_1_nonneg, H0|exact H0].
Qed.

Lemma round_nearest_even_nonneg (m : Z) (l : location) :
  0 <= m -> 0 <= round_nearest_even m l.
Proof.
  intros Hm. destruct l as [|[ | | ]]; simpl; try lia.
  destruct (Z.even m); lia.
Qed.

Lemma binary_round_aux_not_nan (sx : bool) (mx ex : Z) (lx : location) :
  0 <= mx -> is_nan (binary_round_aux prec emax sx mx ex lx) = false.
Proof.
  intros Hm. unfold binary_round_aux.
  pose proof (shr_fexp_nonneg mx ex lx Hm) as H1.
  destruct (shr_fexp prec emax mx ex lx) as [mrs' e']. simpl in H1.
  pose proof (shr_fexp_nonneg
    (round_nearest_even (shr_m mrs') (loc_of_shr_record mrs')) e' loc_Exact
    (round_nearest_even_nonneg _ _ H1)) as H2.
  destruct (shr_fexp prec emax _ e' loc_Exact) as [mrs'' e'']. simpl in H2.
  destruct (shr_m mrs'') as [|p|p]; [reflexivity| |lia].
  destruct (e'' <=? emax - prec); reflexivity.
Qed.

Lemma binary_normalize_not_nan (m e : Z) (szero : bool) :
  is_nan (binary_normalize prec emax m e szero) = false.
Proof.
  unfold binary_normalize, binary_round.
  destruct m as [|p|p]; [reflexivity| |];
    destruct (shl_align _ _ _) as [mz ez];
    apply binary_round_aux_not_nan; lia.
Qed.

(** The difference of a finite double and a double that is not NaN is not
    NaN, nor is its absolute value. *)
Lemma fabs_fsub_not_nan (v t : float) :
  is_finite v = true -> is_nan t = false -> is_nan (fabs (fsub v t)) = false.
Proof.
  intros Hv Ht.
  assert (is_nan (fsub v t) = false) as H.
  { unfold fsub, SFsub.
    destruct v as [sv|sv| |sv mv ev], t as [st|st| |st mt et];
      try discriminate; try reflexivity.
    - destruct sv, st; reflexivity.
    - apply binary_normalize_not_nan. }
  destruct (fsub v t); try discriminate; reflexivity.
Qed.

Lemma abs_diff_not_nan (axis : list float) (t : float) :
  Forall (fun v => is_finite v = true) axis -> is_nan t = false ->
  Forall (fun v => is_nan v = false) (Numpy.abs_diff axis t).
Proof.
  intros Haxis Ht. unfold Numpy.abs_diff.
  induction Haxis as [|v axis Hv Haxis IH]; simpl; constructor.
  - apply fabs_fsub_not_nan; assumption.
  - exact IH.
Qed.

Lemma abs_diff_length (axis : list float) (t : float) :
  length (Numpy.abs_diff axis t) = length axis.
Proof. unfold Numpy.abs_diff. apply length_map. Qed.

(** The search along one axis. *)
Lemma nearest_index (axis : list float) (t : float) :
  axis <> [] -> Forall (fun v => is_finite v = true) axis -> is_nan t = false ->
  exists i : nat,
    Numpy.nanargmin (Numpy.abs_diff axis t) = Returned (Z.of_nat i) /\
    (i < length axis)%nat /\
    first_minimum (Numpy.abs_diff axis t) i.
Proof.
  intros Hne Hfin Ht.
  destruct (nanargmin_first_minimum (Numpy.abs_diff axis t)) as (i & Hi & Hmin).
  - destruct axis; [congruence|discriminate].
  - apply abs_diff_not_nan; assumption.
  - exists i. split; [exact Hi|]. split; [|exact Hmin].
    destruct Hmin as (di & Hdi & _).
    apply lookup_lt_Some in Hdi. rewrite abs_diff_length in Hdi. exact Hdi.
Qed.

(** C7: for axes of finite coordinates and a planar position that is a
    number, the pixel locator returns, for each axis on its own, the index of
    the least absolute difference to the axis, and among equal differences
    the first index. *)
Theorem nearest_pixel_first_minimum (x y : list float) (trackX trackY : float) :
  x <> [] -> y <> [] ->
  Forall (fun v => is_finite v = true) x ->
  Forall (fun v => is_finite v = true) y ->
  is_nan trackX = false -> is_nan trackY = false ->
  exists xInd yInd : nat,
    nearest_pixel x y trackX trackY = Returned (Z.of_nat xInd, Z.of_nat yInd) /\
    first_minimum (Numpy.abs_diff x trackX) xInd /\
    first_minimum (Numpy.abs_diff y trackY) yInd.
Proof.
  intros Hx Hy Hfx Hfy Htx Hty.
  destruct (nearest_index x trackX Hx Hfx Htx) as (xInd & Hxi & _ & Hxmin).
  destruct (nearest_index y trackY Hy Hfy Hty) as (yInd & Hyi & _ & Hymin).
  exists xInd, yInd. unfold nearest_pixel. rewrite Hxi, Hyi.
  split; [reflexivity|]. split; assumption.
Qed.

Lemma nearest_pixel_first_minimum_witness :
  nearest_pixel (map of_Z [0; 2; 4]) (map of_Z [5; 1; 1]) (of_Z 3) (of_Z 1)
  = Returned (1, 1) /\
  exists xInd yInd : nat,
    nearest_pixel (map of_Z [0; 2; 4]) (map of_Z [5; 1; 1]) (of_Z 3) (of_Z 1)
    = Returned (Z.of_nat xInd, Z.of_nat yInd) /\
    first_minimum (Numpy.abs_diff (map of_Z [0; 2; 4]) (of_Z 3)) xInd /\
    first_minimum (Numpy.abs_diff (map of_Z [5; 1; 1]) (of_Z 1)) yInd.
Proof.
  split; [vm_compute; reflexivity|].
  apply (nearest_pixel_first_minimum (map of_Z [0; 2; 4]) (map of_Z [5; 1; 1])
           (of_Z 3) (of_Z 1)).
  - discriminate.
  - discriminate.
  - vm_compute. repeat constructor.
  - vm_compute. repeat constructor.
  - reflexivity.
  - reflexivity.
Defined.

(** ** Projection followed by the search *)

Lemma scaled_axis_length (axis : list float) (h : float) :
  length (scaled_axis axis h) = length axis.
Proof. unfold scaled_axis. apply length_map. Qed.

(** C8: for every longitude and latitude that the projection maps to
    numbers (as it does inside the visible disc), on a dataset whose axes
    are finite and as long as the dimensions of the raster, the projection
    followed by the pixel locator returns a row index and a column index
    inside the raster. *)
Theorem located_pixel_in_raster
    (Proj : float -> float -> sweep -> float -> float -> float * float)
    (ds : dataset) (lon lat : float) :
  let satHeight := perspective_point_height ds in
  let x := scaled_axis (var_x ds) satHeight in
  let y := scaled_axis (var_y ds) satHeight in
  let p := Proj satHeight (longitude_of_projection_origin ds)
             (sweep_angle_axis ds) in
  coherent ds ->
  0 < fst (shape (Rad ds)) -> 0 < snd (shape (Rad ds)) ->
  Forall (fun v => is_finite v = true) x ->
  Forall (fun v => is_finite v = true) y ->
  is_nan (fst (p lon lat)) = false -> is_nan (snd (p lon lat)) = false ->
  exists xInd yInd : Z,
    nearest_pixel x y (fst (p lon lat)) (snd (p lon lat))
    = Returned (xInd, yInd) /\
    0 <= yInd < fst (shape (Rad ds)) /\
    0 <= xInd < snd (shape (Rad ds)).
Proof.
  intros satHeight x y p [Hly Hlx] Hrows Hcols Hfx Hfy Htx Hty.
  assert (x <> []) as Hx.
  { intros Hnil. apply (f_equal length) in Hnil.
    unfold x in Hnil. rewrite scaled_axis_length in Hnil. simpl in Hnil. lia. }
  assert (y <> []) as Hy.
  { intros Hnil. apply (f_equal length) in Hnil.
    unfold y in Hnil. rewrite scaled_axis_length in Hnil. simpl in Hnil. lia. }
  destruct (nearest_index x _ Hx Hfx Htx) as (xInd & Hxi & Hxlt & _).
  destruct (nearest_index y _ Hy Hfy Hty) as (yInd & Hyi & Hylt & _).
  exists (Z.of_nat xInd), (Z.of_nat yInd).
  unfold nearest_pixel. rewrite Hxi, Hyi. split; [reflexivity|].
  unfold x in Hxlt. unfold y in Hylt.
  rewrite scaled_axis_length in Hxlt, Hylt. lia.
Qed.

Lemma located_pixel_in_raster_witness :
  let ds := grid_dataset 3 4 in
  let x := scaled_axis (var_x ds) (perspective_point_height ds) in
  let y := scaled_axis (var_y ds) (perspective_point_height ds) in
  nearest_pixel x y (of_Z 3) (of_Z 1) = Returned (3, 1) /\
  exists xInd yInd : Z,
    nearest_pixel x y (of_Z 3) (of_Z 1) = Returned (xInd, yInd) /\
    0 <= yInd < 3 /\ 0 <= xInd < 4.
Proof.
  split; [vm_compute; reflexivity|].
  apply (located_pixel_in_raster plain_Proj (grid_dataset 3 4) (of_Z 3) (of_Z 1)).
  - split; reflexivity.
  - reflexivity.
  - reflexivity.
  - vm_compute. repeat constructor.
  - vm_compute. repeat constructor.
  - reflexivity.
  - reflexivity.
Defined.

(** ** Marks and footprints on a square raster *)

Lemma slice_length_nonneg (len : Z) (s : PySlice.slice) :
  0 <= PySlice.slice_length len s.
Proof.
  unfold PySlice.slice_length. destruct (PySlice.indices len s) as [lo hi].
  destruct (Z.ltb_spec lo hi); lia.
Qed.

(** A subset with a dimension of length 0 covers no cell. *)
Lemma footprint_of_empty_crop {A} (a : ndarray A) (xInd yInd buffer r c : Z) :
  zero_in_shape (getitem a (ywin yInd buffer) (xwin xInd buffer)) = true ->
  footprint (shape a) xInd yInd buffer r c = false.
Proof.
  unfold zero_in_shape, getitem, footprint. simpl. intros Hz.
  destruct (PySlice.selects (fst (shape a)) (ywin yInd buffer) r) eqn:Hr;
    [|reflexivity].
  destruct (PySlice.selects (snd (shape a)) (xwin xInd buffer) c) eqn:Hc;
    [|reflexivity].
  assert (0 < PySlice.slice_length (fst (shape a)) (ywin yInd buffer)) as H1
    by (apply slice_length_pos_selects; eauto).
  assert (0 < PySlice.slice_length (snd (shape a)) (xwin xInd buffer)) as H2
    by (apply slice_length_pos_selects; eauto).
  apply orb_true_iff in Hz as [Hz|Hz]; apply Z.eqb_eq in Hz; lia.
Qed.

(** A window that tests free has no marked cell. *)
Lemma free_window_unmarked (a : ndarray Z) (xInd yInd buffer r c : Z) :
  well_shaped a ->
  all_eq_1 (getitem a (ywin yInd buffer) (xwin xInd buffer)) = true ->
  footprint (shape a) xInd yInd buffer r c = true ->
  marked a r c = false.
Proof.
  intros Hws Hall Hfp. unfold footprint in Hfp.
  apply andb_true_iff in Hfp as [Hr Hc].
  pose proof (selects_range _ _ _ (proj1 Hws) Hr) as Hr'.
  pose proof (selects_range _ _ _ (proj1 (proj2 Hws)) Hc) as Hc'.
  rewrite (all_eq_1_getitem a _ _ Hws) in Hall.
  specialize (Hall (Z.to_nat r) (Z.to_nat c)).
  rewrite !Z2Nat.id in Hall by lia. specialize (Hall Hr Hc).
  unfold marked. rewrite Hall. simpl. apply andb_false_r.
Qed.

Lemma occupancy_invariant_start (n0 n1 : Z) :
  0 <= n0 -> 0 <= n1 -> occupancy_invariant (n0, n1) (ones n0 n1) [].
Proof.
  intros H0 H1. unfold occupancy_invariant.
  split; [apply well_shaped_ones; assumption|]. split; [reflexivity|].
  split; [|split].
  - intros r c. rewrite marked_ones. split; [discriminate|].
    intros (s & [] & _).
  - intros i j s' s _ Hi. rewrite lookup_nil in Hi. discriminate.
  - intros i j s' s _ Hi. rewrite lookup_nil in Hi. discriminate.
Qed.

(** One crop and its mark keep the invariant, when the array has the shape
    of the raster, a positive crop comes while all samples are positive, and
    a negative crop comes only after its window tested free. *)
Lemma occupancy_invariant_step (ds : dataset) (a : ndarray Z)
    (new : list sample) (k : kind) (dt xInd yInd buffer : Z) :
  occupancy_invariant (shape (Rad ds)) a new ->
  (k = Positive -> Forall (fun s => fig_kind (s_path s) = Positive) new) ->
  (k = Negative ->
   all_eq_1 (getitem a (ywin yInd buffer) (xwin xInd buffer)) = true) ->
  let data := getitem (Rad ds) (ywin yInd buffer) (xwin xInd buffer) in
  let new' := new ++ (if zero_in_shape data then []
                      else [mk_sample (mk_fig_path k dt xInd yInd buffer) data]) in
  occupancy_invariant (shape (Rad ds))
    (setitem a (ywin yInd buffer) (xwin xInd buffer) 0) new'.
Proof.
  intros (Hws & Hsh & Hagree & Hapart & Hfirst) Hpos Hneg data new'.
  unfold occupancy_invariant.
  split; [apply well_shaped_setitem, Hws|]. split; [exact Hsh|].
  split; [|split].
  - intros r c. rewrite marked_setitem by exact Hws. rewrite Hsh.
    rewrite orb_true_iff, (Hagree r c). unfold new'. split.
    + intros [Hfp|(s & Hin & Hs)].
      * destruct (zero_in_shape data) eqn:Hz.
        -- rewrite (footprint_of_empty_crop (Rad ds)) in Hfp by exact Hz.
           discriminate.
        -- eexists. split; [apply in_or_app; right; left; reflexivity|].
           exact Hfp.
      * exists s. split; [apply in_or_app; left; exact Hin|exact Hs].
    + intros (s & Hin & Hs). apply in_app_or in Hin as [Hin|Hin].
      * right. exists s. split; assumption.
      * left. destruct (zero_in_shape data); [destruct Hin|].
        destruct Hin as [<-|[]]. exact Hs.
  - intros i j s' s Hij Hi Hj Hkind r c Hfp.
    assert (j < S (length new))%nat as Hj'.
    { apply lookup_lt_Some in Hj. unfold new' in Hj.
      rewrite length_app in Hj. destruct (zero_in_shape data); simpl in Hj; lia. }
    unfold new' in Hi, Hj.
    destruct (decide (j < length new)%nat) as [Hlt|Hge].
    + rewrite lookup_app_l in Hi, Hj by lia.
      exact (Hapart i j s' s Hij Hi Hj Hkind r c Hfp).
    + rewrite lookup_app_l in Hi by lia.
      rewrite lookup_app_r in Hj by lia.
      destruct (zero_in_shape data); [simpl in Hj; discriminate|].
      destruct (j - length new)%nat; simpl in Hj; [|discriminate].
      injection Hj as <-. simpl in Hkind. subst k.
      unfold sample_footprint in Hfp. simpl in Hfp. rewrite <- Hsh in Hfp.
      pose proof (free_window_unmarked a xInd yInd buffer r c Hws
                    (Hneg eq_refl) Hfp) as Hunmarked.
      destruct (sample_footprint s' (shape (Rad ds)) r c) eqn:Hs';
        [|reflexivity].
      assert (marked a r c = true); [|congruence].
      apply Hagree. exists s'. split; [|exact Hs'].
      apply list_elem_of_In. eapply list_elem_of_lookup_2. exact Hi.
  - intros i j s' s Hij Hi Hj Hkind.
    assert (j < S (length new))%nat as Hj'.
    { apply lookup_lt_Some in Hj. unfold new' in Hj.
      rewrite length_app in Hj. destruct (zero_in_shape data); simpl in Hj; lia. }
    unfold new' in Hi, Hj.
    destruct (decide (j < length new)%nat) as [Hlt|Hge].
    + rewrite lookup_app_l in Hi, Hj by lia.
      exact (Hfirst i j s' s Hij Hi Hj Hkind).
    + rewrite lookup_app_l in Hi by lia.
      rewrite lookup_app_r in Hj by lia.
      destruct (zero_in_shape data); [simpl in Hj; discriminate|].
      destruct (j - length new)%nat; simpl in Hj; [|discriminate].
      injection Hj as <-. simpl in Hkind.
      specialize (Hpos Hkind). rewrite Forall_lookup in Hpos.
      eapply Hpos. exact Hi.
Qed.

Lemma crop_image_saved (ds : dataset) (xInd yInd buffer dpi : Z)
    (figPath : fig_path) (w : world) :
  exists w1,
    crop_image ds xInd yInd buffer dpi figPath w = (w1, Returned tt) /\
    saved w1 = saved w ++
      (if zero_in_shape (getitem (Rad ds) (ywin yInd buffer) (xwin xInd buffer))
       then []
       else [mk_sample figPath
               (getitem (Rad ds) (ywin yInd buffer) (xwin xInd buffer))]).
Proof.
  unfold crop_image. destruct (zero_in_shape _); simpl.
  - exists w. rewrite app_nil_r. split; reflexivity.
  - eexists. split; reflexivity.
Qed.

Lemma Forall_positive_step (new : list sample) (b : bool) (s : sample) :
  fig_kind (s_path s) = Positive ->
  Forall (fun s => fig_kind (s_path s) = Positive) new ->
  Forall (fun s => fig_kind (s_path s) = Positive)
    (new ++ (if b then [] else [s])).
Proof.
  intros Hs Hnew. apply Forall_app. split; [exact Hnew|].
  destruct b; repeat constructor. exact Hs.
Qed.

Section SquareRaster.

Variable buffer : Z.
Variable Proj : float -> float -> sweep -> float -> float -> float * float.
Variable rng : nat -> Z.
Variable df : list track_row.

(** The positive phase keeps the invariant, on an occupancy array that has
    the shape of the raster. *)
Lemma positive_loop_invariant (ds : dataset) (dt : Z) (x y : list float)
    (p : float -> float -> float * float) (rows : list track_row)
    (free0 free1 : ndarray Z) (w w' : world) (base new : list sample) :
  saved w = base ++ new ->
  occupancy_invariant (shape (Rad ds)) free0 new ->
  Forall (fun s => fig_kind (s_path s) = Positive) new ->
  positive_loop buffer ds dt x y p rows free0 w = (w', Returned free1) ->
  exists new',
    saved w' = base ++ new' /\
    occupancy_invariant (shape (Rad ds)) free1 new' /\
    Forall (fun s => fig_kind (s_path s) = Positive) new'.
Proof.
  revert free0 w new.
  induction rows as [|row rows IH]; intros free0 w new Hsaved Hinv Hpos; simpl.
  - intros [= <- <-]. exists new. split; [|split]; assumption.
  - destruct (p (LON row) (LAT row)) as [trackX trackY].
    unfold bind at 1. unfold lift.
    destruct (nearest_pixel x y trackX trackY) as [[xInd yInd]|e|];
      [|discriminate|discriminate].
    unfold bind.
    destruct (crop_image_saved ds xInd yInd buffer myDPI
                (mk_fig_path Positive dt xInd yInd buffer) w)
      as (w1 & -> & Hsaved1).
    apply IH with
      (new := new ++
         (if zero_in_shape
               (getitem (Rad ds) (ywin yInd buffer) (xwin xInd buffer))
          then []
          else [mk_sample (mk_fig_path Positive dt xInd yInd buffer)
                  (getitem (Rad ds) (ywin yInd buffer) (xwin xInd buffer))])).
    + rewrite Hsaved1, Hsaved, app_assoc. reflexivity.
    + apply occupancy_invariant_step;
        [exact Hinv|intros _; exact Hpos|discriminate].
    + apply Forall_positive_step; [reflexivity|exact Hpos].
Qed.

Lemma negative_draw_invariant (ds : dataset) (dt nx ny : Z)
    (st st1 : loop_state) (w w1 : world) (base new : list sample) :
  saved w = base ++ new ->
  occupancy_invariant (shape (Rad ds)) (free st) new ->
  negative_draw buffer rng ds dt nx ny st w = (w1, Returned st1) ->
  exists new',
    saved w1 = base ++ new' /\
    occupancy_invariant (shape (Rad ds)) (free st1) new'.
Proof.
  intros Hsaved Hinv. unfold negative_draw. unfold bind at 1.
  destruct (randint rng buffer (nx - buffer) w) as [wx [xInd| |]] eqn:Hx;
    [|discriminate|discriminate].
  apply randint_range in Hx as (_ & Hsx & _).
  unfold bind at 1.
  destruct (randint rng buffer (ny - buffer) wx) as [wy [yInd| |]] eqn:Hy;
    [|discriminate|discriminate].
  apply randint_range in Hy as (_ & Hsy & _).
  destruct (all_eq_1 (getitem (free st) (ywin yInd buffer) (xwin xInd buffer)))
    eqn:Hfree.
  - unfold bind.
    destruct (crop_image_saved ds xInd yInd buffer myDPI
                (mk_fig_path Negative dt xInd yInd buffer) wy)
      as (w2 & -> & Hsaved2).
    intros [= <- <-]. simpl.
    eexists. split.
    + rewrite Hsaved2, Hsy, Hsx, Hsaved, <- app_assoc. reflexivity.
    + apply occupancy_invariant_step;
        [exact Hinv|discriminate|intros _; exact Hfree].
  - intros [= <- <-]. exists new. split; [congruence|exact Hinv].
Qed.

Lemma negative_loop_invariant (fuel : nat) (ds : dataset)
    (dt nx ny target maxA : Z) (st st' : loop_state) (w w' : world)
    (base new : list sample) :
  saved w = base ++ new ->
  occupancy_invariant (shape (Rad ds)) (free st) new ->
  negative_loop buffer rng fuel ds dt nx ny target maxA st w
  = (w', Returned st') ->
  exists new',
    saved w' = base ++ new' /\
    occupancy_invariant (shape (Rad ds)) (free st') new'.
Proof.
  revert st w new.
  induction fuel as [|fuel IH]; intros st w new Hsaved Hinv; simpl;
    [discriminate|].
  destruct (negativeCount st <? target).
  2:{ intros [= <- <-]. exists new. split; assumption. }
  unfold bind.
  destruct (negative_draw buffer rng ds dt nx ny st w) as [w1 [st1|e|]] eqn:Hd;
    [|discriminate|discriminate].
  destruct (negative_draw_invariant ds dt nx ny st st1 w w1 base new
              Hsaved Hinv Hd) as (new1 & Hsaved1 & Hinv1).
  simpl. destruct (attemptCount st1 + 1 >? maxA).
  - intros [= <- <-]. exists new1. split; assumption.
  - apply (IH _ w1 new1); assumption.
Qed.

(** On a square raster, at the end of the two phases: the marked cells are
    exactly the cells under the crops written for the raster, no negative
    crop shares a cell with a crop written before it, and the positive crops
    come first. *)
Lemma square_raster_invariant (fuel : nat) (ds : dataset) (date n : Z)
    (w w' : world) (st : loop_state) :
  0 <= n -> shape (Rad ds) = (n, n) ->
  sample_raster buffer Proj rng df fuel ds date w = (w', Returned st) ->
  exists new,
    saved w' = saved w ++ new /\
    occupancy_invariant (n, n) (free st) new.
Proof.
  intros Hn Hsh. unfold sample_raster, occupancy. rewrite Hsh.
  unfold bind at 1. simpl.
  set (w0 := {| saved := saved w; logged := logged w ++ [DebugSaving];
                draws := draws w |}).
  unfold bind.
  destruct (positive_loop buffer ds date _ _ _ _ (ones n n) w0)
    as [w1 [free1|e|]] eqn:Hpos; [|discriminate|discriminate].
  assert (saved w0 = saved w ++ []) as Hsaved0
    by (unfold w0; simpl; rewrite app_nil_r; reflexivity).
  assert (occupancy_invariant (shape (Rad ds)) (ones n n) []) as Hinv0
    by (rewrite Hsh; apply occupancy_invariant_start; assumption).
  destruct (positive_loop_invariant _ _ _ _ _ _ _ _ _ _ _ _
              Hsaved0 Hinv0 (List.Forall_nil _) Hpos)
    as (new1 & Hsaved1 & Hinv1 & _).
  unfold negative_phase. intros Hneg.
  destruct (negative_loop_invariant fuel ds date n n _ _
              {| free := free1; negativeCount := 0; attemptCount := 0 |}
              st w1 w' (saved w) new1 Hsaved1 Hinv1 Hneg)
    as (new & Hsaved & Hinv).
  exists new. rewrite <- Hsh. split; assumption.
Qed.

End SquareRaster.

(** Under the invariant a negative crop shares no cell with any other crop
    of the raster, positive or negative. *)
Lemma negative_overlaps_nothing (sh : Z * Z) (new : list sample)
    (i j : nat) (s s' : sample) (r c : Z) :
  negatives_apart sh new -> positives_first new ->
  i <> j -> new !! i = Some s -> new !! j = Some s' ->
  fig_kind (s_path s) = Negative ->
  sample_footprint s sh r c = true -> sample_footprint s' sh r c = false.
Proof.
  intros Hapart Hfirst Hij Hi Hj Hneg Hfp.
  destruct (Nat.lt_total i j) as [Hlt|[Heq|Hgt]]; [|contradiction|].
  - destruct (fig_kind (s_path s')) eqn:Hk'.
    + pose proof (Hfirst i j s s' Hlt Hi Hj Hk'). congruence.
    + destruct (sample_footprint s' sh r c) eqn:Hs'; [|reflexivity].
      pose proof (Hapart i j s s' Hlt Hi Hj Hk' r c Hs'). congruence.
  - exact (Hapart j i s' s Hgt Hj Hi Hneg r c Hfp).
Qed.

(** ** Marks and footprints on a raster that is not square *)

(** C1: on a raster of 1000 rows and 499 columns with buffer 249, a track
    point at row 600, column 249 gives a positive crop of rows 351..848, but
    the occupancy array has 499 rows, so the mark stops at row 498: cell
    (600, 100) lies in the footprint of the crop that was written and is not
    marked; the cell (400, 100) lies in both. *)
Theorem marks_differ_from_footprints :
  let ds := grid_dataset 1000 499 in
  let df := [mk_track_row 0 (of_Z 600) (of_Z 249)] in
  match sample_raster script_buffer plain_Proj (fun _ => 0) df 6 ds 0
          initial_world with
  | (w, Returned st) =>
      map s_path (saved w) = [mk_fig_path Positive 0 249 600 249] /\
      map (fun s => shape (s_data s)) (saved w) = [(498, 498)] /\
      shape (free st) = (499, 1000) /\
      forallb (fun s => sample_footprint s (shape (Rad ds)) 600 100) (saved w)
      = true /\
      marked (free st) 600 100 = false /\
      forallb (fun s => sample_footprint s (shape (Rad ds)) 400 100) (saved w)
      = true /\
      marked (free st) 400 100 = true
  | _ => False
  end.
Proof. vm_compute. repeat split; reflexivity. Qed.

(** ** Errors while a date is processed *)

Lemma dates_logged_app (l1 l2 : list log_record) :
  dates_logged (l1 ++ l2) = dates_logged l1 ++ dates_logged l2.
Proof.
  induction l1 as [|r l1 IH]; [reflexivity|].
  destruct r; simpl; rewrite IH; reflexivity.
Qed.

Lemma nanargmin_no_stall (d : list float) : Numpy.nanargmin d <> OutOfFuel.
Proof.
  unfold Numpy.nanargmin, Numpy.replace_nan.
  destruct (forallb id (map is_nan d)); [discriminate|].
  destruct (map _ d); discriminate.
Qed.

Lemma nearest_pixel_no_stall (x y : list float) (trackX trackY : float) :
  nearest_pixel x y trackX trackY <> OutOfFuel.
Proof.
  unfold nearest_pixel.
  pose proof (nanargmin_no_stall (Numpy.abs_diff x trackX)) as Hx.
  pose proof (nanargmin_no_stall (Numpy.abs_diff y trackY)) as Hy.
  destruct (Numpy.nanargmin (Numpy.abs_diff x trackX)); try discriminate;
    [|congruence].
  destruct (Numpy.nanargmin (Numpy.abs_diff y trackY)); try discriminate.
  congruence.
Qed.

Lemma crop_image_outcome (ds : dataset) (xInd yInd buffer dpi : Z)
    (figPath : fig_path) (w : world) :
  snd (crop_image ds xInd yInd buffer dpi figPath w) = Returned tt /\
  logged (fst (crop_image ds xInd yInd buffer dpi figPath w)) = logged w.
Proof.
  unfold crop_image. destruct (negb (zero_in_shape _)); split; reflexivity.
Qed.

Section Batch.

Variable buffer : Z.
Variable Proj : float -> float -> sweep -> float -> float -> float * float.
Variable download_data : Z -> option dataset.
Variable rng : nat -> Z.
Variable df : list track_row.

(** The positive phase writes no log line and always comes to an end. *)
Lemma positive_loop_outcome (ds : dataset) (dt : Z) (x y : list float)
    (p : float -> float -> float * float) (rows : list track_row)
    (free0 : ndarray Z) (w : world) :
  logged (fst (positive_loop buffer ds dt x y p rows free0 w)) = logged w /\
  snd (positive_loop buffer ds dt x y p rows free0 w) <> OutOfFuel.
Proof.
  revert free0 w. induction rows as [|row rows IH]; intros free0 w; simpl.
  - split; [reflexivity|discriminate].
  - destruct (p (LON row) (LAT row)) as [trackX trackY].
    unfold bind at 1. unfold lift.
    pose proof (nearest_pixel_no_stall x y trackX trackY) as Hns.
    destruct (nearest_pixel x y trackX trackY) as [[xInd yInd]|e|];
      [|split; [reflexivity|discriminate]|congruence].
    unfold bind.
    pose proof (crop_image_outcome ds xInd yInd buffer myDPI
                  (mk_fig_path Positive dt xInd yInd buffer) w) as [Hr Hl].
    destruct (crop_image ds xInd yInd buffer myDPI _ w) as [w1 o].
    simpl in Hr, Hl. subst o.
    destruct (IH (setitem free0 (ywin yInd buffer) (xwin xInd buffer) 0) w1)
      as [IHl IHr].
    split; [congruence|exact IHr].
Qed.

Lemma sample_raster_outcome (fuel : nat) (ds : dataset) (date : Z)
    (w w' : world) (o : outcome loop_state) :
  (Z.to_nat (5 * Z.of_nat (length df)) < fuel)%nat ->
  sample_raster buffer Proj rng df fuel ds date w = (w', o) ->
  o <> OutOfFuel /\ logged w' = logged w ++ [DebugSaving].
Proof.
  intros Hfuel. unfold sample_raster, occupancy.
  destruct (shape (Rad ds)) as [nx ny].
  set (dfSubset := filter (fun row => ISO_TIME row =? date) df).
  unfold bind at 1. simpl.
  set (w1 := {| saved := saved w; logged := logged w ++ [DebugSaving];
                draws := draws w |}).
  unfold bind.
  destruct (positive_loop_outcome ds date
              (scaled_axis (var_x ds) (perspective_point_height ds))
              (scaled_axis (var_y ds) (perspective_point_height ds))
              (Proj (perspective_point_height ds)
                 (longitude_of_projection_origin ds) (sweep_angle_axis ds))
              dfSubset (ones ny nx) w1) as [Hpl Hpr].
  destruct (positive_loop buffer ds date _ _ _ dfSubset (ones ny nx) w1)
    as [w2 [free1|e|]]; simpl in Hpl, Hpr; [| |congruence].
  2:{ intros [= <- <-]. split; [discriminate|exact Hpl]. }
  assert (length dfSubset <= length df)%nat as Hlen
    by (unfold dfSubset; apply length_filter).
  pose proof (negative_phase_terminates buffer rng fuel ds date nx ny
                (Z.of_nat (length dfSubset)) free1 w2) as Hneg.
  assert (0 <= Z.of_nat (length dfSubset)) as H0 by lia.
  assert (Z.to_nat (5 * Z.of_nat (length dfSubset)) < fuel)%nat as H1 by lia.
  specialize (Hneg H0 H1).
  destruct (negative_phase buffer rng fuel ds date nx ny
              (Z.of_nat (length dfSubset)) free1 w2) as [w3 [st|e|]];
    [| |contradiction]; intros [= <- <-].
  - destruct Hneg as (_ & _ & Hl). split; [discriminate|congruence].
  - destruct Hneg as (_ & Hl). split; [discriminate|congruence].
Qed.

(** What processing one date leaves in the log: nothing when the download
    fails, and the two debug lines otherwise, whether or not an exception
    follows; with enough steps it always comes to an end. *)
Lemma process_date_outcome (fuel : nat) (date : Z) (w w' : world)
    (o : outcome unit) :
  (Z.to_nat (5 * Z.of_nat (length df)) < fuel)%nat ->
  process_date buffer Proj download_data rng df fuel date w = (w', o) ->
  o <> OutOfFuel /\
  match download_data date with
  | None => w' = w /\ o = Raised DownloadError
  | Some _ => logged w' = logged w ++ [DebugProjecting; DebugSaving]
  end.
Proof.
  intros Hfuel. unfold process_date.
  destruct (download_data date) as [ds|].
  2:{ unfold bind, raise. intros [= <- <-].
      split; [discriminate|split; reflexivity]. }
  unfold bind at 1. unfold ret at 1. unfold bind at 1. simpl.
  set (w0 := {| saved := saved w; logged := logged w ++ [DebugProjecting];
                draws := draws w |}).
  unfold bind.
  destruct (sample_raster buffer Proj rng df fuel ds date w0) as [w1 o1]
    eqn:Hrun.
  apply sample_raster_outcome in Hrun as [Hns Hl]; [|exact Hfuel].
  assert (logged w1 = logged w ++ [DebugProjecting; DebugSaving]) as Hw1.
  { rewrite Hl. unfold w0. simpl. rewrite <- app_assoc. reflexivity. }
  destruct o1 as [st|e|]; [| |congruence]; intros [= <- <-];
    (split; [discriminate|exact Hw1]).
Qed.

(** The [try] around one date never lets an exception out: it returns, and
    when the body raised it has logged the error after what the body did. *)
Lemma try_process_date_outcome (fuel : nat) (date : Z) (w : world) :
  (Z.to_nat (5 * Z.of_nat (length df)) < fuel)%nat ->
  exists (w' : world) (tail : list log_record),
    try_except (process_date buffer Proj download_data rng df fuel date)
      (log ErrorSaving) w = (w', Returned tt) /\
    logged w' = logged w ++ tail /\
    dates_logged tail = [] /\
    (download_data date = None -> tail = [ErrorSaving]) /\
    (forall w1 e,
       process_date buffer Proj download_data rng df fuel date w
       = (w1, Raised e) ->
       saved w' = saved w1 /\ logged w' = logged w1 ++ [ErrorSaving]).
Proof.
  intros Hfuel. unfold try_except.
  destruct (process_date buffer Proj download_data rng df fuel date w)
    as [w1 o] eqn:Hrun.
  destruct (process_date_outcome fuel date w w1 o Hfuel Hrun) as [Hns Hlog].
  destruct o as [[]|e|]; [| |congruence].
  - exists w1. destruct (download_data date) as [ds|].
    + exists [DebugProjecting; DebugSaving].
      split; [reflexivity|]. split; [exact Hlog|]. split; [reflexivity|].
      split; [discriminate|]. intros w2 e [=].
    + destruct Hlog as [_ Hlog]. discriminate.
  - simpl.
    exists {| saved := saved w1; logged := logged w1 ++ [ErrorSaving];
              draws := draws w1 |}.
    destruct (download_data date) as [ds|].
    + exists [DebugProjecting; DebugSaving; ErrorSaving].
      split; [reflexivity|]. split.
      { simpl. rewrite Hlog, <- app_assoc. reflexivity. }
      split; [reflexivity|]. split; [discriminate|].
      intros w2 e' [= <- _]. split; reflexivity.
    + destruct Hlog as [-> _]. exists [ErrorSaving].
      split; [reflexivity|]. split; [reflexivity|]. split; [reflexivity|].
      split; [reflexivity|].
      intros w2 e' [= <- _]. split; reflexivity.
Qed.

Lemma date_loop_outcome (fuel : nat) (dates : list Z) (w : world) :
  (Z.to_nat (5 * Z.of_nat (length df)) < fuel)%nat ->
  exists (w' : world) (tail : list log_record),
    date_loop buffer Proj download_data rng df fuel dates w = (w', Returned tt) /\
    logged w' = logged w ++ tail /\
    dates_logged tail = dates /\
    (forall date, In date dates -> download_data date = None ->
       exists before after,
         tail = before ++ [InfoDate date; DebugDownloading; ErrorSaving] ++ after).
Proof.
  intros Hfuel. revert w. induction dates as [|date dates IH]; intros w; simpl.
  - exists w, []. rewrite app_nil_r.
    repeat split; try reflexivity. intros date [].
  - unfold bind at 1. simpl. unfold bind at 1. simpl.
    set (w0 := {| saved := saved w;
                  logged := (logged w ++ [InfoDate date]) ++ [DebugDownloading];
                  draws := draws w |}).
    unfold bind.
    destruct (try_process_date_outcome fuel date w0 Hfuel)
      as (w1 & tail1 & Htry & Hl1 & Hd1 & Hfail & _).
    rewrite Htry.
    destruct (IH w1) as (w' & tail & Hloop & Hl & Hd & Herr).
    exists w', (InfoDate date :: DebugDownloading :: tail1 ++ tail).
    split; [exact Hloop|]. split; [|split].
    + rewrite Hl, Hl1. unfold w0. simpl.
      rewrite <- !app_assoc. reflexivity.
    + simpl. rewrite dates_logged_app, Hd1, Hd. reflexivity.
    + intros d [<-|Hin] Hnone.
      * exists [], tail. rewrite (Hfail Hnone). reflexivity.
      * destruct (Herr d Hin Hnone) as (before & after & ->).
        exists (InfoDate date :: DebugDownloading :: tail1 ++ before), after.
        simpl. rewrite <- app_assoc. reflexivity.
Qed.

End Batch.

(** C4, as stated, fails when the error comes after a crop was written: on
    a 498 x 498 raster with buffer 249 the positive crop of the track point
    at pixel (249, 249) is written, then [randint(249, 249)] raises
    [ValueError]; the error is logged and the run goes on, but the file
    written for that date stays. *)
Lemma error_after_sample_written :
  let download := fun _ : Z => Some (grid_dataset 498 498) in
  let df := [mk_track_row 0 (of_Z 249) (of_Z 249)] in
  let step := process_date script_buffer plain_Proj download (fun _ => 0) df 6 0
                initial_world in
  let run := main script_buffer plain_Proj download (fun _ => 0) df 6
               initial_world in
  snd step = Raised ValueError /\
  map s_path (saved (fst step)) = [mk_fig_path Positive 0 249 249 249] /\
  snd run = Returned tt /\
  map s_path (saved (fst run)) = [mk_fig_path Positive 0 249 249 249] /\
  logged (fst run) = [InfoReading; InfoDate 0; DebugDownloading;
                      DebugProjecting; DebugSaving; ErrorSaving;
                      InfoTotalTime].
Proof. vm_compute. repeat split; reflexivity. Qed.

(** C4, amended: no error while a date is processed aborts the batch.  The
    run returns normally and announces every distinct date in order; a date
    whose download fails leaves no sample at all and, in the log, its
    announcement followed by the error; and whenever processing a date
    raises, the [try] around it returns with the error logged and with the
    files the date had written until then. *)
Theorem run_survives_errors (buffer : Z)
    (Proj : float -> float -> sweep -> float -> float -> float * float)
    (download_data : Z -> option dataset) (rng : nat -> Z)
    (df : list track_row) (fuel : nat) :
  (Z.to_nat (5 * Z.of_nat (length df)) < fuel)%nat ->
  let dates := unique (map ISO_TIME df) in
  let run := main buffer Proj download_data rng df fuel initial_world in
  snd run = Returned tt /\
  dates_logged (logged (fst run)) = dates /\
  (forall date, download_data date = None ->
     (forall s, In s (saved (fst run)) -> fig_date (s_path s) <> date) /\
     (In date dates ->
      exists before after,
        logged (fst run)
        = before ++ [InfoDate date; DebugDownloading; ErrorSaving] ++ after)) /\
  (forall date w w1 e,
     process_date buffer Proj download_data rng df fuel date w
     = (w1, Raised e) ->
     exists w',
       try_except (process_date buffer Proj download_data rng df fuel date)
         (log ErrorSaving) w = (w', Returned tt) /\
       saved w' = saved w1 /\ logged w' = logged w1 ++ [ErrorSaving]).
Proof.
  intros Hfuel dates run.
  assert (Hmain : exists w' tail,
    run = (w', Returned tt) /\
    logged w' = InfoReading :: tail ++ [InfoTotalTime] /\
    dates_logged tail = dates /\
    (forall date, In date dates -> download_data date = None ->
       exists before after,
         tail = before ++ [InfoDate date; DebugDownloading; ErrorSaving]
                  ++ after)).
  { unfold run, main. unfold bind at 1. simpl. unfold bind.
    destruct (date_loop_outcome buffer Proj download_data rng df fuel dates
                {| saved := []; logged := [InfoReading]; draws := O |} Hfuel)
      as (w' & tail & Hloop & Hl & Hd & Herr).
    fold dates. rewrite Hloop. simpl.
    eexists. exists tail. split; [reflexivity|]. simpl. rewrite Hl.
    repeat split; try assumption; reflexivity. }
  destruct Hmain as (w' & tail & Hrun & Hl & Hd & Herr).
  split; [rewrite Hrun; reflexivity|]. split; [|split].
  - rewrite Hrun. simpl. rewrite Hl. simpl.
    rewrite dates_logged_app, Hd. simpl. apply app_nil_r.
  - intros date Hnone. split.
    + intros s Hin Hdate.
      apply main_samples_traced in Hin as (ds & Hdl & _).
      rewrite Hdate in Hdl. congruence.
    + intros Hin. destruct (Herr date Hin Hnone) as (before & after & ->).
      exists (InfoReading :: before), (after ++ [InfoTotalTime]).
      rewrite Hrun. simpl. rewrite Hl. simpl.
      rewrite <- !app_assoc. reflexivity.
  - intros date w w1 e Hraise.
    destruct (try_process_date_outcome buffer Proj download_data rng df
                fuel date w Hfuel) as (w2 & tail2 & Htry & _ & _ & _ & Hlogged).
    exists w2. split; [exact Htry|]. apply (Hlogged w1 e Hraise).
Qed.

Lemma run_survives_errors_witness :
  let download := fun date : Z => if date =? 1 then None
                                  else Some (grid_dataset 5 5) in
  let df := [mk_track_row 1 (of_Z 1) (of_Z 1);
             mk_track_row 2 (of_Z 1) (of_Z 1)] in
  let run := main 1 plain_Proj download (fun _ => 2) df 11 initial_world in
  snd run = Returned tt /\
  dates_logged (logged (fst run)) = [1; 2] /\
  map (fun s => fig_date (s_path s)) (saved (fst run)) = [2; 2] /\
  (forall s, In s (saved (fst run)) -> fig_date (s_path s) <> 1).
Proof.
  intros download df run.
  destruct (run_survives_errors 1 plain_Proj download (fun _ => 2) df 11)
    as (Hret & Hdates & Hfail & _).
  - vm_compute. lia.
  - split; [exact Hret|]. split; [exact Hdates|].
    split; [vm_compute; reflexivity|].
    apply (Hfail 1). reflexivity.
Defined.

(** ** How many crops a raster gives, and how large they are *)

Lemma slice_length_window_le (len c b : Z) :
  0 <= len -> 0 <= b -> PySlice.slice_length len (c - b, c + b) <= 2 * b.
Proof.
  intros Hlen Hb.
  unfold PySlice.slice_length, PySlice.indices, PySlice.adjust_index. simpl.
  destruct (Z.ltb_spec (c - b) 0), (Z.ltb_spec (c + b) 0);
    match goal with
    | |- context [if ?x <? ?y then _ else _] => destruct (Z.ltb_spec x y)
    end; lia.
Qed.

Lemma length_getslice {A} (len : Z) (s : PySlice.slice) (l : list A) :
  Z.of_nat (length l) = len ->
  Z.of_nat (length (PySlice.getslice len s l)) = PySlice.slice_length len s.
Proof.
  intros Hlen. assert (0 <= len) as Hnn by lia.
  unfold PySlice.getslice, PySlice.slice_length.
  pose proof (adjust_index_range len (fst s) Hnn) as Hlo.
  pose proof (adjust_index_range len (snd s) Hnn) as Hhi.
  unfold PySlice.indices.
  rewrite length_take, length_drop.
  destruct (Z.ltb_spec (PySlice.adjust_index len (fst s))
              (PySlice.adjust_index len (snd s))); lia.
Qed.

(** A slice of a well-shaped array is well shaped. *)
Lemma well_shaped_getitem {A} (a : ndarray A) (ys xs : PySlice.slice) :
  well_shaped a -> well_shaped (getitem a ys xs).
Proof.
  intros (H0 & H1 & Hrows & Hcols). unfold well_shaped, getitem. simpl.
  split; [apply slice_length_nonneg|]. split; [apply slice_length_nonneg|].
  split.
  - rewrite length_map. apply length_getslice. exact Hrows.
  - apply Forall_forall. intros sub Hin.
    apply list_elem_of_In, in_map_iff in Hin as (row & <- & Hin).
    apply in_getslice_inv in Hin as (r & _ & Hrow); [|exact H0].
    apply length_getslice.
    rewrite Forall_lookup in Hcols. exact (Hcols r row Hrow).
Qed.

(** X1: every crop that a run writes has at least one row and one column and
    at most 2 buffer of each, whatever the raster and wherever its center;
    its cells fill its shape when the raster's do. *)
Theorem written_crops_bounded (buffer : Z)
    (Proj : float -> float -> sweep -> float -> float -> float * float)
    (download_data : Z -> option dataset) (rng : nat -> Z)
    (df : list track_row) (fuel : nat) (s : sample) :
  0 <= buffer ->
  (forall date ds, download_data date = Some ds -> well_shaped (Rad ds)) ->
  In s (saved (fst (main buffer Proj download_data rng df fuel initial_world))) ->
  1 <= fst (shape (s_data s)) <= 2 * buffer /\
  1 <= snd (shape (s_data s)) <= 2 * buffer /\
  well_shaped (s_data s).
Proof.
  intros Hb Hws Hin.
  apply main_samples_traced in Hin as (ds & Hdl & Hprov).
  destruct Hprov as (_ & _ & Hdata & Hnz & _).
  specialize (Hws _ _ Hdl). destruct Hws as (H0 & H1 & Hrest).
  assert (well_shaped (s_data s)) as Hwd.
  { rewrite Hdata. apply well_shaped_getitem. repeat split; tauto. }
  unfold zero_in_shape in Hnz. apply orb_false_iff in Hnz as [Hr Hc].
  apply Z.eqb_neq in Hr, Hc.
  destruct Hwd as (Hr0 & Hc0 & Hwd').
  assert (fst (shape (s_data s)) <= 2 * buffer /\
          snd (shape (s_data s)) <= 2 * buffer) as [Hrb Hcb].
  { rewrite Hdata. unfold getitem, ywin, xwin. simpl.
    split; apply slice_length_window_le; assumption. }
  split; [lia|]. split; [lia|]. repeat split; tauto.
Qed.

Lemma written_crops_bounded_witness :
  let run := main 2 plain_Proj (fun _ => Some (grid_dataset 7 7)) (fun k => Z.of_nat k)
               [mk_track_row 0 (of_Z 6) (of_Z 3)] 6 initial_world in
  map (fun s => shape (s_data s)) (saved (fst run)) = [(3, 4); (4, 4)] /\
  forall s, In s (saved (fst run)) ->
    1 <= fst (shape (s_data s)) <= 2 * 2 /\
    1 <= snd (shape (s_data s)) <= 2 * 2 /\
    well_shaped (s_data s).
Proof.
  split; [vm_compute; reflexivity|].
  intros s Hin.
  apply (written_crops_bounded 2 plain_Proj (fun _ => Some (grid_dataset 7 7))
           (fun k => Z.of_nat k) [mk_track_row 0 (of_Z 6) (of_Z 3)] 6 s).
  - lia.
  - intros date ds [= <-]. unfold well_shaped. simpl.
    repeat split; try lia. repeat constructor.
  - exact Hin.
Defined.

Section Counts.

Variable buffer : Z.
Variable rng : nat -> Z.

Lemma positive_loop_counts (ds : dataset) (dt : Z) (x y : list float)
    (p : float -> float -> float * float) (rows : list track_row)
    (free0 : ndarray Z) (w : world) :
  exists new,
    saved (fst (positive_loop buffer ds dt x y p rows free0 w))
    = saved w ++ new /\
    Forall (is_kind Positive) new /\
    (length new <= length rows)%nat.
Proof.
  revert free0 w. induction rows as [|row rows IH]; intros free0 w; simpl.
  - exists []. rewrite app_nil_r. split; [reflexivity|].
    split; [constructor|simpl; lia].
  - destruct (p (LON row) (LAT row)) as [trackX trackY].
    unfold bind at 1. unfold lift.
    destruct (nearest_pixel x y trackX trackY) as [[xInd yInd]|e|]; simpl.
    2,3: exists []; rewrite app_nil_r; split; [reflexivity|];
         split; [constructor|simpl; lia].
    unfold bind.
    destruct (crop_image_saved ds xInd yInd buffer myDPI
                (mk_fig_path Positive dt xInd yInd buffer) w)
      as (w1 & -> & Hsaved1).
    destruct (IH (setitem free0 (ywin yInd buffer) (xwin xInd buffer) 0) w1)
      as (new & Hsaved & Hpos & Hlen).
    eexists. split; [rewrite Hsaved, Hsaved1, <- app_assoc; reflexivity|].
    split.
    + apply Forall_app. split; [|exact Hpos].
      destruct (zero_in_shape _); repeat constructor.
    + rewrite length_app. destruct (zero_in_shape _); simpl; lia.
Qed.

(** One draw: it raises exactly when a range is empty, before anything is
    written; otherwise it returns, having written at most one negative crop
    and counted it. *)
Lemma negative_draw_cases (ds : dataset) (dt nx ny : Z) (st : loop_state)
    (w : world) :
  match negative_draw buffer rng ds dt nx ny st w with
  | (w1, Returned st1) =>
      buffer < nx - buffer /\ buffer < ny - buffer /\
      attemptCount st1 = attemptCount st /\
      exists new,
        saved w1 = saved w ++ new /\ Forall (is_kind Negative) new /\
        Z.of_nat (length new) <= negativeCount st1 - negativeCount st <= 1
  | (w1, Raised e) =>
      e = ValueError /\ (nx - buffer <= buffer \/ ny - buffer <= buffer) /\
      saved w1 = saved w
  | (_, OutOfFuel) => False
  end.
Proof.
  unfold negative_draw. unfold bind at 1. unfold randint at 1.
  destruct (Z.ltb_spec buffer (nx - buffer)) as [Hx|Hx];
    [|split; [reflexivity|split; [left; exact Hx|reflexivity]]].
  unfold bind at 1. unfold randint at 1. simpl.
  destruct (Z.ltb_spec buffer (ny - buffer)) as [Hy|Hy];
    [|split; [reflexivity|split; [right; exact Hy|reflexivity]]].
  set (wy := {| saved := saved w; logged := logged w;
                draws := S (S (draws w)) |}).
  match goal with
  | |- context [all_eq_1 ?a] => destruct (all_eq_1 a)
  end.
  - unfold bind.
    match goal with
    | |- context [crop_image ds ?xi ?yi buffer myDPI ?path wy] =>
        destruct (crop_image_saved ds xi yi buffer myDPI path wy)
          as (w2 & -> & Hsaved2)
    end.
    simpl. split; [exact Hx|]. split; [exact Hy|]. split; [reflexivity|].
    eexists. split; [exact Hsaved2|]. split.
    + destruct (zero_in_shape _); repeat constructor.
    + destruct (zero_in_shape _); simpl; lia.
  - simpl. split; [exact Hx|]. split; [exact Hy|]. split; [reflexivity|].
    exists []. rewrite app_nil_r. split; [reflexivity|].
    split; [constructor|simpl; lia].
Qed.

(** The loop, whatever way it ends: the crops it writes are negative and no
    more than the target still asks for; when it returns, it has counted
    them, it stops on one of its two conditions, and it has made at least
    one attempt per crop; when it raises, a range was empty and nothing was
    written. *)
Lemma negative_loop_counts (fuel : nat) (ds : dataset)
    (dt nx ny target maxA : Z) (st : loop_state) (w : world) :
  exists new,
    saved (fst (negative_loop buffer rng fuel ds dt nx ny target maxA st w))
    = saved w ++ new /\
    Forall (is_kind Negative) new /\
    Z.of_nat (length new) <= Z.max 0 (target - negativeCount st) /\
    match snd (negative_loop buffer rng fuel ds dt nx ny target maxA st w) with
    | Returned st' =>
        Z.of_nat (length new) <= negativeCount st' - negativeCount st /\
        negativeCount st <= negativeCount st'
          <= Z.max target (negativeCount st) /\
        negativeCount st' - negativeCount st
          <= attemptCount st' - attemptCount st /\
        (target <= negativeCount st' \/ maxA < attemptCount st') /\
        (negativeCount st < target ->
         buffer < nx - buffer /\ buffer < ny - buffer)
    | Raised e =>
        e = ValueError /\ (nx - buffer <= buffer \/ ny - buffer <= buffer) /\
        negativeCount st < target /\ new = []
    | OutOfFuel => True
    end.
Proof.
  revert st w. induction fuel as [|fuel IH]; intros st w; simpl.
  { exists []. rewrite app_nil_r. split; [reflexivity|].
    split; [constructor|]. split; [simpl; lia|exact I]. }
  destruct (Z.ltb_spec (negativeCount st) target) as [Hlt|Hge].
  2:{ exists []. rewrite app_nil_r. simpl. split; [reflexivity|].
      split; [constructor|]. split; [simpl; lia|].
      split; [simpl; lia|]. split; [lia|]. split; [lia|].
      split; [left; exact Hge|lia]. }
  unfold bind.
  pose proof (negative_draw_cases ds dt nx ny st w) as Hdraw.
  destruct (negative_draw buffer rng ds dt nx ny st w) as [w1 [st1|e|]];
    [| |contradiction].
  2:{ destruct Hdraw as (He & Hrange & Hs). exists []. rewrite app_nil_r.
      simpl. split; [exact Hs|]. split; [constructor|].
      split; [simpl; lia|]. repeat split; assumption. }
  destruct Hdraw as (Hx & Hy & Hatt & new1 & Hsaved1 & Hneg1 & Hlen1).
  simpl. destruct (Z.gtb_spec (attemptCount st1 + 1) maxA) as [Hgt|Hngt].
  - exists new1. simpl. split; [exact Hsaved1|]. split; [exact Hneg1|].
    split; [lia|]. split; [lia|]. split; [lia|]. split; [lia|].
    split; [right; lia|]. intros _. split; assumption.
  - set (st2 := {| free := free st1; negativeCount := negativeCount st1;
                   attemptCount := attemptCount st1 + 1 |}).
    destruct (IH st2 w1) as (new2 & Hs2 & Hneg2 & Hlen2 & Hout).
    destruct (negative_loop buffer rng fuel ds dt nx ny target maxA st2 w1)
      as [w' o]. simpl in Hs2, Hout, Hlen2.
    exists (new1 ++ new2). simpl.
    split; [rewrite Hs2, Hsaved1, app_assoc; reflexivity|].
    split; [apply Forall_app; split; assumption|].
    split; [rewrite length_app; lia|].
    destruct o as [st'|e|]; [| |exact I].
    + destruct Hout as (Hl & Hn & Ha & Hexit & _).
      split; [rewrite length_app; lia|]. split; [lia|]. split; [lia|].
      split; [exact Hexit|]. intros _. split; assumption.
    + destruct Hout as (_ & [Hbad|Hbad] & _); lia.
Qed.

End Counts.

(** X2: a raster gives at most one positive crop per track point of its date
    and at most as many negative crops as it has track points; the positive
    crops are written first. *)
Theorem crops_per_raster_bounded (buffer : Z)
    (Proj : float -> float -> sweep -> float -> float -> float * float)
    (rng : nat -> Z) (df : list track_row) (fuel : nat) (ds : dataset)
    (date : Z) (w : world) :
  exists pos neg : list sample,
    saved (fst (sample_raster buffer Proj rng df fuel ds date w))
    = saved w ++ pos ++ neg /\
    Forall (is_kind Positive) pos /\ Forall (is_kind Negative) neg /\
    (length pos <= length (rows_of_date df date))%nat /\
    (length neg <= length (rows_of_date df date))%nat.
Proof.
  unfold sample_raster, occupancy, rows_of_date.
  destruct (shape (Rad ds)) as [nx ny].
  set (rows := filter (fun row => ISO_TIME row =? date) df).
  unfold bind at 1. simpl.
  set (w0 := {| saved := saved w; logged := logged w ++ [DebugSaving];
                draws := draws w |}).
  unfold bind.
  match goal with
  | |- context [positive_loop buffer ds date ?x ?y ?p rows ?f w0] =>
      destruct (positive_loop_counts buffer ds date x y p rows f w0)
        as (pos & Hpos & Hkind & Hlen);
      destruct (positive_loop buffer ds date x y p rows f w0)
        as [w1 [free1|e|]]
  end; simpl in Hpos.
  2,3: exists pos, []; rewrite app_nil_r; simpl;
       split; [exact Hpos|]; split; [exact Hkind|];
       split; [constructor|]; split; [exact Hlen|lia].
  unfold negative_phase.
  destruct (negative_loop_counts buffer rng fuel ds date nx ny
              (Z.of_nat (length rows)) (5 * Z.of_nat (length rows))
              {| free := free1; negativeCount := 0; attemptCount := 0 |} w1)
    as (neg & Hneg & Hnkind & Hnlen & _).
  exists pos, neg. simpl in Hnlen.
  split; [rewrite Hneg, Hpos, <- app_assoc; reflexivity|].
  split; [exact Hkind|]. split; [exact Hnkind|]. split; [exact Hlen|lia].
Qed.

(** X3: the negative phase, for a target of [n] crops and more than [5 n]
    steps: it raises [ValueError], with nothing written, exactly when there
    is a crop to find and the raster leaves no pixel to draw ([nx] or [ny]
    at most [2 buffer]); otherwise it returns after at most [5 n + 1]
    attempts of two draws each, with at most [n] crops counted, no more crops
    than attempts, and either the target reached or the attempts used up. *)
Theorem negative_phase_attempts (buffer : Z) (rng : nat -> Z) (fuel : nat)
    (ds : dataset) (dt nx ny : Z) (n : nat) (free0 : ndarray Z) (w : world) :
  (5 * n < fuel)%nat ->
  match negative_phase buffer rng fuel ds dt nx ny (Z.of_nat n) free0 w with
  | (w', Returned st) =>
      (n = O \/ (buffer < nx - buffer /\ buffer < ny - buffer)) /\
      0 <= negativeCount st <= Z.of_nat n /\
      negativeCount st <= attemptCount st <= 5 * Z.of_nat n + 1 /\
      (negativeCount st = Z.of_nat n \/ attemptCount st = 5 * Z.of_nat n + 1) /\
      Z.of_nat (draws w') = Z.of_nat (draws w) + 2 * attemptCount st
  | (w', Raised e) =>
      e = ValueError /\ n <> O /\
      (nx - buffer <= buffer \/ ny - buffer <= buffer) /\
      saved w' = saved w
  | (_, OutOfFuel) => False
  end.
Proof.
  intros Hfuel.
  pose proof (negative_phase_terminates buffer rng fuel ds dt nx ny
                (Z.of_nat n) free0 w) as Hterm.
  assert (0 <= Z.of_nat n) as H0 by lia.
  assert (Z.to_nat (5 * Z.of_nat n) < fuel)%nat as H1 by lia.
  specialize (Hterm H0 H1).
  unfold negative_phase in *.
  destruct (negative_loop_counts buffer rng fuel ds dt nx ny (Z.of_nat n)
              (5 * Z.of_nat n)
              {| free := free0; negativeCount := 0; attemptCount := 0 |} w)
    as (new & Hsaved & _ & _ & Hout).
  destruct (negative_loop buffer rng fuel ds dt nx ny (Z.of_nat n)
              (5 * Z.of_nat n) _ w) as [w' [st|e|]];
    simpl in Hsaved, Hout; [| |exact Hterm].
  - destruct Hterm as (Hatt & Hdraws & _).
    destruct Hout as (_ & Hn & Ha & Hexit & Hrange). simpl in *.
    split; [destruct n; [left; reflexivity|right; apply Hrange; lia]|].
    split; [lia|]. split; [lia|]. split; [lia|exact Hdraws].
  - destruct Hout as (He & Hrange & Hn & ->). simpl in Hn.
    rewrite app_nil_r in Hsaved.
    split; [exact He|]. split; [lia|]. split; assumption.
Qed.

Lemma negative_phase_attempts_witness :
  let run := negative_phase 1 (fun k => Z.of_nat k) 11 (grid_dataset 5 5) 0
               5 5 (Z.of_nat 2) (ones 5 5) initial_world in
  (5 * 2 < 11)%nat /\
  match run with
  | (w', Returned st) =>
      negativeCount st = 2 /\ attemptCount st = 2 /\ draws w' = 4%nat
  | _ => False
  end /\
  match run with
  | (w', Returned st) =>
      (2%nat = O \/ (1 < 5 - 1 /\ 1 < 5 - 1)) /\
      0 <= negativeCount st <= Z.of_nat 2 /\
      negativeCount st <= attemptCount st <= 5 * Z.of_nat 2 + 1 /\
      (negativeCount st = Z.of_nat 2 \/ attemptCount st = 5 * Z.of_nat 2 + 1) /\
      Z.of_nat (draws w') = Z.of_nat (draws initial_world) + 2 * attemptCount st
  | (w', Raised e) =>
      e = ValueError /\ 2%nat <> O /\ (5 - 1 <= 1 \/ 5 - 1 <= 1) /\
      saved w' = saved initial_world
  | (_, OutOfFuel) => False
  end.
Proof.
  split; [lia|]. split; [vm_compute; repeat split; reflexivity|].
  apply (negative_phase_attempts 1 (fun k => Z.of_nat k) 11 (grid_dataset 5 5)
           0 5 5 2 (ones 5 5) initial_world).
  lia.
Defined.

(** ** Where the positive crops are centered *)

Lemma argmin_loop_bound (a : list float) (mp : float) (m i : nat) :
  (m < i)%nat -> (Numpy.argmin_loop mp m i a < i + length a)%nat.
Proof.
  revert mp m i. induction a as [|v a IH]; intros mp m i Hm; simpl; [lia|].
  destruct (negb (fle mp v)).
  - destruct (is_nan v); [lia|].
    specialize (IH v i (S i)). lia.
  - specialize (IH mp m (S i)). lia.
Qed.

(** Whatever the values, NaN or not, an index that [np.nanargmin] returns is
    an index of the array. *)
Lemma nanargmin_bound (d : list float) (i : Z) :
  Numpy.nanargmin d = Returned i -> 0 <= i < Z.of_nat (length d).
Proof.
  unfold Numpy.nanargmin, Numpy.replace_nan.
  destruct (forallb id (map is_nan d)); [discriminate|].
  destruct d as [|v d]; [discriminate|]. simpl.
  intros [= <-].
  destruct (is_nan (if is_nan v then pinf else v)); [simpl; lia|].
  match goal with
  | |- context [Numpy.argmin_loop ?mp 0 1 ?a] =>
      pose proof (argmin_loop_bound a mp 0 1)
  end.
  rewrite length_map in *. lia.
Qed.

Lemma nearest_pixel_bound (x y : list float) (trackX trackY : float)
    (xInd yInd : Z) :
  nearest_pixel x y trackX trackY = Returned (xInd, yInd) ->
  0 <= xInd < Z.of_nat (length x) /\ 0 <= yInd < Z.of_nat (length y).
Proof.
  unfold nearest_pixel.
  destruct (Numpy.nanargmin (Numpy.abs_diff x trackX)) as [xi| |] eqn:Hx;
    [|discriminate|discriminate].
  destruct (Numpy.nanargmin (Numpy.abs_diff y trackY)) as [yi| |] eqn:Hy;
    [|discriminate|discriminate].
  intros [= <- <-].
  apply nanargmin_bound in Hx, Hy. rewrite abs_diff_length in Hx, Hy.
  split; assumption.
Qed.

Lemma emits_conj {A} (P Q : sample -> Prop) (c : M A) :
  emits P c -> emits Q c -> emits (fun s => P s /\ Q s) c.
Proof.
  intros HP HQ w w' r Hrun.
  destruct (HP w w' r Hrun) as (new & Hsaved & Hnew).
  destruct (HQ w w' r Hrun) as (new' & Hsaved' & Hnew').
  rewrite Hsaved in Hsaved'. apply app_inv_head in Hsaved'. subst new'.
  exists new. split; [exact Hsaved|].
  rewrite Forall_forall in *. intros s Hs. split; auto.
Qed.

Section Centers.

Variable buffer : Z.
Variable Proj : float -> float -> sweep -> float -> float -> float * float.
Variable download_data : Z -> option dataset.
Variable rng : nat -> Z.
Variable df : list track_row.

(** What holds of every sample of every raster holds of every sample of a
    run, for the dataset of the sample's date. *)
Lemma emits_main_from_raster (P : dataset -> sample -> Prop) (fuel : nat) :
  (forall ds date,
     emits (P ds) (sample_raster buffer Proj rng df fuel ds date)) ->
  emits (fun s => exists ds,
           download_data (fig_date (s_path s)) = Some ds /\ P ds s)
    (main buffer Proj download_data rng df fuel).
Proof.
  intros HP. unfold main.
  apply emits_bind; [apply emits_log|]. intros _.
  apply emits_bind; [|intros _; apply emits_log].
  induction (unique (map ISO_TIME df)) as [|date dates IH]; simpl.
  - apply emits_ret.
  - apply emits_bind; [apply emits_log|]. intros _.
    apply emits_bind; [apply emits_log|]. intros _.
    apply emits_bind; [|intros _; exact IH].
    apply emits_try_except; [|apply emits_log].
    unfold process_date.
    destruct (download_data date) as [ds|] eqn:Hdl.
    + intros w w' r. unfold bind at 1. unfold ret at 1.
      revert w w' r.
      change (emits (fun s => exists ds0,
                download_data (fig_date (s_path s)) = Some ds0 /\ P ds0 s)
        (bind (log DebugProjecting) (fun _ =>
           bind (sample_raster buffer Proj rng df fuel ds date)
                (fun _ => ret tt)))).
      apply emits_bind; [apply emits_log|]. intros _.
      apply emits_bind; [|intros; apply emits_ret].
      eapply emits_weaken;
        [|apply (emits_conj _ _ _ (emits_sample_raster buffer Proj rng df
                                     fuel ds date) (HP ds date))].
      intros s [(Hdate & _) Hs]. exists ds. rewrite Hdate.
      split; assumption.
    + intros w w' r. unfold bind, raise. intros Hrun. injection Hrun as <- _.
      exists []. rewrite app_nil_r. split; [reflexivity|constructor].
Qed.

Lemma emits_positive_centers (ds : dataset) (dt : Z) (x y : list float)
    (p : float -> float -> float * float) (rows : list track_row)
    (free0 : ndarray Z) :
  emits (fun s => 0 <= fig_xInd (s_path s) < Z.of_nat (length x) /\
                  0 <= fig_yInd (s_path s) < Z.of_nat (length y))
    (positive_loop buffer ds dt x y p rows free0).
Proof.
  revert free0. induction rows as [|row rows IH]; intros free0; simpl.
  - apply emits_ret.
  - destruct (p (LON row) (LAT row)) as [trackX trackY].
    intros w w' r. unfold bind at 1. unfold lift.
    destruct (nearest_pixel x y trackX trackY) as [[xInd yInd]|e|] eqn:Hnp.
    2,3: intros [= <- _]; exists []; rewrite app_nil_r;
         split; [reflexivity|constructor].
    apply nearest_pixel_bound in Hnp.
    revert w w' r.
    match goal with
    | |- forall w w' r, ?c w = (w', r) -> _ =>
        change (emits (fun s =>
                  0 <= fig_xInd (s_path s) < Z.of_nat (length x) /\
                  0 <= fig_yInd (s_path s) < Z.of_nat (length y)) c)
    end.
    apply emits_bind; [|intros _; apply IH].
    apply emits_crop_image. intros _. simpl. exact Hnp.
Qed.

Lemma emits_raster_centers (fuel : nat) (ds : dataset) (date : Z) :
  emits (fun s => is_kind Positive s ->
                  0 <= fig_xInd (s_path s) < Z.of_nat (length (var_x ds)) /\
                  0 <= fig_yInd (s_path s) < Z.of_nat (length (var_y ds)))
    (sample_raster buffer Proj rng df fuel ds date).
Proof.
  unfold sample_raster, occupancy.
  destruct (shape (Rad ds)) as [nx ny].
  apply emits_bind; [apply emits_log|]. intros _.
  apply emits_bind.
  - eapply emits_weaken; [|apply emits_positive_centers].
    intros s Hs _. rewrite !scaled_axis_length in Hs. exact Hs.
  - intros free1 w w' r Hrun. unfold negative_phase in Hrun.
    match type of Hrun with
    | negative_loop _ _ _ _ _ ?nx ?ny ?t ?m ?st0 _ = _ =>
        destruct (negative_loop_counts buffer rng fuel ds date nx ny t m st0 w)
          as (new & Hsaved & Hneg & _)
    end.
    rewrite Hrun in Hsaved. simpl in Hsaved.
    exists new. split; [exact Hsaved|].
    eapply Forall_impl; [exact Hneg|].
    intros s Hk Hp. unfold is_kind in *. congruence.
Qed.

End Centers.

(** X4: every positive crop that a run writes is centered on a column index
    of the x axis and a row index of the y axis of the dataset of its date,
    whatever the track position and the axis values (NaN included). *)
Theorem positive_centers_on_axes (buffer : Z)
    (Proj : float -> float -> sweep -> float -> float -> float * float)
    (download_data : Z -> option dataset) (rng : nat -> Z)
    (df : list track_row) (fuel : nat) (s : sample) :
  In s (saved (fst (main buffer Proj download_data rng df fuel initial_world))) ->
  is_kind Positive s ->
  exists ds,
    download_data (fig_date (s_path s)) = Some ds /\
    0 <= fig_xInd (s_path s) < Z.of_nat (length (var_x ds)) /\
    0 <= fig_yInd (s_path s) < Z.of_nat (length (var_y ds)).
Proof.
  intros Hin Hpos.
  destruct (main buffer Proj download_data rng df fuel initial_world)
    as [w r] eqn:Hrun.
  destruct (emits_main_from_raster buffer Proj download_data rng df _ fuel
              (emits_raster_centers buffer Proj rng df fuel) _ _ _ Hrun)
    as (new & Hsaved & Hnew).
  simpl in *. subst. rewrite Forall_forall in Hnew.
  apply list_elem_of_In in Hin.
  destruct (Hnew s Hin) as (ds & Hdl & Hc).
  exists ds. split; [exact Hdl|exact (Hc Hpos)].
Qed.

Lemma positive_centers_on_axes_witness :
  let download := fun _ : Z => Some (grid_dataset 4 6) in
  let run := main 1 plain_Proj download (fun k => Z.of_nat k)
               [mk_track_row 0 (of_Z 2) (of_Z 9)] 6 initial_world in
  hd_error (map s_path (saved (fst run)))
  = Some (mk_fig_path Positive 0 5 2 1) /\
  forall s, In s (saved (fst run)) -> is_kind Positive s ->
    exists ds, download (fig_date (s_path s)) = Some ds /\
      0 <= fig_xInd (s_path s) < Z.of_nat (length (var_x ds)) /\
      0 <= fig_yInd (s_path s) < Z.of_nat (length (var_y ds)).
Proof.
  split; [vm_compute; reflexivity|].
  intros s Hin Hpos.
  exact (positive_centers_on_axes 1 plain_Proj
           (fun _ => Some (grid_dataset 4 6)) (fun k => Z.of_nat k)
           [mk_track_row 0 (of_Z 2) (of_Z 9)] 6 s Hin Hpos).
Defined.

(** ** A track point that cannot be located *)

Lemma nanargmin_raises_ValueError (d : list float) (e : exn) :
  Numpy.nanargmin d = Raised e -> e = ValueError.
Proof.
  unfold Numpy.nanargmin, Numpy.replace_nan.
  destruct (forallb id (map is_nan d)); [intros [= <-]; reflexivity|].
  destruct (map _ d); simpl; [intros [= <-]; reflexivity|discriminate].
Qed.

(** Against a NaN position every difference is NaN, and the search raises. *)
Lemma nanargmin_abs_diff_nan (axis : list float) (t : float) :
  is_nan t = true ->
  Numpy.nanargmin (Numpy.abs_diff axis t) = Raised ValueError.
Proof.
  intros Ht. destruct t; try discriminate.
  unfold Numpy.nanargmin, Numpy.replace_nan.
  assert (forallb id (map is_nan (Numpy.abs_diff axis S754_nan)) = true) as ->;
    [|reflexivity].
  induction axis as [|v axis IH]; [reflexivity|].
  simpl. rewrite IH. destruct v; reflexivity.
Qed.

Lemma nearest_pixel_nan (x y : list float) (trackX trackY : float) :
  is_nan trackX = true \/ is_nan trackY = true ->
  nearest_pixel x y trackX trackY = Raised ValueError.
Proof.
  intros Hnan. unfold nearest_pixel.
  destruct (Numpy.nanargmin (Numpy.abs_diff x trackX)) as [xi|e|] eqn:Hx.
  - destruct Hnan as [Hnan|Hnan].
    + rewrite nanargmin_abs_diff_nan in Hx by exact Hnan. discriminate.
    + rewrite nanargmin_abs_diff_nan by exact Hnan. reflexivity.
  - apply nanargmin_raises_ValueError in Hx. subst e. reflexivity.
  - exfalso. eapply nanargmin_no_stall. exact Hx.
Qed.

Section Abandon.

Variable buffer : Z.

(** The positive loop never raises anything but [ValueError]; once a track
    point raises, the points after it are not looked at, so fewer crops are
    written than there are points. *)
Lemma positive_loop_raised (ds : dataset) (dt : Z) (x y : list float)
    (p : float -> float -> float * float) (rows : list track_row)
    (free0 : ndarray Z) (w : world) :
  exists new,
    saved (fst (positive_loop buffer ds dt x y p rows free0 w))
    = saved w ++ new /\
    Forall (is_kind Positive) new /\
    match snd (positive_loop buffer ds dt x y p rows free0 w) with
    | Returned _ =>
        Forall (fun row =>
          nearest_pixel x y (fst (p (LON row) (LAT row)))
            (snd (p (LON row) (LAT row))) <> Raised ValueError) rows
    | Raised e => e = ValueError /\ (length new < length rows)%nat
    | OutOfFuel => False
    end.
Proof.
  revert free0 w. induction rows as [|row rows IH]; intros free0 w; simpl.
  - exists []. rewrite app_nil_r. split; [reflexivity|].
    split; constructor.
  - destruct (p (LON row) (LAT row)) as [trackX trackY] eqn:Hp. simpl.
    unfold bind at 1 2. unfold lift.
    pose proof (nearest_pixel_no_stall x y trackX trackY) as Hns.
    destruct (nearest_pixel x y trackX trackY) as [[xInd yInd]|e|] eqn:Hnp;
      [| |congruence].
    2:{ exists []. rewrite app_nil_r. simpl. split; [reflexivity|].
        split; [constructor|]. split; [|lia].
        unfold nearest_pixel in Hnp.
        destruct (Numpy.nanargmin (Numpy.abs_diff x trackX)) eqn:Hx;
          try discriminate.
        - destruct (Numpy.nanargmin (Numpy.abs_diff y trackY)) eqn:Hy;
            try discriminate.
          injection Hnp as <-.
          eapply nanargmin_raises_ValueError. exact Hy.
        - injection Hnp as <-.
          eapply nanargmin_raises_ValueError. exact Hx. }
    unfold bind.
    destruct (crop_image_saved ds xInd yInd buffer myDPI
                (mk_fig_path Positive dt xInd yInd buffer) w)
      as (w1 & -> & Hsaved1).
    destruct (IH (setitem free0 (ywin yInd buffer) (xwin xInd buffer) 0) w1)
      as (new & Hsaved & Hpos & Hout).
    eexists. split; [rewrite Hsaved, Hsaved1, <- app_assoc; reflexivity|].
    split.
    + apply Forall_app. split; [|exact Hpos].
      destruct (zero_in_shape _); repeat constructor.
    + destruct (snd (positive_loop buffer ds dt x y p rows _ w1)).
      * constructor; [|exact Hout]. rewrite Hp. simpl. congruence.
      * destruct Hout as [He Hlen]. split; [exact He|].
        rewrite length_app. destruct (zero_in_shape _); simpl; lia.
      * exact Hout.
Qed.

End Abandon.

(** X5: a track point of the date whose projected position is NaN in x or
    in y makes the processing of the raster raise [ValueError]: fewer
    positive crops are written than the date has track points, and no
    negative crop at all. *)
Theorem nan_track_point_abandons_raster (buffer : Z)
    (Proj : float -> float -> sweep -> float -> float -> float * float)
    (rng : nat -> Z) (df : list track_row) (fuel : nat) (ds : dataset)
    (date : Z) (w : world) (row : track_row) :
  let p := Proj (perspective_point_height ds)
             (longitude_of_projection_origin ds) (sweep_angle_axis ds) in
  In row (rows_of_date df date) ->
  is_nan (fst (p (LON row) (LAT row))) = true \/
  is_nan (snd (p (LON row) (LAT row))) = true ->
  snd (sample_raster buffer Proj rng df fuel ds date w) = Raised ValueError /\
  exists pos,
    saved (fst (sample_raster buffer Proj rng df fuel ds date w))
    = saved w ++ pos /\
    Forall (is_kind Positive) pos /\
    (length pos < length (rows_of_date df date))%nat.
Proof.
  intros p Hin Hnan. unfold sample_raster, occupancy, rows_of_date in *.
  destruct (shape (Rad ds)) as [nx ny].
  set (rows := filter (fun row => ISO_TIME row =? date) df) in *.
  unfold bind at 1 3. simpl.
  set (w0 := {| saved := saved w; logged := logged w ++ [DebugSaving];
                draws := draws w |}).
  unfold bind. fold p.
  match goal with
  | |- context [positive_loop buffer ds date ?x ?y p rows ?f w0] =>
      destruct (positive_loop_raised buffer ds date x y p rows f w0)
        as (pos & Hpos & Hkind & Hout);
      pose proof (nearest_pixel_nan x y _ _ Hnan) as Hbad;
      destruct (positive_loop buffer ds date x y p rows f w0)
        as [w1 [free1|e|]]
  end; simpl in Hpos, Hout.
  - exfalso. rewrite Forall_forall in Hout.
    apply (Hout row); [apply list_elem_of_In; exact Hin|exact Hbad].
  - destruct Hout as [-> Hlen]. simpl. split; [reflexivity|].
    exists pos. repeat split; assumption.
  - contradiction.
Qed.

Lemma nan_track_point_abandons_raster_witness :
  let ds := grid_dataset 5 5 in
  let df := [mk_track_row 0 (of_Z 2) (of_Z 2);
             mk_track_row 0 S754_nan (of_Z 2);
             mk_track_row 0 (of_Z 3) (of_Z 3)] in
  let run := sample_raster 1 plain_Proj (fun k => Z.of_nat k) df 16 ds 0
               initial_world in
  map s_path (saved (fst run)) = [mk_fig_path Positive 0 2 2 1] /\
  snd run = Raised ValueError /\
  exists pos,
    saved (fst run) = saved initial_world ++ pos /\
    Forall (is_kind Positive) pos /\
    (length pos < length (rows_of_date df 0))%nat.
Proof.
  split; [vm_compute; reflexivity|].
  apply (nan_track_point_abandons_raster 1 plain_Proj (fun k => Z.of_nat k)
           [mk_track_row 0 (of_Z 2) (of_Z 2);
            mk_track_row 0 S754_nan (of_Z 2);
            mk_track_row 0 (of_Z 3) (of_Z 3)] 16 (grid_dataset 5 5) 0
           initial_world (mk_track_row 0 S754_nan (of_Z 2))).
  - right. left. reflexivity.
  - right. reflexivity.
Defined.

(** ** Cells are never freed *)

Lemma cell_setitem_one (a : ndarray Z) (ys xs : PySlice.slice) (r c : nat) :
  cell (setitem a ys xs 0) r c = Some 1 -> cell a r c = Some 1.
Proof.
  rewrite cell_setitem. destruct (cell a r c) as [v|]; [|discriminate].
  simpl. destruct (_ && _); [discriminate|]. intros H. exact H.
Qed.

Lemma setitem_shape {A} (a : ndarray A) (ys xs : PySlice.slice) (v : A) :
  shape (setitem a ys xs v) = shape a.
Proof. reflexivity. Qed.

Section Monotone.

Variable buffer : Z.
Variable rng : nat -> Z.

Lemma negative_draw_keeps_marks (ds : dataset) (dt nx ny : Z)
    (st st1 : loop_state) (w w1 : world) :
  negative_draw buffer rng ds dt nx ny st w = (w1, Returned st1) ->
  well_shaped (free st) ->
  well_shaped (free st1) /\ shape (free st1) = shape (free st) /\
  forall r c, cell (free st1) r c = Some 1 -> cell (free st) r c = Some 1.
Proof.
  unfold negative_draw. unfold bind at 1.
  destruct (randint rng buffer (nx - buffer) w) as [wx [xInd| |]];
    [|discriminate|discriminate].
  unfold bind at 1.
  destruct (randint rng buffer (ny - buffer) wx) as [wy [yInd| |]];
    [|discriminate|discriminate].
  destruct (all_eq_1 _).
  - unfold bind.
    destruct (crop_image_saved ds xInd yInd buffer myDPI
                (mk_fig_path Negative dt xInd yInd buffer) wy)
      as (w2 & -> & _).
    intros [= <- <-] Hws. simpl.
    split; [apply well_shaped_setitem, Hws|]. split; [reflexivity|].
    intros r c. apply cell_setitem_one.
  - intros [= <- <-] Hws. split; [exact Hws|]. split; [reflexivity|]. auto.
Qed.

Lemma negative_loop_keeps_marks (fuel : nat) (ds : dataset)
    (dt nx ny target maxA : Z) (st st' : loop_state) (w w' : world) :
  negative_loop buffer rng fuel ds dt nx ny target maxA st w
  = (w', Returned st') ->
  well_shaped (free st) ->
  well_shaped (free st') /\ shape (free st') = shape (free st) /\
  forall r c, cell (free st') r c = Some 1 -> cell (free st) r c = Some 1.
Proof.
  revert st w. induction fuel as [|fuel IH]; intros st w; simpl;
    [discriminate|].
  destruct (negativeCount st <? target).
  2:{ intros [= <- <-] Hws. split; [exact Hws|]. split; [reflexivity|]. auto. }
  unfold bind.
  destruct (negative_draw buffer rng ds dt nx ny st w) as [w1 [st1|e|]] eqn:Hd;
    [|discriminate|discriminate].
  intros Hrun Hws.
  destruct (negative_draw_keeps_marks _ _ _ _ _ _ _ _ Hd Hws)
    as (Hws1 & Hsh1 & Hm1).
  simpl in Hrun. destruct (attemptCount st1 + 1 >? maxA).
  - injection Hrun as <- <-. simpl.
    split; [exact Hws1|]. split; [exact Hsh1|]. exact Hm1.
  - apply IH in Hrun; [|exact Hws1]. simpl in Hrun.
    destruct Hrun as (Hws' & Hsh' & Hm').
    split; [exact Hws'|]. split; [congruence|]. auto.
Qed.

End Monotone.

(** X6: the negative loop never frees a cell: a window that tests occupied
    when the loop starts still tests occupied when the loop returns, so a
    draw that was rejected is rejected again whenever it comes back. *)
Theorem rejected_window_stays_rejected (buffer : Z) (rng : nat -> Z)
    (fuel : nat) (ds : dataset) (dt nx ny target maxA : Z) (st : loop_state)
    (w : world) (xInd yInd : Z) :
  well_shaped (free st) ->
  all_eq_1 (getitem (free st) (ywin yInd buffer) (xwin xInd buffer)) = false ->
  match negative_loop buffer rng fuel ds dt nx ny target maxA st w with
  | (_, Returned st') =>
      all_eq_1 (getitem (free st') (ywin yInd buffer) (xwin xInd buffer))
      = false
  | _ => True
  end.
Proof.
  intros Hws Hocc.
  destruct (negative_loop buffer rng fuel ds dt nx ny target maxA st w)
    as [w' [st'|e|]] eqn:Hrun; [|exact I|exact I].
  destruct (negative_loop_keeps_marks _ _ _ _ _ _ _ _ _ _ _ _ _ Hrun Hws)
    as (Hws' & Hsh & Hm).
  destruct (all_eq_1 (getitem (free st') _ _)) eqn:Hfree; [|reflexivity].
  rewrite <- Hocc. symmetry.
  apply (all_eq_1_getitem _ _ _ Hws). intros r c Hr Hc.
  apply Hm. rewrite (all_eq_1_getitem _ _ _ Hws') in Hfree.
  apply Hfree; rewrite Hsh; assumption.
Qed.

Lemma rejected_window_stays_rejected_witness :
  let st := {| free := setitem (ones 5 5) (ywin 1 1) (xwin 1 1) 0;
               negativeCount := 0; attemptCount := 0 |} in
  all_eq_1 (getitem (free st) (ywin 2 1) (xwin 2 1)) = false /\
  match negative_loop 1 (fun k => Z.of_nat k) 6 (grid_dataset 5 5) 0 5 5 1 5
          st initial_world with
  | (_, Returned st') =>
      all_eq_1 (getitem (free st') (ywin 2 1) (xwin 2 1)) = false
  | _ => True
  end.
Proof.
  split; [vm_compute; reflexivity|].
  apply (rejected_window_stays_rejected 1 (fun k => Z.of_nat k) 6
           (grid_dataset 5 5) 0 5 5 1 5
           {| free := setitem (ones 5 5) (ywin 1 1) (xwin 1 1) 0;
              negativeCount := 0; attemptCount := 0 |} initial_world 2 2).
  - apply well_shaped_setitem, well_shaped_ones; lia.
  - vm_compute. reflexivity.
Defined.

(** ** The dates of a run *)

Lemma unique_from_In (l seen : list Z) (d : Z) :
  In d (unique_from seen l) <-> In d l /\ ~ In d seen.
Proof.
  revert seen. induction l as [|x l IH]; intros seen; simpl; [tauto|].
  destruct (existsb (Z.eqb x) seen) eqn:Hex.
  - apply existsb_exists in Hex as (y & Hy & Hxy). apply Z.eqb_eq in Hxy.
    subst y. rewrite IH. split.
    + intros [Hd Hs]. split; [right; exact Hd|exact Hs].
    + intros [[<-|Hd] Hs]; [contradiction|split; assumption].
  - assert (~ In x seen) as Hx.
    { intros Hin. assert (existsb (Z.eqb x) seen = true); [|congruence].
      apply existsb_exists. exists x. split; [exact Hin|apply Z.eqb_refl]. }
    simpl. rewrite IH. simpl. split.
    + intros [<-|[Hd Hs]]; [split; [left; reflexivity|exact Hx]|].
      split; [right; exact Hd|tauto].
    + intros [[<-|Hd] Hs]; [left; reflexivity|].
      destruct (Z.eq_dec x d) as [->|Hne]; [left; reflexivity|].
      right. split; [exact Hd|]. intros [Heq|Hin]; [congruence|tauto].
Qed.

Lemma unique_from_NoDup (l seen : list Z) : List.NoDup (unique_from seen l).
Proof.
  revert seen. induction l as [|x l IH]; intros seen; simpl; [constructor|].
  destruct (existsb (Z.eqb x) seen); [apply IH|].
  constructor; [|apply IH].
  rewrite unique_from_In. simpl. tauto.
Qed.

Section Dates.

Variable buffer : Z.
Variable Proj : float -> float -> sweep -> float -> float -> float * float.
Variable download_data : Z -> option dataset.
Variable rng : nat -> Z.
Variable df : list track_row.

Lemma main_dates_logged (fuel : nat) :
  (Z.to_nat (5 * Z.of_nat (length df)) < fuel)%nat ->
  snd (main buffer Proj download_data rng df fuel initial_world) = Returned tt /\
  dates_logged
    (logged (fst (main buffer Proj download_data rng df fuel initial_world)))
  = unique (map ISO_TIME df).
Proof.
  intros Hfuel. unfold main. unfold bind at 1 3. simpl. unfold bind.
  destruct (date_loop_outcome buffer Proj download_data rng df fuel
              (unique (map ISO_TIME df))
              {| saved := []; logged := [InfoReading]; draws := O |} Hfuel)
    as (w' & tail & Hloop & Hl & Hd & _).
  rewrite Hloop. simpl. split; [reflexivity|].
  rewrite Hl. simpl. rewrite !dates_logged_app, Hd. simpl. apply app_nil_r.
Qed.

End Dates.

(** X7: a run announces (and tries to download) every timestamp of the frame
    exactly once, however many track points share it. *)
Theorem each_date_processed_once (buffer : Z)
    (Proj : float -> float -> sweep -> float -> float -> float * float)
    (download_data : Z -> option dataset) (rng : nat -> Z)
    (df : list track_row) (fuel : nat) :
  (Z.to_nat (5 * Z.of_nat (length df)) < fuel)%nat ->
  let dates := dates_logged
    (logged (fst (main buffer Proj download_data rng df fuel initial_world))) in
  List.NoDup dates /\
  forall d, In d dates <-> exists row, In row df /\ ISO_TIME row = d.
Proof.
  intros Hfuel dates.
  destruct (main_dates_logged buffer Proj download_data rng df fuel Hfuel)
    as [_ Hdates].
  unfold dates. rewrite Hdates. unfold unique. split.
  - apply unique_from_NoDup.
  - intros d. rewrite unique_from_In, in_map_iff. simpl. split.
    + intros [(row & Hrow & Hin) _]. exists row. split; assumption.
    + intros (row & Hin & Hrow). split; [exists row; split; assumption|tauto].
Qed.

Lemma each_date_processed_once_witness :
  let df := [mk_track_row 7 (of_Z 1) (of_Z 1);
             mk_track_row 3 (of_Z 1) (of_Z 1);
             mk_track_row 7 (of_Z 2) (of_Z 2)] in
  let dates := dates_logged
    (logged (fst (main 1 plain_Proj (fun _ => Some (grid_dataset 5 5))
                    (fun k => Z.of_nat k) df 16 initial_world))) in
  dates = [7; 3] /\
  List.NoDup dates /\
  forall d, In d dates <-> exists row, In row df /\ ISO_TIME row = d.
Proof.
  split; [vm_compute; reflexivity|].
  apply (each_date_processed_once 1 plain_Proj
           (fun _ => Some (grid_dataset 5 5)) (fun k => Z.of_nat k)
           [mk_track_row 7 (of_Z 1) (of_Z 1);
            mk_track_row 3 (of_Z 1) (of_Z 1);
            mk_track_row 7 (of_Z 2) (of_Z 2)] 16).
  vm_compute. lia.
Defined.

(** * Retrieval of a GOES raster *)

(** ** The day of the year *)

Section GoesCalendar.

Import Goes.

Lemma check_fields_ranges (d : datetime) :
  check_fields d = true ->
  1 <= year d <= 9999 /\ 1 <= month d <= 12 /\
  1 <= day d <= days_in_month (year d) (month d) /\
  0 <= hour d < 24 /\ 0 <= minute d < 60 /\ 0 <= second d < 60 /\
  0 <= microsecond d < 1000000.
Proof.
  unfold check_fields. rewrite !andb_true_iff. lia.
Qed.

Lemma month_cases (m : Z) :
  1 <= m <= 12 ->
  m = 1 \/ m = 2 \/ m = 3 \/ m = 4 \/ m = 5 \/ m = 6 \/ m = 7 \/ m = 8 \/
  m = 9 \/ m = 10 \/ m = 11 \/ m = 12.
Proof. lia. Qed.

Lemma days_before_next_month (y m : Z) :
  1 <= m < 12 ->
  days_before_month y (m + 1) = days_before_month y m + days_in_month y m.
Proof.
  intros Hm. unfold days_before_month, days_in_month.
  assert (Hc : 1 <= m <= 12) by lia.
  destruct (month_cases m Hc) as [->|[->|[->|[->|[->|[->|[->|[->|[->|[->|[->| ->]]]]]]]]]]];
    try lia; destruct (is_leap y); reflexivity.
Qed.

Lemma days_in_month_pos (y m : Z) : 1 <= m <= 12 -> 28 <= days_in_month y m <= 31.
Proof.
  intros Hc. unfold days_in_month.
  destruct (month_cases m Hc) as [->|[->|[->|[->|[->|[->|[->|[->|[->|[->|[->| ->]]]]]]]]]]];
    destruct (is_leap y); simpl; lia.
Qed.

Lemma days_before_month_mono (y m1 m2 : Z) :
  1 <= m1 -> m1 < m2 -> m2 <= 12 ->
  days_before_month y m1 + days_in_month y m1 <= days_before_month y m2.
Proof.
  intros H1 Hlt H2.
  assert (Hk : exists k : nat, m2 = m1 + 1 + Z.of_nat k).
  { exists (Z.to_nat (m2 - m1 - 1)). lia. }
  destruct Hk as [k ->]. induction k as [|k IH].
  - rewrite Z.add_0_r, days_before_next_month by lia. lia.
  - replace (m1 + 1 + Z.of_nat (S k)) with ((m1 + 1 + Z.of_nat k) + 1) by lia.
    rewrite days_before_next_month by lia.
    assert (28 <= days_in_month y (m1 + 1 + Z.of_nat k) <= 31)
      by (apply days_in_month_pos; lia).
    assert (days_before_month y m1 + days_in_month y m1
            <= days_before_month y (m1 + 1 + Z.of_nat k)) by (apply IH; lia).
    lia.
Qed.

Lemma days_before_month_range (y m : Z) :
  1 <= m <= 12 ->
  0 <= days_before_month y m /\
  days_before_month y m + days_in_month y m
    <= (if is_leap y then 366 else 365).
Proof.
  intros Hc. unfold days_before_month, days_in_month.
  destruct (month_cases m Hc) as [->|[->|[->|[->|[->|[->|[->|[->|[->|[->|[->| ->]]]]]]]]]]];
    destruct (is_leap y); simpl; lia.
Qed.

Lemma day_of_year_ordinal (d : datetime) :
  check_fields d = true ->
  day_of_year d = days_before_month (year d) (month d) + day d.
Proof.
  intros Hv. apply check_fields_ranges in Hv.
  destruct Hv as (Hy & Hm & Hd & Hh & Hmi & Hs & Hus).
  unfold day_of_year, sub_days, timedelta_days, toordinal, ymd2ord. simpl.
  replace (microsecond d - 0) with (microsecond d) by lia.
  rewrite (Z.div_small (microsecond d)) by lia.
  rewrite (Z.div_small (_ - _ + 0)) by lia.
  unfold days_before_month at 2. simpl. lia.
Qed.

(** X8: For a date the [datetime] constructor accepts, [day_of_year] lies
    between 1 and the length of the year (366 in a leap year, 365
    otherwise), is 1 exactly on the first of January, and does not depend on
    the time of day. *)
Theorem day_of_year_range (d : datetime) :
  check_fields d = true ->
  1 <= day_of_year d <= (if is_leap (year d) then 366 else 365) /\
  (day_of_year d = 1 <-> month d = 1 /\ day d = 1) /\
  day_of_year d =
    day_of_year (mk_datetime (year d) (month d) (day d) 0 0 0 0).
Proof.
  intros Hv. pose proof (check_fields_ranges d Hv) as (Hy & Hm & Hd & _).
  assert (Hv0 : check_fields
                  (mk_datetime (year d) (month d) (day d) 0 0 0 0) = true).
  { unfold check_fields. simpl. rewrite !andb_true_iff. lia. }
  rewrite (day_of_year_ordinal d Hv), (day_of_year_ordinal _ Hv0). simpl.
  pose proof (days_before_month_range (year d) (month d) Hm) as [H0 H1].
  split; [lia|]. split; [|reflexivity].
  split.
  - intros He. destruct (Z.eq_dec (month d) 1) as [E|E].
    + rewrite E in He.
      change (days_before_month (year d) 1) with 0 in He. lia.
    + pose proof (days_before_month_mono (year d) 1 (month d)) as Hmono.
      pose proof (days_in_month_pos (year d) 1).
      change (days_before_month (year d) 1) with 0 in Hmono. lia.
  - intros [E1 E2]. rewrite E1, E2. reflexivity.
Qed.

Lemma day_of_year_range_witness :
  1 <= day_of_year (mk_datetime 2020 12 31 23 59 59 999999)
    <= (if is_leap 2020 then 366 else 365) /\
  (day_of_year (mk_datetime 2020 12 31 23 59 59 999999) = 1 <->
   12 = 1 /\ 31 = 1) /\
  day_of_year (mk_datetime 2020 12 31 23 59 59 999999) =
    day_of_year (mk_datetime 2020 12 31 0 0 0 0).
Proof.
  exact (day_of_year_range (mk_datetime 2020 12 31 23 59 59 999999) eq_refl).
Defined.

Lemma day_of_year_lt (a b : datetime) :
  check_fields a = true -> check_fields b = true -> year a = year b ->
  month a < month b \/ (month a = month b /\ day a < day b) ->
  day_of_year a < day_of_year b.
Proof.
  intros Ha Hb Hy Hlt.
  rewrite (day_of_year_ordinal a Ha), (day_of_year_ordinal b Hb).
  pose proof (check_fields_ranges a Ha) as (_ & Hma & Hda & _).
  pose proof (check_fields_ranges b Hb) as (_ & Hmb & Hdb & _).
  rewrite <- Hy in *.
  destruct Hlt as [Hlt|[He Hlt]].
  - pose proof (days_before_month_mono (year a) (month a) (month b)). lia.
  - rewrite He in *. lia.
Qed.

(** X9: Within one year [day_of_year] orders dates as the calendar does:
    of two accepted dates of the same year, the one with the earlier
    (month, day) has the smaller day of the year, so equal days of the year
    mean the same month and day. *)
Theorem day_of_year_calendar_order (a b : datetime) :
  check_fields a = true -> check_fields b = true -> year a = year b ->
  (day_of_year a < day_of_year b <->
   month a < month b \/ (month a = month b /\ day a < day b)) /\
  (day_of_year a = day_of_year b <-> month a = month b /\ day a = day b).
Proof.
  intros Ha Hb Hy.
  assert (Hab := day_of_year_lt a b Ha Hb Hy).
  assert (Hba := day_of_year_lt b a Hb Ha (eq_sym Hy)).
  assert (Heq : month a = month b /\ day a = day b ->
                day_of_year a = day_of_year b).
  { intros [E1 E2].
    rewrite (day_of_year_ordinal a Ha), (day_of_year_ordinal b Hb).
    rewrite Hy, E1, E2. reflexivity. }
  split; split; intros H; try (apply Hab; exact H); try (apply Heq; exact H).
  - destruct (Z.lt_trichotomy (month a) (month b)) as [Hm|[Hm|Hm]];
      [left; exact Hm| |].
    + destruct (Z.lt_trichotomy (day a) (day b)) as [Hd|[Hd|Hd]].
      * right. split; assumption.
      * assert (day_of_year a = day_of_year b) by (apply Heq; split; assumption).
        lia.
      * assert (day_of_year b < day_of_year a) by (apply Hba; right; lia). lia.
    + assert (day_of_year b < day_of_year a) by (apply Hba; left; lia). lia.
  - destruct (Z.lt_trichotomy (month a) (month b)) as [Hm|[Hm|Hm]].
    + assert (day_of_year a < day_of_year b) by (apply Hab; left; lia). lia.
    + destruct (Z.lt_trichotomy (day a) (day b)) as [Hd|[Hd|Hd]].
      * assert (day_of_year a < day_of_year b) by (apply Hab; right; lia). lia.
      * split; assumption.
      * assert (day_of_year b < day_of_year a) by (apply Hba; right; lia). lia.
    + assert (day_of_year b < day_of_year a) by (apply Hba; left; lia). lia.
Qed.

Lemma day_of_year_calendar_order_witness :
  (day_of_year (mk_datetime 2020 2 29 18 0 0 0)
     < day_of_year (mk_datetime 2020 3 1 0 0 0 0) <->
   2 < 3 \/ (2 = 3 /\ 29 < 1)) /\
  (day_of_year (mk_datetime 2020 2 29 18 0 0 0)
     = day_of_year (mk_datetime 2020 3 1 0 0 0 0) <->
   2 = 3 /\ 29 = 1).
Proof.
  exact (day_of_year_calendar_order (mk_datetime 2020 2 29 18 0 0 0)
           (mk_datetime 2020 3 1 0 0 0 0) eq_refl eq_refl eq_refl).
Defined.

End GoesCalendar.

(** ** Formatting and the key prefix *)

Section GoesPrefix.

Import Goes.

Lemma uint_chars_digits (d : Decimal.uint) :
  Forall (fun c => In c (str "0123456789"))
    (list_ascii_of_string (NilEmpty.string_of_uint d)).
Proof.
  induction d; simpl; constructor; try assumption; simpl; tauto.
Qed.

Lemma zfill_digits (w : nat) (n : N) :
  Forall (fun c => In c (str "0123456789")) (zfill w (digits n)).
Proof.
  unfold zfill. apply Forall_app. split.
  - apply List.Forall_forall. intros c Hc. apply repeat_spec in Hc. subst c.
    simpl. tauto.
  - apply uint_chars_digits.
Qed.

Lemma zfill_no_slash (w : nat) (n : N) : ~ In "/"%char (zfill w (digits n)).
Proof.
  intros Hin. pose proof (zfill_digits w n) as Hd.
  rewrite List.Forall_forall in Hd. specialize (Hd _ Hin). simpl in Hd.
  repeat (destruct Hd as [Hd|Hd]; [discriminate Hd|]). exact Hd.
Qed.

Lemma parse_zfill (w : nat) (n : N) :
  option_map N.of_uint
    (NilEmpty.uint_of_string (string_of_list_ascii (zfill w (digits n))))
  = Some n.
Proof.
  unfold zfill. generalize (w - length (digits n))%nat as k.
  induction k as [|k IH]; simpl.
  - unfold digits. rewrite string_of_list_ascii_of_string, NilEmpty.usu.
    simpl. rewrite DecimalN.Unsigned.of_to. reflexivity.
  - destruct (NilEmpty.uint_of_string
               (string_of_list_ascii (repeat "0"%char k ++ digits n)))
      as [d|]; simpl in *; [exact IH|discriminate IH].
Qed.

Lemma zfill_inj (w w' : nat) (a b : N) :
  zfill w (digits a) = zfill w' (digits b) -> a = b.
Proof.
  intros He. pose proof (parse_zfill w a) as Ha.
  rewrite He, parse_zfill in Ha. congruence.
Qed.

Lemma format_0f_nonneg (w : nat) (n : Z) :
  0 <= n -> format_0f w n = zfill w (digits (Z.to_N n)).
Proof.
  intros Hn. unfold format_0f. destruct (Z.ltb_spec n 0); [lia|reflexivity].
Qed.

Lemma str_int_nonneg (n : Z) :
  0 <= n -> str_int n = zfill 0 (digits (Z.to_N n)).
Proof.
  intros Hn. unfold str_int. destruct (Z.ltb_spec n 0); [lia|reflexivity].
Qed.

Lemma app_sep_inj (c : ascii) (l1 l2 r1 r2 : pystr) :
  ~ In c l1 -> ~ In c l2 -> l1 ++ c :: r1 = l2 ++ c :: r2 ->
  l1 = l2 /\ r1 = r2.
Proof.
  revert l2. induction l1 as [|x l1 IH]; intros [|y l2] H1 H2 He; simpl in *.
  - injection He as ->. split; reflexivity.
  - injection He as -> _. tauto.
  - injection He as -> _. tauto.
  - injection He as -> He.
    assert (l1 = l2 /\ r1 = r2) as [-> ->] by (apply IH; tauto).
    split; reflexivity.
Qed.

Lemma padded_field_inj (w w' : nat) (a b : Z) (r1 r2 : pystr) :
  0 <= a -> 0 <= b ->
  zfill w (digits (Z.to_N a)) ++ "/"%char :: r1
  = zfill w' (digits (Z.to_N b)) ++ "/"%char :: r2 ->
  a = b /\ r1 = r2.
Proof.
  intros Ha Hb He.
  apply app_sep_inj in He; try apply zfill_no_slash.
  destruct He as [He ->]. apply zfill_inj in He. split; [lia|reflexivity].
Qed.

Lemma cmp_midnight (x y z : Z) :
  0 <= x -> 0 <= y -> 0 <= z -> cmp [x; y; z] [0; 0; 0] <> Lt.
Proof.
  intros Hx Hy Hz. simpl.
  destruct (Z.compare_spec x 0); try lia; try discriminate.
  destruct (Z.compare_spec y 0); try lia; try discriminate.
  destruct (Z.compare_spec z 0); try lia; discriminate.
Qed.

Lemma datetime_lt_hour (d : datetime) (y m dd h : Z) :
  0 <= minute d -> 0 <= second d -> 0 <= microsecond d ->
  datetime_lt d (mk_datetime y m dd h 0 0 0) =
  match cmp [year d; month d; day d; hour d] [y; m; dd; h] with
  | Lt => true
  | _ => false
  end.
Proof.
  intros H1 H2 H3. unfold datetime_lt, fields. simpl.
  pose proof (cmp_midnight _ _ _ H1 H2 H3) as Hm. simpl in Hm.
  destruct (year d ?= y); try reflexivity.
  destruct (month d ?= m); try reflexivity.
  destruct (day d ?= dd); try reflexivity.
  destruct (hour d ?= h); try reflexivity.
  destruct (minute d ?= 0); try reflexivity; [|congruence].
  destruct (second d ?= 0); try reflexivity; [|congruence].
  destruct (microsecond d ?= 0); try reflexivity; congruence.
Qed.

Lemma scan_mode_same_hour (a b : datetime) :
  check_fields a = true -> check_fields b = true -> same_hour a b ->
  scan_mode a = scan_mode b.
Proof.
  intros Ha Hb (Hy & Hm & Hd & Hh).
  apply check_fields_ranges in Ha, Hb.
  unfold scan_mode. rewrite !datetime_lt_hour by lia.
  rewrite Hy, Hm, Hd, Hh. reflexivity.
Qed.

Lemma day_of_year_inj (a b : datetime) :
  check_fields a = true -> check_fields b = true -> year a = year b ->
  day_of_year a = day_of_year b -> month a = month b /\ day a = day b.
Proof.
  intros Ha Hb Hy He.
  assert (Hab := day_of_year_lt a b Ha Hb Hy).
  assert (Hba := day_of_year_lt b a Hb Ha (eq_sym Hy)).
  destruct (Z.lt_trichotomy (month a) (month b)) as [Hm|[Hm|Hm]].
  - assert (day_of_year a < day_of_year b) by (apply Hab; left; lia). lia.
  - destruct (Z.lt_trichotomy (day a) (day b)) as [Hd|[Hd|Hd]].
    + assert (day_of_year a < day_of_year b) by (apply Hab; right; lia). lia.
    + split; assumption.
    + assert (day_of_year b < day_of_year a) by (apply Hba; right; lia). lia.
  - assert (day_of_year b < day_of_year a) by (apply Hba; left; lia). lia.
Qed.

Lemma day_of_year_pos (d : datetime) :
  check_fields d = true -> 1 <= day_of_year d.
Proof.
  intros Hv. rewrite (day_of_year_ordinal d Hv).
  pose proof (check_fields_ranges d Hv) as (_ & Hm & Hd & _).
  pose proof (days_before_month_range (year d) (month d) Hm). lia.
Qed.

(** X10: The key prefix [download_data] builds names the hour of the image
    and nothing finer: for the same product and band, two accepted dates
    give the same prefix exactly when they agree on year, month, day and
    hour. *)
Theorem prefix_identifies_hour (product : pystr) (band : Z)
  (a b : datetime) :
  check_fields a = true -> check_fields b = true ->
  (prefix_of product a band = prefix_of product b band <-> same_hour a b).
Proof.
  intros Ha Hb.
  pose proof (check_fields_ranges a Ha) as (Hya & _ & _ & Hha & _).
  pose proof (check_fields_ranges b Hb) as (Hyb & _ & _ & Hhb & _).
  pose proof (day_of_year_pos a Ha) as Hda.
  pose proof (day_of_year_pos b Hb) as Hdb.
  split.
  - unfold prefix_of. intros He.
    apply app_inv_head in He.
    change (str "/" ++ ?x) with ("/"%char :: x) in He.
    injection He as He.
    rewrite !str_int_nonneg in He by lia.
    apply padded_field_inj in He; try lia. destruct He as [Hy He].
    rewrite (format_0f_nonneg 3 (day_of_year a)),
      (format_0f_nonneg 3 (day_of_year b)), (format_0f_nonneg 2 (hour a)),
      (format_0f_nonneg 2 (hour b)) in He by lia.
    apply padded_field_inj in He; try lia. destruct He as [Hd He].
    change (str "/OR_" ++ ?x) with ("/"%char :: (str "OR_" ++ x)) in He.
    apply padded_field_inj in He; try lia. destruct He as [Hh _].
    destruct (day_of_year_inj a b Ha Hb Hy Hd) as [Hm Hdd].
    repeat split; assumption.
  - intros Hs. pose proof (scan_mode_same_hour a b Ha Hb Hs) as Hsm.
    destruct Hs as (Hy & Hm & Hd & Hh).
    unfold prefix_of.
    rewrite (day_of_year_ordinal a Ha), (day_of_year_ordinal b Hb).
    rewrite Hy, Hm, Hd, Hh, Hsm. reflexivity.
Qed.

Lemma prefix_identifies_hour_witness :
  prefix_of (str "ABI-L1b-RadF") (mk_datetime 2017 9 6 15 0 0 0) 13 =
  prefix_of (str "ABI-L1b-RadF") (mk_datetime 2017 9 6 15 30 0 0) 13 <->
  same_hour (mk_datetime 2017 9 6 15 0 0 0) (mk_datetime 2017 9 6 15 30 0 0).
Proof.
  exact (prefix_identifies_hour (str "ABI-L1b-RadF") 13
           (mk_datetime 2017 9 6 15 0 0 0) (mk_datetime 2017 9 6 15 30 0 0)
           eq_refl eq_refl).
Defined.

(** The prefix of the image of 6 September 2017, 15 h, band 13, and of an
    image after the change of scan mode. *)
Example prefix_of_example :
  prefix_of (str "ABI-L1b-RadF") (mk_datetime 2017 9 6 15 0 0 0) 13 =
    str "ABI-L1b-RadF/2017/249/15/OR_ABI-L1b-RadF-M3C13" /\
  prefix_of (str "ABI-L1b-RadF") (mk_datetime 2019 4 2 16 0 0 0) 3 =
    str "ABI-L1b-RadF/2019/092/16/OR_ABI-L1b-RadF-M6C03".
Proof. split; vm_compute; reflexivity. Qed.

End GoesPrefix.

(** ** Splitting and joining *)

Section GoesStrings.

Import Goes.

Lemma split_nonempty (sep : ascii) (s : pystr) : split sep s <> [].
Proof.
  destruct s as [|c s]; simpl; [discriminate|].
  destruct (Ascii.eqb c sep); [discriminate|].
  destruct (split sep s); discriminate.
Qed.

Lemma split_no_sep (sep : ascii) (s : pystr) :
  ~ In sep s -> split sep s = [s].
Proof.
  induction s as [|c s IH]; intros Hs; simpl; [reflexivity|].
  destruct (Ascii.eqb_spec c sep) as [->|Hc]; [exfalso; apply Hs; left; reflexivity|].
  rewrite IH; [reflexivity|]. intros Hin. apply Hs. right. exact Hin.
Qed.

Lemma split_app (sep : ascii) (a b : pystr) :
  ~ In sep a -> split sep (a ++ sep :: b) = a :: split sep b.
Proof.
  induction a as [|c a IH]; intros Ha; simpl.
  - rewrite Ascii.eqb_refl. reflexivity.
  - destruct (Ascii.eqb_spec c sep) as [->|Hc];
      [exfalso; apply Ha; left; reflexivity|].
    rewrite IH; [reflexivity|]. intros Hin. apply Ha. right. exact Hin.
Qed.

Lemma split_app_any (sep : ascii) (a b : pystr) :
  exists pre, pre <> [] /\ split sep (a ++ sep :: b) = pre ++ split sep b.
Proof.
  induction a as [|c a (pre & Hpre & IH)]; simpl.
  - exists [[]]. rewrite Ascii.eqb_refl. split; [discriminate|reflexivity].
  - destruct (Ascii.eqb c sep).
    + exists ([] :: pre). rewrite IH. split; [discriminate|reflexivity].
    + rewrite IH. destruct pre as [|w ws]; [congruence|].
      exists ((c :: w) :: ws). split; [discriminate|reflexivity].
Qed.

Lemma last_split_app (sep : ascii) (a b : pystr) :
  List.last (split sep (a ++ sep :: b)) [] = List.last (split sep b) [].
Proof.
  destruct (split_app_any sep a b) as (pre & _ & ->).
  pose proof (split_nonempty sep b) as Hne.
  destruct (split sep b) as [|w ws] eqn:E; [congruence|].
  clear. induction pre as [|p pre IH]; [reflexivity|].
  simpl. destruct (pre ++ w :: ws) eqn:E; [|exact IH].
  destruct pre; discriminate E.
Qed.

Lemma join_chars (sep c : ascii) (parts : list pystr) :
  In c (join sep parts) -> c = sep \/ exists p, In p parts /\ In c p.
Proof.
  induction parts as [|p ps IH]; simpl; [tauto|].
  destruct ps as [|q ps].
  - intros Hc. right. exists p. split; [left; reflexivity|exact Hc].
  - intros Hc. apply in_app_or in Hc. destruct Hc as [Hc|[Hc|Hc]].
    + right. exists p. split; [left; reflexivity|exact Hc].
    + left. symmetry. exact Hc.
    + destruct (IH Hc) as [->|(p' & Hp' & Hcp)]; [left; reflexivity|].
      right. exists p'. split; [right; exact Hp'|exact Hcp].
Qed.

Lemma split_join (sep : ascii) (parts : list pystr) :
  parts <> [] -> Forall (fun p => ~ In sep p) parts ->
  split sep (join sep parts) = parts.
Proof.
  induction parts as [|p ps IH]; intros Hne Hall; [congruence|].
  inversion Hall as [|? ? Hp Hps]; subst.
  destruct ps as [|q ps].
  - simpl. apply split_no_sep. exact Hp.
  - change (join sep (p :: q :: ps)) with (p ++ sep :: join sep (q :: ps)).
    rewrite split_app by exact Hp. rewrite IH; [reflexivity|discriminate|exact Hps].
Qed.

End GoesStrings.

(** ** Credentials, listing and download *)

Section GoesCredentials.

Import Goes.

Variable open_ : pystr -> option pystr.

Lemma read_aws_creds_well_formed (credPath header rest : pystr)
  (fields : list pystr) :
  open_ credPath = Some (credentials_file header fields rest) ->
  well_formed header fields rest ->
  read_aws_creds open_ credPath = Ok fields.
Proof.
  intros Ho (Hh & Hne & Hf & Hr). unfold read_aws_creds.
  unfold credentials_file in Ho.
  rewrite Ho. rewrite split_app by exact Hh.
  assert (Hline : ~ In "010"%char (join ","%char fields)).
  { intros Hin. apply join_chars in Hin.
    destruct Hin as [Hin|(p & Hp & Hin)]; [discriminate Hin|].
    rewrite List.Forall_forall in Hf. apply (Hf p Hp). exact Hin. }
  assert (Hs : exists tl,
             split "010"%char (join ","%char fields ++ rest)
             = join ","%char fields :: tl).
  { destruct Hr as [->|[r ->]].
    - rewrite app_nil_r, split_no_sep by exact Hline. eexists. reflexivity.
    - rewrite split_app by exact Hline. eexists. reflexivity. }
  destruct Hs as [tl ->]. simpl.
  rewrite split_join; [reflexivity|exact Hne|].
  eapply List.Forall_impl; [|exact Hf]. simpl. tauto.
Qed.

(** X11: [read_aws_creds] returns the comma-separated fields of the second
    line of the file, whatever the first line and the lines after the second
    hold, as long as no field contains a comma or a line break. *)
Theorem read_aws_creds_second_line (credPath header rest : pystr)
  (fields : list pystr) :
  open_ credPath = Some (credentials_file header fields rest) ->
  well_formed header fields rest ->
  read_aws_creds open_ credPath = Ok fields.
Proof. apply read_aws_creds_well_formed. Qed.

End GoesCredentials.

Section GoesListing.

Import Goes.

Lemma list_pages_listing (s3Client : s3_client) (prefix : pystr)
  (kwargs : gmap pystr pystr) (pages : list list_response) :
  listing s3Client kwargs pages ->
  forall fuel, (length pages <= fuel)%nat ->
  list_pages fuel s3Client prefix kwargs =
  (List.filter (fun key => startswith key prefix) (fst (keys_of_pages pages)),
   if snd (keys_of_pages pages) then Ok tt else Err KeyError).
Proof.
  induction 1 as [kwargs Hlast|kwargs token pages Hmore Hrest IH];
    intros [|fuel] Hfuel; simpl in Hfuel; try lia;
    cbn [list_pages keys_of_pages].
  - rewrite Hlast. destruct (Contents (s3Client kwargs)) as [objs|];
      [|reflexivity].
    cbn [fst snd]. rewrite app_nil_r. reflexivity.
  - rewrite Hmore. destruct (Contents (s3Client kwargs)) as [objs|];
      [|reflexivity].
    rewrite (IH fuel) by lia.
    destruct (keys_of_pages pages) as [ks complete]. cbn [fst snd].
    rewrite List.filter_app. reflexivity.
Qed.

(** X12: When the service ends the listing after finitely many pages, each
    asked for with the token of the page before, [get_s3_keys] yields the
    keys of the pages that begin with the prefix, in page order, and stops;
    a page without [Contents] ends it with a [KeyError] after the keys of
    the pages before it. *)
Theorem get_s3_keys_lists_pages (fuel : nat) (bucket prefix : pystr)
  (s3Client : s3_client) (pages : list list_response) :
  listing s3Client (first_request bucket prefix) pages ->
  (length pages <= fuel)%nat ->
  get_s3_keys fuel bucket s3Client prefix =
  (List.filter (fun key => startswith key prefix) (fst (keys_of_pages pages)),
   if snd (keys_of_pages pages) then Ok tt else Err KeyError).
Proof.
  intros Hl Hfuel. unfold get_s3_keys.
  apply (list_pages_listing _ _ _ _ Hl). exact Hfuel.
Qed.

Lemma list_pages_endless (s3Client : s3_client) (prefix : pystr) :
  (forall kwargs, Contents (s3Client kwargs) <> None /\
                  NextContinuationToken (s3Client kwargs) <> None) ->
  forall fuel kwargs,
    snd (list_pages fuel s3Client prefix kwargs) = OutOfSteps.
Proof.
  intros Hall. induction fuel as [|fuel IH]; intros kwargs;
    cbn [list_pages]; [reflexivity|].
  destruct (Hall kwargs) as [Hc Ht].
  destruct (Contents (s3Client kwargs)); [|congruence].
  destruct (NextContinuationToken (s3Client kwargs)) as [token|];
    [|congruence].
  specialize (IH (<[str "ContinuationToken" := token]> kwargs)).
  destruct (list_pages fuel s3Client prefix _). exact IH.
Qed.

End GoesListing.

Section GoesDownload.

Import Goes.

Variable open_ : pystr -> option pystr.
Variable boto3_client : pystr -> pystr -> s3_client.
Variable requests_get : pystr -> option pystr.
Variable open_dataset : pystr -> pystr -> option dataset.

(** X13: [get_s3_keys] puts no bound on the number of pages: against a
    service whose every reply carries a continuation token the generator
    never finishes, however many pages it is allowed, and so neither does
    [download_data]. *)
Theorem endless_listing_never_returns (fuel : nat) (date : datetime)
  (credPath bucketName product keyID key : pystr) (band : Z) :
  read_aws_creds open_ credPath = Ok [keyID; key] ->
  (forall kwargs,
     Contents (boto3_client keyID key kwargs) <> None /\
     NextContinuationToken (boto3_client keyID key kwargs) <> None) ->
  snd (get_s3_keys fuel bucketName (boto3_client keyID key)
         (prefix_of product date band)) = OutOfSteps /\
  download_data open_ boto3_client requests_get open_dataset fuel date
    credPath bucketName product band = OutOfSteps.
Proof.
  intros Hc Hall.
  pose proof (list_pages_endless _ (prefix_of product date band) Hall fuel
                (first_request bucketName (prefix_of product date band)))
    as He.
  split; [exact He|].
  unfold download_data. rewrite Hc. unfold get_s3_keys.
  change (<[str "Prefix" := prefix_of product date band]>
            ({[str "Bucket" := bucketName]} : gmap pystr pystr))
    with (first_request bucketName (prefix_of product date band)).
  destruct (list_pages fuel _ _ _) as [ks r]. simpl in He. rewrite He.
  reflexivity.
Qed.

Lemma hd_filter_find {A : Type} (f : A -> bool) (l : list A) :
  match List.filter f l with
  | [] => List.find f l = None
  | x :: _ => List.find f l = Some x
  end.
Proof.
  induction l as [|a l IH]; simpl; [reflexivity|].
  destruct (f a); simpl; [reflexivity|exact IH].
Qed.

(** X14: With credentials of two fields and a listing that ends,
    [download_data] fetches the first listed key that begins with the
    prefix and opens the reply under the key's file name; it raises
    [IndexError] when no listed key begins with the prefix and [KeyError]
    when a page of the listing has no [Contents], even if a key was found on
    an earlier page. *)
Theorem download_data_outcome (fuel : nat) (date : datetime)
  (credPath bucketName product keyID key : pystr) (band : Z)
  (pages : list list_response) :
  let prefix := prefix_of product date band in
  read_aws_creds open_ credPath = Ok [keyID; key] ->
  listing (boto3_client keyID key) (first_request bucketName prefix) pages ->
  (length pages <= fuel)%nat ->
  download_data open_ boto3_client requests_get open_dataset fuel date
    credPath bucketName product band =
  if snd (keys_of_pages pages) then
    match List.find (fun k => startswith k prefix)
            (fst (keys_of_pages pages)) with
    | None => Err IndexError
    | Some k =>
        match requests_get (object_url bucketName k) with
        | None => Err OSError
        | Some content =>
            match open_dataset (file_name k) content with
            | None => Err OSError
            | Some ds => Ok ds
            end
        end
    end
  else Err KeyError.
Proof.
  intros prefix Hc Hl Hfuel. unfold download_data. rewrite Hc.
  fold prefix. unfold get_s3_keys.
  change (<[str "Prefix" := prefix]>
            ({[str "Bucket" := bucketName]} : gmap pystr pystr))
    with (first_request bucketName prefix).
  rewrite (list_pages_listing _ prefix _ _ Hl fuel Hfuel).
  destruct (snd (keys_of_pages pages)); [|reflexivity].
  pose proof (hd_filter_find (fun k => startswith k prefix)
                (fst (keys_of_pages pages))) as Hf.
  destruct (List.filter _ _) as [|k ks]; rewrite Hf; reflexivity.
Qed.

(** X15: [download_data] fails before any request when the credentials
    cannot be read: [OSError] when the file cannot be opened, [IndexError]
    when it has a single line, [ValueError] when its second line does not
    have exactly two fields. *)
Theorem download_data_credentials_errors (fuel : nat) (date : datetime)
  (credPath bucketName product : pystr) (band : Z) :
  let run := download_data open_ boto3_client requests_get open_dataset
               fuel date credPath bucketName product band in
  (open_ credPath = None -> run = Err OSError) /\
  (forall content, open_ credPath = Some content ->
     ~ In "010"%char content -> run = Err IndexError) /\
  (forall header fields rest,
     open_ credPath = Some (credentials_file header fields rest) ->
     well_formed header fields rest -> length fields <> 2%nat ->
     run = Err ValueError).
Proof.
  intros run. unfold run, download_data. split; [|split].
  - intros Ho. unfold read_aws_creds. rewrite Ho. reflexivity.
  - intros content Ho Hn. unfold read_aws_creds. rewrite Ho.
    rewrite split_no_sep by exact Hn. reflexivity.
  - intros header fields rest Ho Hw Hlen.
    rewrite (read_aws_creds_well_formed open_ _ _ _ _ Ho Hw).
    destruct fields as [|a [|b [|c fields]]]; simpl in Hlen;
      try reflexivity; congruence.
Qed.

End GoesDownload.

Lemma read_aws_creds_second_line_witness :
  Goes.read_aws_creds
    (fun _ => Some (Goes.credentials_file
                      (Goes.str "User name,Access key ID,Secret")
                      [Goes.str "AKIA"; Goes.str "s3cr3t"] (Goes.str "")))
    (Goes.str "secrets.csv")
  = Goes.Ok [Goes.str "AKIA"; Goes.str "s3cr3t"].
Proof.
  apply (read_aws_creds_second_line
           (fun _ => Some (Goes.credentials_file
                             (Goes.str "User name,Access key ID,Secret")
                             [Goes.str "AKIA"; Goes.str "s3cr3t"]
                             (Goes.str "")))
           (Goes.str "secrets.csv")
           (Goes.str "User name,Access key ID,Secret")
           (Goes.str "") [Goes.str "AKIA"; Goes.str "s3cr3t"] eq_refl).
  unfold Goes.well_formed.
  split; [|split; [discriminate|split; [|left; reflexivity]]].
  - simpl. intros H. repeat (destruct H as [H|H]; [discriminate H|]). exact H.
  - repeat constructor; simpl; intros H;
      repeat (destruct H as [H|H]; [discriminate H|]); exact H.
Defined.

(** X16: The name under which the reply is opened is the last path
    component of the key up to its first dot. *)
Theorem file_name_of_key (dir name ext : Goes.pystr) :
  ~ In "/"%char name -> ~ In "."%char name -> ~ In "/"%char ext ->
  Goes.file_name (dir ++ "/"%char :: name ++ "."%char :: ext) = name.
Proof.
  intros Hn1 Hn2 He. unfold Goes.file_name.
  rewrite last_split_app.
  rewrite (split_no_sep "/"%char).
  - cbn [List.last]. rewrite split_app by exact Hn2. reflexivity.
  - intros Hin. apply in_app_or in Hin. destruct Hin as [Hin|[Hin|Hin]];
      [exact (Hn1 Hin)|discriminate Hin|exact (He Hin)].
Qed.

Ltac not_in_chars :=
  simpl; let H := fresh "H" in
  intros H; repeat (destruct H as [H|H]; [discriminate H|]); exact H.

Lemma two_page_listing (bucket prefix : Goes.pystr) :
  Goes.listing Goes.two_page_client (Goes.first_request bucket prefix)
    [Goes.two_page_client (Goes.first_request bucket prefix);
     Goes.two_page_client
       (<[Goes.str "ContinuationToken" := Goes.str "token"]>
          (Goes.first_request bucket prefix))].
Proof.
  assert (H0 : Goes.first_request bucket prefix
               !! Goes.str "ContinuationToken" = None).
  { unfold Goes.first_request. rewrite lookup_insert_ne by discriminate.
    apply lookup_singleton_ne. discriminate. }
  apply Goes.listing_more with (token := Goes.str "token").
  - unfold Goes.two_page_client. rewrite H0. reflexivity.
  - apply Goes.listing_last. unfold Goes.two_page_client.
    rewrite lookup_insert. reflexivity.
Qed.

Lemma get_s3_keys_lists_pages_witness :
  Goes.get_s3_keys 2 (Goes.str "noaa-goes16") Goes.two_page_client
    (Goes.str "ABI-L1b-RadF/2017/249/15/OR_ABI-L1b-RadF-M3C13")
  = ([Goes.str "ABI-L1b-RadF/2017/249/15/OR_ABI-L1b-RadF-M3C13_s00.nc";
      Goes.str "ABI-L1b-RadF/2017/249/15/OR_ABI-L1b-RadF-M3C13_s15.nc";
      Goes.str "ABI-L1b-RadF/2017/249/15/OR_ABI-L1b-RadF-M3C13_s30.nc"],
     Goes.Ok tt).
Proof.
  exact (get_s3_keys_lists_pages 2 (Goes.str "noaa-goes16")
           (Goes.str "ABI-L1b-RadF/2017/249/15/OR_ABI-L1b-RadF-M3C13")
           Goes.two_page_client _ (two_page_listing _ _) (le_n 2)).
Defined.

Lemma endless_listing_never_returns_witness :
  snd (Goes.get_s3_keys 5 (Goes.str "noaa-goes16") Goes.endless_client
         (Goes.prefix_of (Goes.str "ABI-L1b-RadF")
            (Goes.mk_datetime 2017 9 6 15 0 0 0) 13)) = Goes.OutOfSteps /\
  Goes.download_data (Goes.secrets [Goes.str "AKIA"; Goes.str "s3cr3t"])
    (fun _ _ => Goes.endless_client) (fun _ => None) (fun _ _ => None)
    5 (Goes.mk_datetime 2017 9 6 15 0 0 0) (Goes.str "secrets.csv")
    (Goes.str "noaa-goes16") (Goes.str "ABI-L1b-RadF") 13 = Goes.OutOfSteps.
Proof.
  apply (endless_listing_never_returns
           (Goes.secrets [Goes.str "AKIA"; Goes.str "s3cr3t"])
           (fun _ _ => Goes.endless_client) (fun _ => None) (fun _ _ => None)
           5 (Goes.mk_datetime 2017 9 6 15 0 0 0) (Goes.str "secrets.csv")
           (Goes.str "noaa-goes16") (Goes.str "ABI-L1b-RadF")
           (Goes.str "AKIA") (Goes.str "s3cr3t") 13).
  - reflexivity.
  - intros kwargs. split; discriminate.
Defined.

Lemma download_data_outcome_witness :
  Goes.download_data (Goes.secrets [Goes.str "AKIA"; Goes.str "s3cr3t"])
    (fun _ _ => Goes.two_page_client) (fun url => Some url)
    (Goes.open_only "OR_ABI-L1b-RadF-M3C13_s00"
       "https://noaa-goes16.s3.amazonaws.com/ABI-L1b-RadF/2017/249/15/OR_ABI-L1b-RadF-M3C13_s00.nc"
       (grid_dataset 1 1))
    2 (Goes.mk_datetime 2017 9 6 15 0 0 0) (Goes.str "secrets.csv")
    (Goes.str "noaa-goes16") (Goes.str "ABI-L1b-RadF") 13
  = Goes.Ok (grid_dataset 1 1).
Proof.
  exact (download_data_outcome
           (Goes.secrets [Goes.str "AKIA"; Goes.str "s3cr3t"])
           (fun _ _ => Goes.two_page_client) (fun url => Some url)
           (Goes.open_only "OR_ABI-L1b-RadF-M3C13_s00"
              "https://noaa-goes16.s3.amazonaws.com/ABI-L1b-RadF/2017/249/15/OR_ABI-L1b-RadF-M3C13_s00.nc"
              (grid_dataset 1 1))
           2 (Goes.mk_datetime 2017 9 6 15 0 0 0) (Goes.str "secrets.csv")
           (Goes.str "noaa-goes16") (Goes.str "ABI-L1b-RadF")
           (Goes.str "AKIA") (Goes.str "s3cr3t") 13 _
           eq_refl (two_page_listing _ _) (le_n 2)).
Defined.

Lemma download_data_credentials_errors_witness :
  Goes.download_data (Goes.secrets [Goes.str "AKIA"])
    (fun _ _ => Goes.two_page_client) (fun url => Some url)
    (fun _ _ => None)
    2 (Goes.mk_datetime 2017 9 6 15 0 0 0) (Goes.str "secrets.csv")
    (Goes.str "noaa-goes16") (Goes.str "ABI-L1b-RadF") 13
  = Goes.Err Goes.ValueError.
Proof.
  apply (proj2 (proj2 (download_data_credentials_errors
           (Goes.secrets [Goes.str "AKIA"])
           (fun _ _ => Goes.two_page_client) (fun url => Some url)
           (fun _ _ => None)
           2 (Goes.mk_datetime 2017 9 6 15 0 0 0) (Goes.str "secrets.csv")
           (Goes.str "noaa-goes16") (Goes.str "ABI-L1b-RadF") 13))
           (Goes.str "Access key ID,Secret access key") [Goes.str "AKIA"]
           (Goes.str "") eq_refl).
  - unfold Goes.well_formed.
    split; [not_in_chars|split; [discriminate|split; [|left; reflexivity]]].
    repeat constructor; not_in_chars.
  - simpl. lia.
Defined.

Lemma file_name_of_key_witness :
  Goes.file_name
    (Goes.str "ABI-L1b-RadF/2017/249/15/OR_ABI-L1b-RadF-M3C13_s00.nc")
  = Goes.str "OR_ABI-L1b-RadF-M3C13_s00".
Proof.
  apply (file_name_of_key (Goes.str "ABI-L1b-RadF/2017/249/15")
           (Goes.str "OR_ABI-L1b-RadF-M3C13_s00") (Goes.str "nc"));
    not_in_chars.
Defined.

(** * File names of the crops *)

Section FigNames.

Import Goes FigName.

Lemma zfill_no_char (c : ascii) (w : nat) (n : N) :
  ~ In c (str "0123456789") -> ~ In c (zfill w (digits n)).
Proof.
  intros Hc Hin. pose proof (zfill_digits w n) as Hd.
  rewrite List.Forall_forall in Hd. exact (Hc (Hd _ Hin)).
Qed.

Lemma zfill_length_checked (w : nat) (bound : Z) :
  forallb (fun n => Nat.eqb (length (zfill w (digits (N.of_nat n)))) w)
    (seq 0 (Z.to_nat bound)) = true ->
  forall z, 0 <= z < bound ->
  length (zfill w (digits (Z.to_N z))) = w.
Proof.
  intros Hall z Hz. rewrite forallb_forall in Hall.
  specialize (Hall (Z.to_nat z)).
  rewrite Nat.eqb_eq in Hall.
  replace (N.of_nat (Z.to_nat z)) with (Z.to_N z) in Hall by lia.
  apply Hall. apply in_seq. lia.
Qed.

Lemma zfill2_length (z : Z) :
  0 <= z < 100 -> length (zfill 2 (digits (Z.to_N z))) = 2%nat.
Proof.
  intros Hz. apply (zfill_length_checked 2 100); [|lia].
  vm_compute. reflexivity.
Qed.

Lemma sep_field_inj (c : ascii) (w w' : nat) (a b : Z) (r1 r2 : pystr) :
  ~ In c (str "0123456789") -> 0 <= a -> 0 <= b ->
  zfill w (digits (Z.to_N a)) ++ c :: r1
  = zfill w' (digits (Z.to_N b)) ++ c :: r2 ->
  a = b /\ r1 = r2.
Proof.
  intros Hc Ha Hb He.
  apply app_sep_inj in He; try (apply zfill_no_char; exact Hc).
  destruct He as [He ->]. apply zfill_inj in He. split; [lia|reflexivity].
Qed.

Lemma strftime_inj (a b : datetime) (r1 r2 : pystr) :
  four_digit_year a -> four_digit_year b ->
  strftime a ++ r1 = strftime b ++ r2 -> same_hour a b /\ r1 = r2.
Proof.
  intros [Ha Hya] [Hb Hyb] He.
  pose proof (check_fields_ranges a Ha) as (Ya & Ma & Da & Hha & _).
  pose proof (check_fields_ranges b Hb) as (Yb & Mb & Db & Hhb & _).
  pose proof (days_in_month_pos (year a) (month a) Ma).
  pose proof (days_in_month_pos (year b) (month b) Mb).
  assert (Hz : forall w n, ~ In "_"%char (zfill w (digits n)))
    by (intros w n; apply zfill_no_char; not_in_chars).
  unfold strftime in He. rewrite <- !app_assoc in He.
  change (str "_" ++ ?x) with ("_"%char :: x) in He.
  change (str "Z" ++ ?x) with ("Z"%char :: x) in He.
  rewrite !app_assoc in He.
  apply app_sep_inj in He;
    [|rewrite !in_app_iff; pose proof (Hz 4%nat) as H4;
      pose proof (Hz 2%nat) as H2'; intros [[Hi|Hi]|Hi];
      [exact (H4 _ Hi)|exact (H2' _ Hi)|exact (H2' _ Hi)]..].
  destruct He as [Hdate He].
  apply app_inj_2 in Hdate; [|rewrite !zfill2_length by lia; reflexivity].
  destruct Hdate as [Hdate Hd]. apply zfill_inj in Hd.
  apply app_inj_2 in Hdate; [|rewrite !zfill2_length by lia; reflexivity].
  destruct Hdate as [Hy Hm]. apply zfill_inj in Hy, Hm.
  apply sep_field_inj in He; [|not_in_chars|lia|lia].
  destruct He as [Hh He].
  split; [|exact He]. unfold same_hour. lia.
Qed.

(** X17: two crops are written to the same PNG file exactly when they are of
    the same kind, their dates agree up to the hour, and they have the same
    center and buffer: the file name tells apart everything but the minutes
    and seconds of the date. *)
Theorem figPath_collisions (k1 k2 : kind) (dt1 dt2 : datetime)
  (x1 y1 b1 x2 y2 b2 : Z) :
  four_digit_year dt1 -> four_digit_year dt2 ->
  0 <= x1 -> 0 <= y1 -> 0 <= b1 -> 0 <= x2 -> 0 <= y2 -> 0 <= b2 ->
  (figPath k1 dt1 x1 y1 b1 = figPath k2 dt2 x2 y2 b2 <->
   k1 = k2 /\ same_hour dt1 dt2 /\ x1 = x2 /\ y1 = y2 /\ b1 = b2).
Proof.
  intros H1 H2 Hx1 Hy1 Hb1 Hx2 Hy2 Hb2. split.
  - intros He. unfold figPath in He.
    assert (Hk : k1 = k2).
    { destruct k1, k2; try reflexivity; simpl in He; discriminate He. }
    subst k2. split; [reflexivity|].
    apply app_inv_head in He. unfold figPart in He.
    rewrite <- !app_assoc in He.
    apply strftime_inj in He; try assumption. destruct He as [Hs He].
    split; [exact Hs|].
    rewrite !format_0f_nonneg, !str_int_nonneg in He by lia.
    change (str "_" ++ ?x) with ("_"%char :: x) in He.
    change (str "_cropped.png") with ("_"%char :: str "cropped.png") in He.
    injection He as He.
    apply sep_field_inj in He; [|not_in_chars|lia|lia].
    destruct He as [Hx He].
    apply sep_field_inj in He; [|not_in_chars|lia|lia].
    destruct He as [Hy He].
    apply sep_field_inj in He; [|not_in_chars|lia|lia].
    destruct He as [Hb _].
    repeat split; assumption.
  - intros (-> & (Hy & Hm & Hd & Hh) & -> & -> & ->).
    unfold figPath, figPart, strftime. rewrite Hy, Hm, Hd, Hh. reflexivity.
Qed.

Lemma figPath_collisions_witness :
  figPath Positive (mk_datetime 2017 9 6 15 0 0 0) 2712 1843 249 =
  figPath Positive (mk_datetime 2017 9 6 15 30 0 0) 2712 1843 249 <->
  Positive = Positive /\
  same_hour (mk_datetime 2017 9 6 15 0 0 0) (mk_datetime 2017 9 6 15 30 0 0) /\
  2712 = 2712 /\ 1843 = 1843 /\ 249 = 249.
Proof.
  apply (figPath_collisions Positive Positive
           (mk_datetime 2017 9 6 15 0 0 0) (mk_datetime 2017 9 6 15 30 0 0)
           2712 1843 249 2712 1843 249);
    try lia; (split; [reflexivity|simpl; lia]).
Defined.

(** The name of a positive crop of 6 September 2017, 15 h. *)
Example figPath_example :
  figPath Positive (mk_datetime 2017 9 6 15 0 0 0) 2712 843 249 =
  str "./data/training/positive/20170906_15Z_02712_00843_249_cropped.png".
Proof. vm_compute. reflexivity. Qed.

Lemma replace_png_skips (new s t : pystr) :
  ~ In "p"%char s ->
  replace_from 0 (str "png") new (s ++ t)
  = s ++ replace_from 0 (str "png") new t.
Proof.
  induction s as [|c s IH]; intros Hs; [reflexivity|].
  change ((c :: s) ++ t) with (c :: (s ++ t)).
  cbn [replace_from]. 
  replace (startswith (c :: s ++ t) (str "png")) with false.
  - rewrite IH; [reflexivity|]. intros Hin. apply Hs. right. exact Hin.
  - simpl. destruct (Ascii.eqb_spec c "p"%char) as [->|_]; [|reflexivity].
    exfalso. apply Hs. left. reflexivity.
Qed.

Lemma replace_png_directory (k : kind) (new t : pystr) :
  replace_from 0 (str "png") new (directory k ++ t)
  = directory k ++ replace_from 0 (str "png") new t.
Proof. destruct k; reflexivity. Qed.

Lemma format_0f_no_p (w : nat) (n : Z) : ~ In "p"%char (format_0f w n).
Proof.
  unfold format_0f. destruct (n <? 0).
  - intros [H|H]; [discriminate H|]. revert H. apply zfill_no_char.
    not_in_chars.
  - apply zfill_no_char. not_in_chars.
Qed.

Lemma str_int_no_p (n : Z) : ~ In "p"%char (str_int n).
Proof.
  unfold str_int. destruct (n <? 0).
  - intros [H|H]; [discriminate H|]. revert H.
    apply (zfill_no_char _ 0). not_in_chars.
  - apply (zfill_no_char _ 0). not_in_chars.
Qed.

Lemma figPart_no_p (dt : datetime) (xInd yInd buffer : Z) :
  ~ In "p"%char (figPart dt xInd yInd buffer).
Proof.
  unfold figPart, strftime. rewrite !in_app_iff.
  pose proof (format_0f_no_p 5 xInd). pose proof (format_0f_no_p 5 yInd).
  pose proof (str_int_no_p buffer).
  assert (Hz : forall w n, ~ In "p"%char (zfill w (digits n)))
    by (intros w n; apply zfill_no_char; not_in_chars).
  pose proof (Hz 4%nat (Z.to_N (year dt))).
  pose proof (Hz 2%nat (Z.to_N (month dt))).
  pose proof (Hz 2%nat (Z.to_N (day dt))).
  pose proof (Hz 2%nat (Z.to_N (hour dt))).
  assert (~ In "p"%char (str "_")) by not_in_chars.
  assert (~ In "p"%char (str "Z")) by not_in_chars.
  tauto.
Qed.

(** X18: the netCDF copy of a crop is written beside its PNG under the same
    name with the extension [nc]: in a crop's path the only occurrence of
    [png] that [replace] finds is the extension. *)
Theorem ncPath_changes_extension (k : kind) (dt : datetime)
  (xInd yInd buffer : Z) :
  ncPath (figPath k dt xInd yInd buffer)
  = directory k ++ figPart dt xInd yInd buffer ++ str "_cropped.nc".
Proof.
  unfold ncPath, replace, figPath.
  rewrite replace_png_directory.
  rewrite replace_png_skips by apply figPart_no_p.
  reflexivity.
Qed.

End FigNames.

(** * The occupancy array of a square raster *)

(** X19: on a square raster, when the two sampling phases return, the cells
    marked in the occupancy array are exactly the cells under the crops
    written for the raster, and a negative crop shares no cell with any
    other crop of the raster, positive or negative. *)
Theorem square_raster_bookkeeping (buffer : Z)
    (Proj : float -> float -> sweep -> float -> float -> float * float)
    (rng : nat -> Z) (df : list track_row) (fuel : nat) (ds : dataset)
    (date n : Z) (w : world) :
  0 <= n -> shape (Rad ds) = (n, n) ->
  match sample_raster buffer Proj rng df fuel ds date w with
  | (w', Returned st) =>
      exists new,
        saved w' = saved w ++ new /\
        (forall r c,
           marked (free st) r c = true <->
           exists s, In s new /\ sample_footprint s (n, n) r c = true) /\
        (forall (i j : nat) (s s' : sample) (r c : Z),
           i <> j -> new !! i = Some s -> new !! j = Some s' ->
           fig_kind (s_path s) = Negative ->
           sample_footprint s (n, n) r c = true ->
           sample_footprint s' (n, n) r c = false)
  | _ => True
  end.
Proof.
  intros Hn Hsh.
  destruct (sample_raster buffer Proj rng df fuel ds date w)
    as [w' [st|e|]] eqn:Hrun; [|exact I|exact I].
  destruct (square_raster_invariant buffer Proj rng df fuel ds date n w w' st
              Hn Hsh Hrun) as (new & Hsaved & _ & _ & Hm & Ha & Hp).
  exists new. split; [exact Hsaved|]. split; [exact Hm|].
  intros i j s s' r c Hij Hi Hj Hk Hfp.
  exact (negative_overlaps_nothing (n, n) new i j s s' r c Ha Hp Hij Hi Hj
           Hk Hfp).
Qed.

Lemma square_raster_bookkeeping_witness :
  let run := sample_raster 1 plain_Proj (fun k => Z.of_nat k)
               [mk_track_row 0 (of_Z 1) (of_Z 1)] 6 (grid_dataset 5 5) 0
               initial_world in
  map (fun s => (fig_kind (s_path s), fig_xInd (s_path s),
                 fig_yInd (s_path s))) (saved (fst run))
  = [(Positive, 1, 1); (Negative, 3, 1)] /\
  match run with
  | (w', Returned st) =>
      exists new,
        saved w' = saved initial_world ++ new /\
        (forall r c,
           marked (free st) r c = true <->
           exists s, In s new /\ sample_footprint s (5, 5) r c = true) /\
        (forall (i j : nat) (s s' : sample) (r c : Z),
           i <> j -> new !! i = Some s -> new !! j = Some s' ->
           fig_kind (s_path s) = Negative ->
           sample_footprint s (5, 5) r c = true ->
           sample_footprint s' (5, 5) r c = false)
  | _ => True
  end.
Proof.
  split; [vm_compute; reflexivity|].
  apply (square_raster_bookkeeping 1 plain_Proj (fun k => Z.of_nat k)
           [mk_track_row 0 (of_Z 1) (of_Z 1)] 6 (grid_dataset 5 5) 0 5
           initial_world); [lia|reflexivity].
Defined.

(** * The rows of a date *)

Section Frames.

Import Pandas.

Context {R : Type}.

Lemma number_from_labels (l : list R) (i j : Z) :
  In j (map fst (number_from i l)) -> i <= j.
Proof.
  revert i. induction l as [|r l IH]; intros i; simpl; [tauto|].
  intros [<-|Hin]; [lia|]. apply IH in Hin. lia.
Qed.

Lemma number_from_NoDup (l : list R) (i : Z) :
  List.NoDup (map fst (number_from i l)).
Proof.
  revert i. induction l as [|r l IH]; intros i; simpl; constructor.
  - intros Hin. apply number_from_labels in Hin. lia.
  - apply IH.
Qed.

Lemma mask_labels (cond : R -> bool) (df : frame R) (j : Z) :
  In j (map fst (mask cond df)) -> In j (map fst df).
Proof.
  unfold mask. induction df as [|[i r] df IH]; [tauto|].
  rewrite filter_cons. simpl. destruct (decide (cond r)); simpl; tauto.
Qed.

Lemma mask_NoDup (cond : R -> bool) (df : frame R) :
  List.NoDup (map fst df) -> List.NoDup (map fst (mask cond df)).
Proof.
  unfold mask. induction df as [|[i r] df IH]; intros Hnd; [constructor|].
  inversion Hnd as [|? ? Hni Hnd']; subst.
  rewrite filter_cons. simpl. destruct (decide (cond r)); [|apply IH, Hnd'].
  simpl. constructor; [|apply IH, Hnd'].
  intros Hin. apply Hni. exact (mask_labels cond df i Hin).
Qed.

Lemma rows_mask_number_from (cond : R -> bool) (l : list R) (i : Z) :
  rows (mask cond (number_from i l)) = filter (fun r => cond r) l.
Proof.
  unfold rows, mask. revert i. induction l as [|r l IH]; intros i;
    [reflexivity|].
  simpl. rewrite !filter_cons. simpl.
  destruct (decide (cond r)); simpl; rewrite IH; reflexivity.
Qed.

Lemma mask_index_absent (df : frame R) (i : Z) :
  ~ In i (map fst df) -> mask_index i df = [].
Proof.
  unfold mask_index. induction df as [|[j r] df IH]; intros Hni;
    [reflexivity|].
  rewrite filter_cons. simpl in *.
  destruct (decide (j =? i)) as [He|He].
  - apply Is_true_true, Z.eqb_eq in He. tauto.
  - apply IH. tauto.
Qed.

Lemma mask_index_unique (df : frame R) :
  List.NoDup (map fst df) ->
  map (fun i => rows (mask_index i df)) (index_values df)
  = map (fun r => [r]) (rows df).
Proof.
  unfold index_values, rows.
  induction df as [|[i r] df IH]; intros Hnd; [reflexivity|].
  inversion Hnd as [|? ? Hni Hnd']; subst. simpl. f_equal.
  - unfold mask_index. rewrite filter_cons. simpl.
    destruct (decide (i =? i)) as [_|Hne].
    + fold (mask_index i df). rewrite (mask_index_absent df i Hni).
      reflexivity.
    + exfalso. apply Hne. apply Is_true_true, Z.eqb_refl.
  - rewrite <- (IH Hnd'). apply map_ext_in. intros j Hj.
    unfold mask_index. rewrite filter_cons. simpl.
    destruct (decide (i =? j)) as [He|_]; [|reflexivity].
    apply Is_true_true, Z.eqb_eq in He. subst j. contradiction.
Qed.

End Frames.

(** X20: after [reset_index], every label of [indices] selects exactly one
    row of the date's sub-frame, so that [float(row['LAT'])] reads a single
    value; taken in the order of [indices], these rows are the rows of the
    frame that carry the date, in frame order. *)
Theorem one_row_per_index (df : Pandas.frame track_row) (date : Z) :
  Pandas.selected_rows (Pandas.reset_index df) date
  = map (fun row => [row]) (rows_of_date (Pandas.rows df) date).
Proof.
  unfold Pandas.selected_rows, Pandas.reset_index, rows_of_date.
  rewrite mask_index_unique.
  - rewrite rows_mask_number_from. reflexivity.
  - apply mask_NoDup, number_from_NoDup.
Qed.

(** * The track archive *)

(** X21: a file that [download_data] returned is reused: a later call for
    the same basin and directory with [overwrite=False] returns the same
    path and leaves the files as they are, whatever the server would answer.
    The first call touches no other file, and with [overwrite=True] the file
    holds what the server sent, whether or not it was there before. *)
Theorem download_data_reuses_file
  (server later : Goes.pystr -> option Goes.pystr)
  (basin dataDir path : Goes.pystr) (overwrite : bool)
  (files files' : gmap Goes.pystr Goes.pystr) :
  Ibtracs.download_data server basin dataDir overwrite files
    = (files', Goes.Ok path) ->
  Ibtracs.download_data later basin dataDir false files'
    = (files', Goes.Ok path) /\
  (forall other, other <> path -> files' !! other = files !! other) /\
  (overwrite = true ->
   files' !! path = server (Ibtracs.archive_url basin)).
Proof.
  unfold Ibtracs.download_data.
  set (filePath := (dataDir ++ Goes.str "ibtracs_" ++ basin ++
                    Goes.str ".csv")%list).
  destruct (overwrite || negb (Ibtracs.exists_ files filePath)) eqn:Hc.
  - destruct (server (Ibtracs.archive_url basin)) as [body|];
      [|discriminate].
    intros [= <- <-]. split; [|split].
    + unfold Ibtracs.exists_. rewrite lookup_insert_eq. reflexivity.
    + intros other Hne. apply lookup_insert_ne. congruence.
    + intros _. apply lookup_insert_eq.
  - intros [= <- <-]. apply orb_false_iff in Hc as [-> Hex].
    apply negb_false_iff in Hex. rewrite Hex.
    split; [reflexivity|]. split; [reflexivity|discriminate].
Qed.

Lemma download_data_reuses_file_witness :
  let path := Goes.str "./data/ibtracs_NA.csv" in
  let files' : gmap Goes.pystr Goes.pystr :=
    <[path := Goes.str "SID,SEASON"]> ∅ in
  Ibtracs.download_data (fun _ => None) (Goes.str "NA") (Goes.str "./data/")
    false files' = (files', Goes.Ok path) /\
  (forall other, other <> path ->
     files' !! other = (∅ : gmap Goes.pystr Goes.pystr) !! other) /\
  (true = true -> files' !! path = Some (Goes.str "SID,SEASON")).
Proof.
  exact (download_data_reuses_file (fun _ => Some (Goes.str "SID,SEASON"))
           (fun _ => None) (Goes.str "NA") (Goes.str "./data/")
           (Goes.str "./data/ibtracs_NA.csv") true ∅ _ eq_refl).
Defined.
